(** * pyulog: a shallow embedding of [pyulog/core.py]

    The ULog parser of [core.py] is rendered as executable Rocq functions.
    Python objects that the parser mutates in place (the [ULog] instance,
    the file handle, the subscription objects held in [_subscriptions])
    are threaded explicitly; Python exceptions are values of [exn].
    The embedding follows CPython 3.7+ ([_RUNNING_PYTHON3] is true, [dict]
    keeps insertion order) and NumPy's documented behaviour for the three
    NumPy entry points the module uses ([np.dtype], [np.frombuffer] and
    element-wise comparison of arrays). *)

From Stdlib Require Import ZArith List String Ascii Bool Lia Arith.
From Stdlib.Strings Require Import Byte.
From Stdlib Require DecimalString DecimalNat.
Import ListNotations.

Local Open Scope string_scope.
Local Open Scope list_scope.
Local Open Scope Z_scope.

Set Implicit Arguments.

(* ================================================================== *)
(** ** Python runtime: exceptions, bytes, strings, [struct], files     *)
(* ================================================================== *)

(** The exceptions the module can raise.  [Exception_ msg] is the plain
    [Exception(msg)] raised by [_read_file_header]. *)
Inductive exn : Type :=
| StructError          (* struct.error *)
| IndexError
| KeyError
| UnicodeDecodeError
| ValueError
| RecursionError
| OSError
| Exception_ (msg : string).

Inductive result (A : Type) : Type :=
| Ok (a : A)
| Raise (e : exn).
Arguments Ok {A} a.
Arguments Raise {A} e.

Definition bind {A B} (r : result A) (k : A -> result B) : result B :=
  match r with
  | Ok a => k a
  | Raise e => Raise e
  end.

Notation "x <- r ;; k" := (bind r (fun x => k))
  (at level 61, r at next level, right associativity).
Notation "' p <- r ;; k" := (bind r (fun p => k))
  (at level 61, p pattern, r at next level, right associativity).

Definition bytes := list byte.

Definition byte_val (b : byte) : Z := Z.of_N (Byte.to_N b).

Fixpoint bytes_eqb (a b : bytes) : bool :=
  match a, b with
  | [], [] => true
  | x :: a', y :: b' => Byte.eqb x y && bytes_eqb a' b'
  | _, _ => false
  end.

(** [data[a:b]] and [data[a:]] for non-negative bounds (slices clamp). *)
Definition slice {A} (a b : nat) (l : list A) : list A :=
  firstn (b - a) (skipn a l).
Definition slice_from {A} (a : nat) (l : list A) : list A := skipn a l.

(** Little-endian unsigned and two's-complement signed integers. *)
Fixpoint le_uint (bs : bytes) : Z :=
  match bs with
  | [] => 0
  | b :: bs' => byte_val b + 256 * le_uint bs'
  end.

Definition le_int (bs : bytes) : Z :=
  let u := le_uint bs in
  let w := 8 * Z.of_nat (List.length bs) in
  if u <? 2 ^ (w - 1) then u else u - 2 ^ w.

(** [struct.Struct(fmt).unpack(data)]: the buffer must have exactly the
    size of the format, else [struct.error]. *)
Definition unpack_exact (n : nat) (data : bytes) : result bytes :=
  if Nat.eqb (List.length data) n then Ok data else Raise StructError.

Definition unpack_ubyte (data : bytes) : result Z :=        (* '<B' *)
  d <- unpack_exact 1 data ;; Ok (le_uint d).
Definition _unpack_ushort (data : bytes) : result Z :=      (* '<H' *)
  d <- unpack_exact 2 data ;; Ok (le_uint d).
Definition _unpack_uint64 (data : bytes) : result Z :=      (* '<Q' *)
  d <- unpack_exact 8 data ;; Ok (le_uint d).
Definition _unpack_ushort_byte (data : bytes) : result (Z * Z) := (* '<HB' *)
  d <- unpack_exact 3 data ;;
  Ok (le_uint (firstn 2 d), le_uint (skipn 2 d)).

(** [_parse_string]: [str(cstr, 'ascii')] under Python 3. *)
Definition _parse_string (cstr : bytes) : result string :=
  if forallb (fun b => byte_val b <? 128) cstr
  then Ok (string_of_list_byte cstr)
  else Raise UnicodeDecodeError.

(** [s.split(sep)] for a one-character separator: never empty. *)
Fixpoint split (sep : ascii) (s : string) : list string :=
  match s with
  | EmptyString => [EmptyString]
  | String c s' =>
      if Ascii.eqb c sep then EmptyString :: split sep s'
      else match split sep s' with
           | h :: t => String c h :: t
           | [] => [String c EmptyString]
           end
  end.

(** [s.find(c)]: index of the first occurrence, [-1] when absent. *)
Fixpoint find_char (c : ascii) (s : string) : Z :=
  match s with
  | EmptyString => -1
  | String d s' =>
      if Ascii.eqb d c then 0
      else let r := find_char c s' in if r <? 0 then -1 else r + 1
  end.

Definition startswith (s p : string) : bool := String.prefix p s.

(** [s[a:b]] on a string, [b] possibly negative (counted from the end). *)
Definition str_slice (a b : Z) (s : string) : string :=
  let n := Z.of_nat (String.length s) in
  let b' := if b <? 0 then Z.max 0 (n + b) else b in
  string_of_list_ascii
    (slice (Z.to_nat a) (Z.to_nat b') (list_ascii_of_string s)).

(** [str(i)] for a non-negative integer. *)
Definition str_of_nat (i : nat) : string :=
  DecimalString.NilZero.string_of_uint (Nat.to_uint i).

(** A binary file opened for reading: the bytes and the position. *)
Record file_handle : Type := mk_file {
  content : bytes;
  position : nat
}.

Definition remaining (fh : file_handle) : bytes :=
  skipn (position fh) (content fh).

(** [fh.read(n)] returns at most [n] bytes and advances by what it returns. *)
Definition read (n : nat) (fh : file_handle) : bytes * file_handle :=
  let data := firstn n (remaining fh) in
  (data, mk_file (content fh) (position fh + List.length data)).

(** [fh.seek(off, 1)]: relative seek; a negative target is an [OSError]. *)
Definition seek_cur (off : Z) (fh : file_handle) : result file_handle :=
  let p := Z.of_nat (position fh) + off in
  if p <? 0 then Raise OSError
  else Ok (mk_file (content fh) (Z.to_nat p)).

(** [int(s)] on an ASCII string, after CPython's grammar: surrounding
    white space is stripped (tab to carriage return, and the blank), one
    optional sign, then decimal digits with single underscores allowed
    between digits; a text of more than 4300 digits is refused
    ([sys.int_info.default_max_str_digits]). *)
Definition is_space (c : ascii) : bool :=
  let n := nat_of_ascii c in
  (Nat.leb 9 n && Nat.leb n 13) || Nat.eqb n 32.

Definition digit_val (c : ascii) : option Z :=
  let n := nat_of_ascii c in
  if Nat.leb 48 n && Nat.leb n 57 then Some (Z.of_nat (n - 48)) else None.

Fixpoint lstrip (s : list ascii) : list ascii :=
  match s with
  | c :: s' => if is_space c then lstrip s' else s
  | [] => []
  end.

Definition strip (s : list ascii) : list ascii :=
  rev (lstrip (rev (lstrip s))).

Fixpoint int_digits (s : list ascii) (acc : Z) (after_digit : bool) : option Z :=
  match s with
  | [] => if after_digit then Some acc else None
  | c :: s' =>
      match digit_val c with
      | Some d => int_digits s' (10 * acc + d) true
      | None =>
          if Ascii.eqb c "_" && after_digit then int_digits s' acc false
          else None
      end
  end.

(** The digits of a text, underscores and all else not counted. *)
Definition digit_count (s : list ascii) : nat :=
  List.length
    (filter (fun c => match digit_val c with Some _ => true | None => false end) s).

Definition int_max_str_digits : nat := 4300.

Definition py_int (s : string) : result Z :=
  let body := strip (list_ascii_of_string s) in
  let '(sign, ds) :=
    match body with
    | c :: r => if Ascii.eqb c "-" then (-1, r)
                else if Ascii.eqb c "+" then (1, r) else (1, body)
    | [] => (1, body)
    end in
  match int_digits ds 0 false with
  | Some n =>
      if Nat.ltb int_max_str_digits (digit_count ds) then Raise ValueError
      else Ok (sign * n)
  | None => Raise ValueError
  end.

(** A Python [dict] with insertion order: assigning to a present key keeps
    its place, a new key goes last, [popitem] takes the last pair. *)
Section Dict.
Variables (K V : Type) (eqb : K -> K -> bool).

Definition dict := list (K * V).

Fixpoint dict_get (k : K) (d : dict) : option V :=
  match d with
  | [] => None
  | (k', v) :: d' => if eqb k k' then Some v else dict_get k d'
  end.

Definition dict_mem (k : K) (d : dict) : bool :=
  match dict_get k d with Some _ => true | None => false end.

Fixpoint dict_set (k : K) (v : V) (d : dict) : dict :=
  match d with
  | [] => [(k, v)]
  | (k', v') :: d' =>
      if eqb k k' then (k, v) :: d' else (k', v') :: dict_set k v d'
  end.

Definition dict_popitem (d : dict) : option ((K * V) * dict) :=
  match rev d with
  | [] => None
  | kv :: r => Some (kv, rev r)
  end.
End Dict.

(** A Python [set] of message ids. *)
Definition set_mem (x : Z) (s : list Z) : bool := existsb (Z.eqb x) s.
Definition set_add (x : Z) (s : list Z) : list Z :=
  if set_mem x s then s else s ++ [x].

(* ================================================================== *)
(** ** The primitive type table ([ULog._UNPACK_TYPES])                 *)
(* ================================================================== *)

(** The keys of [_UNPACK_TYPES]. *)
Inductive prim : Type :=
| Tint8 | Tuint8 | Tint16 | Tuint16 | Tint32 | Tuint32
| Tint64 | Tuint64 | Tfloat | Tdouble | Tbool | Tchar.

Definition prim_of_string (s : string) : option prim :=
  if String.eqb s "int8_t" then Some Tint8
  else if String.eqb s "uint8_t" then Some Tuint8
  else if String.eqb s "int16_t" then Some Tint16
  else if String.eqb s "uint16_t" then Some Tuint16
  else if String.eqb s "int32_t" then Some Tint32
  else if String.eqb s "uint32_t" then Some Tuint32
  else if String.eqb s "int64_t" then Some Tint64
  else if String.eqb s "uint64_t" then Some Tuint64
  else if String.eqb s "float" then Some Tfloat
  else if String.eqb s "double" then Some Tdouble
  else if String.eqb s "bool" then Some Tbool
  else if String.eqb s "char" then Some Tchar
  else None.

Inductive np_type : Type :=
| np_int8 | np_uint8 | np_int16 | np_uint16 | np_int32 | np_uint32
| np_int64 | np_uint64 | np_float32 | np_float64.

(** One row of the table: struct format character, size, NumPy type. *)
Definition _UNPACK_TYPES (p : prim) : ascii * nat * np_type :=
  match p with
  | Tint8   => ("b"%char, 1%nat, np_int8)
  | Tuint8  => ("B"%char, 1%nat, np_uint8)
  | Tint16  => ("h"%char, 2%nat, np_int16)
  | Tuint16 => ("H"%char, 2%nat, np_uint16)
  | Tint32  => ("i"%char, 4%nat, np_int32)
  | Tuint32 => ("I"%char, 4%nat, np_uint32)
  | Tint64  => ("q"%char, 8%nat, np_int64)
  | Tuint64 => ("Q"%char, 8%nat, np_uint64)
  | Tfloat  => ("f"%char, 4%nat, np_float32)
  | Tdouble => ("d"%char, 8%nat, np_float64)
  | Tbool   => ("?"%char, 1%nat, np_int8)
  | Tchar   => ("c"%char, 1%nat, np_int8)
  end.

Definition unpack_size (p : prim) : nat := snd (fst (_UNPACK_TYPES p)).
Definition unpack_np (p : prim) : np_type := snd (_UNPACK_TYPES p).

(** [ULog.get_field_size(type_str)]: a [KeyError] on an unknown name. *)
Definition get_field_size (type_str : string) : result nat :=
  match prim_of_string type_str with
  | Some p => Ok (unpack_size p)
  | None => Raise KeyError
  end.

(** Python values an info or parameter message can carry.  A float keeps
    the bit pattern it was read from (its width in bytes and the bits). *)
Inductive pyvalue : Type :=
| PyInt (z : Z)
| PyBool (b : bool)
| PyFloat (width : nat) (bits : Z)
| PyBytes (b : bytes)
| PyStr (s : string).

(** [struct.unpack('<' + fmt, data)] for the format of a table row. *)
Definition struct_unpack (p : prim) (data : bytes) : result pyvalue :=
  d <- unpack_exact (unpack_size p) data ;;
  Ok match p with
     | Tint8 | Tint16 | Tint32 | Tint64 => PyInt (le_int d)
     | Tuint8 | Tuint16 | Tuint32 | Tuint64 => PyInt (le_uint d)
     | Tfloat => PyFloat 4 (le_uint d)
     | Tdouble => PyFloat 8 (le_uint d)
     | Tbool => PyBool (negb (le_uint d =? 0))
     | Tchar => PyBytes d
     end.

(* ================================================================== *)
(** ** Message representations                                         *)
(* ================================================================== *)

(** [ULog._MessageHeader]. *)
Record _MessageHeader : Type := mk_header {
  msg_size : Z;
  msg_type : Z
}.

Definition header_initialize (data : bytes) : result _MessageHeader :=
  '(sz, ty) <- _unpack_ushort_byte data ;; Ok (mk_header sz ty).

(** [ULog._MessageInfo]. *)
Record _MessageInfo : Type := mk_info {
  info_type : string;
  info_key : string;
  info_value : pyvalue
}.

Definition list_index {A} (l : list A) (i : nat) : result A :=
  match nth_error l i with
  | Some x => Ok x
  | None => Raise IndexError
  end.

Definition MessageInfo_init (data : bytes) : result _MessageInfo :=
  key_len <- unpack_ubyte (slice 0 1 data) ;;
  let key_len := Z.to_nat key_len in
  type_key <- _parse_string (slice 1 (1 + key_len) data) ;;
  let type_key_split := split " " type_key in
  ty <- list_index type_key_split 0 ;;
  key <- list_index type_key_split 1 ;;
  let rest := slice_from (1 + key_len) data in
  if startswith ty "char[" then
    v <- _parse_string rest ;; Ok (mk_info ty key (PyStr v))
  else
    match prim_of_string ty with
    | Some p => v <- struct_unpack p rest ;; Ok (mk_info ty key v)
    | None => Ok (mk_info ty key (PyBytes rest))
    end.

(** [ULog.MessageFormat]: [fields] holds (type, array_size, name). *)
Record MessageFormat : Type := mk_format {
  format_name : string;
  fields : list (string * Z * string)
}.

Definition _extract_type (field_str : string) : result (string * Z * string) :=
  let field_str_split := split " " field_str in
  type_str <- list_index field_str_split 0 ;;
  name_str <- list_index field_str_split 1 ;;
  let a_pos := find_char "[" type_str in
  if a_pos =? -1 then Ok (type_str, 1, name_str)
  else
    let b_pos := find_char "]" type_str in
    array_size <- py_int (str_slice (a_pos + 1) b_pos type_str) ;;
    Ok (str_slice 0 a_pos type_str, array_size, name_str).

Fixpoint extract_fields (types_str : list string)
  : result (list (string * Z * string)) :=
  match types_str with
  | [] => Ok []
  | t :: ts =>
      if Nat.ltb 0 (String.length t) then
        f <- _extract_type t ;; fs <- extract_fields ts ;; Ok (f :: fs)
      else extract_fields ts
  end.

Definition MessageFormat_init (data : bytes) : result MessageFormat :=
  s <- _parse_string data ;;
  let format_arr := split ":" s in
  name <- list_index format_arr 0 ;;
  types <- list_index format_arr 1 ;;
  fs <- extract_fields (split ";" types) ;;
  Ok (mk_format name fs).

(** [ULog.MessageLogging]. *)
Record MessageLogging : Type := mk_logging {
  log_level : Z;
  log_timestamp : Z;
  log_message : string
}.

Definition MessageLogging_init (data : bytes) : result MessageLogging :=
  lvl <- unpack_ubyte (slice 0 1 data) ;;
  ts <- _unpack_uint64 (slice 1 9 data) ;;
  msg <- _parse_string (slice_from 9 data) ;;
  Ok (mk_logging lvl ts msg).

(** [ULog.MessageDropout]. *)
Record MessageDropout : Type := mk_dropout {
  dropout_duration : Z;
  dropout_timestamp : Z
}.

Definition MessageDropout_init (data : bytes) (timestamp : Z)
  : result MessageDropout :=
  d <- _unpack_ushort data ;; Ok (mk_dropout d timestamp).

(** [ULog._FieldData].  [type_str] is always a key of [_UNPACK_TYPES]
    (the only constructor call sits under [type_name in _UNPACK_TYPES]),
    so it is kept as the key itself. *)
Record _FieldData : Type := mk_field {
  field_name : string;
  type_str : prim
}.

(** *** NumPy structured types *)

Definition np_itemsize_of (t : np_type) : nat :=
  match t with
  | np_int8 | np_uint8 => 1
  | np_int16 | np_uint16 => 2
  | np_int32 | np_uint32 | np_float32 => 4
  | np_int64 | np_uint64 | np_float64 => 8
  end%nat.

(** A packed structured dtype: (name, type) in order, no padding added. *)
Definition np_dtype := list (string * np_type).

Definition itemsize (dt : np_dtype) : nat :=
  fold_right (fun f acc => (np_itemsize_of (snd f) + acc)%nat) 0%nat dt.

Fixpoint default_names (i : nat) (l : list (string * np_type)) : np_dtype :=
  match l with
  | [] => []
  | (n, t) :: l' =>
      ((if String.eqb n "" then "f" ++ str_of_nat i else n)%string, t)
        :: default_names (S i) l'
  end.

Fixpoint has_dup (names : list string) : bool :=
  match names with
  | [] => false
  | n :: r => existsb (String.eqb n) r || has_dup r
  end.

(** [np.dtype(dtype_list)]: an empty name becomes [f<i>]; a name that
    occurs twice is a [ValueError]. *)
Definition np_dtype_make (l : list (string * np_type)) : result np_dtype :=
  let dt := default_names 0 l in
  if has_dup (map fst dt) then Raise ValueError else Ok dt.

(** Array elements: integers, and floats as their bit pattern. *)
Inductive npval : Type :=
| NpInt (z : Z)
| NpFloat (width : nat) (bits : Z).

Definition np_decode (t : np_type) (b : bytes) : npval :=
  match t with
  | np_int8 | np_int16 | np_int32 | np_int64 => NpInt (le_int b)
  | np_uint8 | np_uint16 | np_uint32 | np_uint64 => NpInt (le_uint b)
  | np_float32 => NpFloat 4 (le_uint b)
  | np_float64 => NpFloat 8 (le_uint b)
  end.

(** Split a buffer into [n] records of [size] bytes. *)
Fixpoint chunks (n size : nat) (b : bytes) : list bytes :=
  match n with
  | O => []
  | S n' => firstn size b :: chunks n' size (skipn size b)
  end.

(** [np.frombuffer(buffer, dtype)]: a [ValueError] when the item size is
    zero or does not divide the buffer length. *)
Definition np_frombuffer (buffer : bytes) (dt : np_dtype) : result (list bytes) :=
  let sz := itemsize dt in
  if Nat.eqb sz 0 then Raise ValueError
  else if negb (Nat.eqb (Nat.modulo (List.length buffer) sz) 0) then Raise ValueError
  else Ok (chunks (Nat.div (List.length buffer) sz) sz buffer).

(** [np_array[name]] for every name of the dtype, in order. *)
Fixpoint np_columns (dt : np_dtype) (off : nat) (records : list bytes)
  : list (string * list npval) :=
  match dt with
  | [] => []
  | (n, t) :: dt' =>
      let w := np_itemsize_of t in
      (n, map (fun r => np_decode t (slice off (off + w) r)) records)
        :: np_columns dt' (off + w) records
  end.

(** IEEE comparison on bit patterns. *)
Definition float_is_nan (width : nat) (bits : Z) : bool :=
  if Nat.eqb width 4
  then 2139095040 <? Z.land bits 2147483647
  else 9218868437227405312 <? Z.land bits 9223372036854775807.

Definition float_is_zero (width : nat) (bits : Z) : bool :=
  if Nat.eqb width 4
  then Z.land bits 2147483647 =? 0
  else Z.land bits 9223372036854775807 =? 0.

(** [a != b] on array elements. *)
Definition np_ne (a b : npval) : bool :=
  match a, b with
  | NpInt x, NpInt y => negb (x =? y)
  | NpFloat w x, NpFloat w' y =>
      float_is_nan w x || float_is_nan w' y
      || negb ((x =? y) || (float_is_zero w x && float_is_zero w' y))
  | _, _ => true
  end.

(** [a != 0] on an array element. *)
Definition np_ne_zero (a : npval) : bool :=
  match a with
  | NpInt x => negb (x =? 0)
  | NpFloat w x => float_is_nan w x || negb (float_is_zero w x)
  end.

(** *** [ULog._MessageAddLogged] *)

Record _MessageAddLogged : Type := mk_add_logged {
  multi_id : Z;
  msg_id : Z;
  message_name : string;
  field_data : list _FieldData;
  timestamp_idx : Z;
  timestamp_offset : nat;
  buffer : bytes;
  dtype : np_dtype
}.

Definition formats_t := dict string MessageFormat.

(** The bound on the nesting of [_parse_nested_type] calls.  CPython
    raises [RecursionError] when the interpreter stack passes
    [sys.getrecursionlimit()] frames, 1000 unless changed; the frames of
    the callers count towards that limit as well, so the source gives up
    a few calls before this bound is reached.  The bound is an upper
    bound on the nesting that flattens. *)
Definition recursion_limit : nat := 1000.

(** The entries of a primitive field: one, or one per array index. *)
Definition primitive_entries (qualified : string) (ty : prim) (array_size : Z)
  : list _FieldData :=
  if 1 <? array_size then
    map (fun i => mk_field (qualified ++ "[" ++ str_of_nat i ++ "]")%string ty)
        (seq 0 (Z.to_nat array_size))
  else [mk_field qualified ty].

(** The object's [field_data] and [timestamp_idx], as [_parse_nested_type]
    updates them. *)
Definition flat_state : Type := list _FieldData * Z.

(** [for i in range(array_size): self._parse_nested_type(prefix+field+'['+
    str(i)+'].', ...)], the recursive call being [nested]. *)
Fixpoint index_loop (nested : string -> flat_state -> result flat_state)
  (qualified : string) (idxs : list nat) (self : flat_state)
  : result flat_state :=
  match idxs with
  | [] => Ok self
  | i :: idxs' =>
      self' <- nested (qualified ++ "[" ++ str_of_nat i ++ "].")%string self ;;
      index_loop nested qualified idxs' self'
  end.

(** [for (type_name, array_size, field_name) in message_format.fields],
    the recursive call on a composite type being [nested]. *)
Fixpoint fields_loop
  (nested : string -> string -> flat_state -> result flat_state)
  (prefix_str : string) (fs : list (string * Z * string)) (self : flat_state)
  : result flat_state :=
  match fs with
  | [] => Ok self
  | (type_name, array_size, fname) :: fs' =>
      let qualified := (prefix_str ++ fname)%string in
      match prim_of_string type_name with
      | Some ty =>
          let fd := fst self ++ primitive_entries qualified ty array_size in
          let idx := if String.eqb qualified "timestamp"
                     then Z.of_nat (List.length fd) - 1
                     else snd self in
          fields_loop nested prefix_str fs' (fd, idx)
      | None =>
          if 1 <? array_size then
            self' <- index_loop (fun p => nested p type_name) qualified
                       (seq 0 (Z.to_nat array_size)) self ;;
            fields_loop nested prefix_str fs' self'
          else
            self' <- nested (qualified ++ ".")%string type_name self ;;
            fields_loop nested prefix_str fs' self'
      end
  end.

(** [_MessageAddLogged._parse_nested_type]; [depth] bounds the nesting of
    the recursive calls. *)
Fixpoint _parse_nested_type (depth : nat) (prefix_str type_name : string)
  (message_formats : formats_t) (self : flat_state) : result flat_state :=
  match depth with
  | O => Raise RecursionError
  | S depth' =>
      match dict_get String.eqb type_name message_formats with
      | None => Raise KeyError
      | Some message_format =>
          fields_loop
            (fun p t s => _parse_nested_type depth' p t message_formats s)
            prefix_str (fields message_format) self
      end
  end.
Arguments _parse_nested_type : simpl never.

(** The loop of [_parse_format] that pops trailing padding fields. *)
Fixpoint pop_padding_rev (rfd : list _FieldData) : list _FieldData :=
  match rfd with
  | f :: r => if startswith (field_name f) "_padding" then pop_padding_rev r else rfd
  | [] => []
  end.

Definition pop_padding (fd : list _FieldData) : list _FieldData :=
  rev (pop_padding_rev (rev fd)).

Definition _parse_format (message_name : string) (message_formats : formats_t)
  : result (list _FieldData * Z) :=
  '(fd, idx) <- _parse_nested_type recursion_limit "" message_name
                  message_formats ([], -1) ;;
  Ok (pop_padding fd, idx).

(** The loop of [__init__] that adds sizes up to the field "timestamp". *)
Fixpoint compute_timestamp_offset (fd : list _FieldData) : nat :=
  match fd with
  | [] => 0
  | f :: r =>
      if String.eqb (field_name f) "timestamp" then 0
      else unpack_size (type_str f) + compute_timestamp_offset r
  end%nat.

Definition dtype_list (fd : list _FieldData) : list (string * np_type) :=
  map (fun f => (field_name f, unpack_np (type_str f))) fd.

Definition MessageAddLogged_init (data : bytes) (message_formats : formats_t)
  : result _MessageAddLogged :=
  mid <- unpack_ubyte (slice 0 1 data) ;;
  id <- _unpack_ushort (slice 1 3 data) ;;
  name <- _parse_string (slice_from 3 data) ;;
  '(fd, idx) <- _parse_format name message_formats ;;
  dt <- np_dtype_make (dtype_list fd) ;;
  Ok (mk_add_logged mid id name fd idx (compute_timestamp_offset fd) [] dt).

(** *** [ULog.Data] *)

Record Data : Type := mk_data {
  data_multi_id : Z;
  data_name : string;
  data_field_data : list _FieldData;
  data_timestamp_idx : Z;
  data : dict string (list npval)
}.

Definition Data_init (m : _MessageAddLogged) : result Data :=
  np_array <- np_frombuffer (buffer m) (dtype m) ;;
  Ok (mk_data (multi_id m) (message_name m) (field_data m) (timestamp_idx m)
        (fold_left (fun d c => dict_set String.eqb (fst c) (snd c) d)
                   (np_columns (dtype m) 0 np_array) [])).

(* ================================================================== *)
(** ** The [ULog] object                                               *)
(* ================================================================== *)

(** Lines the parser prints. *)
Inductive printed : Type :=
| WarnUnknownVersion                 (* "Warning: unknown file version ..." *)
| WarnNoSubscription (msg_id : Z).   (* "Warning: no subscription found ..." *)

(** The attributes set by [ULog.__init__], and what was printed. *)
Record ULog : Type := mk_ulog {
  _start_timestamp : Z;
  _last_timestamp : Z;
  _msg_info_dict : dict string pyvalue;
  _initial_parameters : dict string pyvalue;
  _changed_parameters : list (Z * string * pyvalue);
  _message_formats : formats_t;
  _logged_messages : list MessageLogging;
  _dropouts : list MessageDropout;
  _data_list : list Data;
  _subscriptions : dict Z _MessageAddLogged;
  _filtered_message_ids : list Z;
  _missing_message_ids : list Z;
  _file_handle : file_handle;
  stdout : list printed
}.

(** Attribute assignment. *)
Definition set_start_timestamp (v : Z) (self : ULog) : ULog :=
  mk_ulog v (_last_timestamp self) (_msg_info_dict self)
    (_initial_parameters self) (_changed_parameters self)
    (_message_formats self) (_logged_messages self) (_dropouts self)
    (_data_list self) (_subscriptions self) (_filtered_message_ids self)
    (_missing_message_ids self) (_file_handle self) (stdout self).
Definition set_last_timestamp (v : Z) (self : ULog) : ULog :=
  mk_ulog (_start_timestamp self) v (_msg_info_dict self)
    (_initial_parameters self) (_changed_parameters self)
    (_message_formats self) (_logged_messages self) (_dropouts self)
    (_data_list self) (_subscriptions self) (_filtered_message_ids self)
    (_missing_message_ids self) (_file_handle self) (stdout self).
Definition set_msg_info_dict (v : dict string pyvalue) (self : ULog) : ULog :=
  mk_ulog (_start_timestamp self) (_last_timestamp self) v
    (_initial_parameters self) (_changed_parameters self)
    (_message_formats self) (_logged_messages self) (_dropouts self)
    (_data_list self) (_subscriptions self) (_filtered_message_ids self)
    (_missing_message_ids self) (_file_handle self) (stdout self).
Definition set_initial_parameters (v : dict string pyvalue) (self : ULog) : ULog :=
  mk_ulog (_start_timestamp self) (_last_timestamp self)
    (_msg_info_dict self) v (_changed_parameters self)
    (_message_formats self) (_logged_messages self) (_dropouts self)
    (_data_list self) (_subscriptions self) (_filtered_message_ids self)
    (_missing_message_ids self) (_file_handle self) (stdout self).
Definition set_changed_parameters (v : list (Z * string * pyvalue)) (self : ULog) : ULog :=
  mk_ulog (_start_timestamp self) (_last_timestamp self)
    (_msg_info_dict self) (_initial_parameters self) v
    (_message_formats self) (_logged_messages self) (_dropouts self)
    (_data_list self) (_subscriptions self) (_filtered_message_ids self)
    (_missing_message_ids self) (_file_handle self) (stdout self).
Definition set_message_formats (v : formats_t) (self : ULog) : ULog :=
  mk_ulog (_start_timestamp self) (_last_timestamp self)
    (_msg_info_dict self) (_initial_parameters self)
    (_changed_parameters self) v (_logged_messages self) (_dropouts self)
    (_data_list self) (_subscriptions self) (_filtered_message_ids self)
    (_missing_message_ids self) (_file_handle self) (stdout self).
Definition set_logged_messages (v : list MessageLogging) (self : ULog) : ULog :=
  mk_ulog (_start_timestamp self) (_last_timestamp self)
    (_msg_info_dict self) (_initial_parameters self)
    (_changed_parameters self) (_message_formats self) v (_dropouts self)
    (_data_list self) (_subscriptions self) (_filtered_message_ids self)
    (_missing_message_ids self) (_file_handle self) (stdout self).
Definition set_dropouts (v : list MessageDropout) (self : ULog) : ULog :=
  mk_ulog (_start_timestamp self) (_last_timestamp self)
    (_msg_info_dict self) (_initial_parameters self)
    (_changed_parameters self) (_message_formats self)
    (_logged_messages self) v (_data_list self) (_subscriptions self)
    (_filtered_message_ids self) (_missing_message_ids self)
    (_file_handle self) (stdout self).
Definition set_data_list (v : list Data) (self : ULog) : ULog :=
  mk_ulog (_start_timestamp self) (_last_timestamp self)
    (_msg_info_dict self) (_initial_parameters self)
    (_changed_parameters self) (_message_formats self)
    (_logged_messages self) (_dropouts self) v (_subscriptions self)
    (_filtered_message_ids self) (_missing_message_ids self)
    (_file_handle self) (stdout self).
Definition set_subscriptions (v : dict Z _MessageAddLogged) (self : ULog) : ULog :=
  mk_ulog (_start_timestamp self) (_last_timestamp self)
    (_msg_info_dict self) (_initial_parameters self)
    (_changed_parameters self) (_message_formats self)
    (_logged_messages self) (_dropouts self) (_data_list self) v
    (_filtered_message_ids self) (_missing_message_ids self)
    (_file_handle self) (stdout self).
Definition set_filtered_message_ids (v : list Z) (self : ULog) : ULog :=
  mk_ulog (_start_timestamp self) (_last_timestamp self)
    (_msg_info_dict self) (_initial_parameters self)
    (_changed_parameters self) (_message_formats self)
    (_logged_messages self) (_dropouts self) (_data_list self)
    (_subscriptions self) v (_missing_message_ids self) (_file_handle self)
    (stdout self).
Definition set_missing_message_ids (v : list Z) (self : ULog) : ULog :=
  mk_ulog (_start_timestamp self) (_last_timestamp self)
    (_msg_info_dict self) (_initial_parameters self)
    (_changed_parameters self) (_message_formats self)
    (_logged_messages self) (_dropouts self) (_data_list self)
    (_subscriptions self) (_filtered_message_ids self) v (_file_handle self)
    (stdout self).
Definition set_file_handle (v : file_handle) (self : ULog) : ULog :=
  mk_ulog (_start_timestamp self) (_last_timestamp self)
    (_msg_info_dict self) (_initial_parameters self)
    (_changed_parameters self) (_message_formats self)
    (_logged_messages self) (_dropouts self) (_data_list self)
    (_subscriptions self) (_filtered_message_ids self)
    (_missing_message_ids self) v (stdout self).
Definition set_stdout (v : list printed) (self : ULog) : ULog :=
  mk_ulog (_start_timestamp self) (_last_timestamp self)
    (_msg_info_dict self) (_initial_parameters self)
    (_changed_parameters self) (_message_formats self)
    (_logged_messages self) (_dropouts self) (_data_list self)
    (_subscriptions self) (_filtered_message_ids self)
    (_missing_message_ids self) (_file_handle self) v.

Definition HEADER_BYTES : bytes := [x55; x4c; x6f; x67; x01; x12; x35].

Definition MSG_TYPE_FORMAT : Z := 70.             (* ord('F') *)
Definition MSG_TYPE_DATA : Z := 68.               (* ord('D') *)
Definition MSG_TYPE_INFO : Z := 73.               (* ord('I') *)
Definition MSG_TYPE_PARAMETER : Z := 80.          (* ord('P') *)
Definition MSG_TYPE_ADD_LOGGED_MSG : Z := 65.     (* ord('A') *)
Definition MSG_TYPE_REMOVE_LOGGED_MSG : Z := 82.  (* ord('R') *)
Definition MSG_TYPE_SYNC : Z := 83.               (* ord('S') *)
Definition MSG_TYPE_DROPOUT : Z := 79.            (* ord('O') *)
Definition MSG_TYPE_LOGGING : Z := 76.            (* ord('L') *)

(** The two messages of [_read_file_header]'s [Exception]s. *)
Definition header_too_short : exn :=
  Exception_ "Invalid file format (Header too short)".
Definition header_bad_magic : exn :=
  Exception_ "Invalid file format (Failed to parse header)".

(** A method returns the mutated object and [None], or the object as it
    was left and the exception raised. *)
Definition outcome : Type := ULog * option exn.

(** [ULog.__init__] before [_load_file]. *)
Definition ULog_new (fh : file_handle) : ULog :=
  mk_ulog 0 0 [] [] [] [] [] [] [] [] [] [] fh [].

(** [ULog._read_file_header]. *)
Definition _read_file_header (self : ULog) : outcome :=
  let '(header_data, fh) := read 16 (_file_handle self) in
  let self := set_file_handle fh self in
  if negb (Nat.eqb (List.length header_data) 16) then
    (self, Some header_too_short)
  else if negb (bytes_eqb (slice 0 7 header_data) HEADER_BYTES) then
    (self, Some header_bad_magic)
  else
    let self :=
      if negb (bytes_eqb (slice 7 8 header_data) [x00])
      then set_stdout (stdout self ++ [WarnUnknownVersion]) self
      else self in
    match _unpack_uint64 (slice_from 8 header_data) with
    | Ok ts => (set_start_timestamp ts self, None)
    | Raise e => (self, Some e)
    end.

(** One pass of the [while True] of [_read_file_definitions]: [inl] is
    the loop going on, [inr] the method being left. *)
Definition definitions_step (self : ULog) : ULog + outcome :=
  let '(data, fh) := read 3 (_file_handle self) in
  let self := set_file_handle fh self in
  match data with
  | [] => inr (self, None)
  | _ =>
      match header_initialize data with
      | Raise e => inr (self, Some e)
      | Ok header =>
          let '(data, fh) := read (Z.to_nat (msg_size header)) (_file_handle self) in
          let self := set_file_handle fh self in
          if msg_type header =? MSG_TYPE_INFO then
            match MessageInfo_init data with
            | Ok msg_info =>
                inl (set_msg_info_dict
                       (dict_set String.eqb (info_key msg_info)
                          (info_value msg_info) (_msg_info_dict self)) self)
            | Raise e => inr (self, Some e)
            end
          else if msg_type header =? MSG_TYPE_FORMAT then
            match MessageFormat_init data with
            | Ok msg_format =>
                inl (set_message_formats
                       (dict_set String.eqb (format_name msg_format)
                          msg_format (_message_formats self)) self)
            | Raise e => inr (self, Some e)
            end
          else if msg_type header =? MSG_TYPE_PARAMETER then
            match MessageInfo_init data with
            | Ok msg_info =>
                inl (set_initial_parameters
                       (dict_set String.eqb (info_key msg_info)
                          (info_value msg_info) (_initial_parameters self)) self)
            | Raise e => inr (self, Some e)
            end
          else if (msg_type header =? MSG_TYPE_ADD_LOGGED_MSG)
                  || (msg_type header =? MSG_TYPE_LOGGING) then
            match seek_cur (- (3 + msg_size header)) (_file_handle self) with
            | Ok fh => inr (set_file_handle fh self, None)
            | Raise e => inr (self, Some e)
            end
          else inl self
      end
  end.

(** The loop, bounded by [fuel] passes; [None] when they do not suffice. *)
Fixpoint definitions_loop (fuel : nat) (self : ULog) : option outcome :=
  match fuel with
  | O => None
  | S fuel' =>
      match definitions_step self with
      | inl self' => definitions_loop fuel' self'
      | inr out => Some out
      end
  end.

(** Every pass that goes on has read a 3-byte envelope, so one pass per
    remaining byte (and one more) is enough. *)
Definition loop_fuel (self : ULog) : nat :=
  S (List.length (remaining (_file_handle self))).

Definition _read_file_definitions (self : ULog) : option outcome :=
  definitions_loop (loop_fuel self) self.

(** [ULog._MessageData.initialize]: [timestamp] is [self.timestamp] of the
    reused [msg_data] object; the subscription object is updated in its
    place in [_subscriptions]. *)
Definition MessageData_initialize (data : bytes) (timestamp : Z)
  (ulog_object : ULog) : ULog * Z * option exn :=
  match _unpack_ushort (slice 0 2 data) with
  | Raise e => (ulog_object, timestamp, Some e)
  | Ok id =>
      match dict_get Z.eqb id (_subscriptions ulog_object) with
      | Some subscription =>
          let subscription' :=
            mk_add_logged (multi_id subscription) (msg_id subscription)
              (message_name subscription) (field_data subscription)
              (timestamp_idx subscription) (timestamp_offset subscription)
              (buffer subscription ++ slice_from 2 data) (dtype subscription) in
          let ulog_object :=
            set_subscriptions
              (dict_set Z.eqb id subscription' (_subscriptions ulog_object))
              ulog_object in
          let t_off := timestamp_offset subscription in
          match _unpack_uint64 (slice (t_off + 2) (t_off + 10) data) with
          | Ok ts => (ulog_object, ts, None)
          | Raise e => (ulog_object, timestamp, Some e)
          end
      | None =>
          let ulog_object :=
            if negb (set_mem id (_filtered_message_ids ulog_object)) then
              if negb (set_mem id (_missing_message_ids ulog_object)) then
                set_stdout (stdout ulog_object ++ [WarnNoSubscription id])
                  (set_missing_message_ids
                     (set_add id (_missing_message_ids ulog_object)) ulog_object)
              else ulog_object
            else ulog_object in
          (ulog_object, 0, None)
      end
  end.

Definition name_filter := option (list string).

Definition passes_filter (message_name_filter_list : name_filter)
  (name : string) : bool :=
  match message_name_filter_list with
  | None => true
  | Some l => existsb (String.eqb name) l
  end.

(** The [if]/[elif] chain of the data loop on one framed message. *)
Definition data_dispatch (message_name_filter_list : name_filter)
  (header : _MessageHeader) (data : bytes) (msg_data_timestamp : Z)
  (self : ULog) : ULog * Z * option exn :=
  if msg_type header =? MSG_TYPE_PARAMETER then
    match MessageInfo_init data with
    | Ok msg_info =>
        (set_changed_parameters
           (_changed_parameters self
              ++ [(_last_timestamp self, info_key msg_info, info_value msg_info)])
           self, msg_data_timestamp, None)
    | Raise e => (self, msg_data_timestamp, Some e)
    end
  else if msg_type header =? MSG_TYPE_ADD_LOGGED_MSG then
    match MessageAddLogged_init data (_message_formats self) with
    | Ok msg_add_logged =>
        if passes_filter message_name_filter_list (message_name msg_add_logged) then
          (set_subscriptions
             (dict_set Z.eqb (msg_id msg_add_logged) msg_add_logged
                (_subscriptions self)) self, msg_data_timestamp, None)
        else
          (set_filtered_message_ids
             (set_add (msg_id msg_add_logged) (_filtered_message_ids self)) self,
           msg_data_timestamp, None)
    | Raise e => (self, msg_data_timestamp, Some e)
    end
  else if msg_type header =? MSG_TYPE_LOGGING then
    match MessageLogging_init data with
    | Ok msg_logging =>
        (set_logged_messages (_logged_messages self ++ [msg_logging]) self,
         msg_data_timestamp, None)
    | Raise e => (self, msg_data_timestamp, Some e)
    end
  else if msg_type header =? MSG_TYPE_DATA then
    match MessageData_initialize data msg_data_timestamp self with
    | (self, ts, None) =>
        if negb (ts =? 0) && (_last_timestamp self <? ts)
        then (set_last_timestamp ts self, ts, None)
        else (self, ts, None)
    | (self, ts, Some e) => (self, ts, Some e)
    end
  else if msg_type header =? MSG_TYPE_DROPOUT then
    match MessageDropout_init data (_last_timestamp self) with
    | Ok msg_dropout =>
        (set_dropouts (_dropouts self ++ [msg_dropout]) self,
         msg_data_timestamp, None)
    | Raise e => (self, msg_data_timestamp, Some e)
    end
  else (self, msg_data_timestamp, None).

(** How one pass of the data loop ends. *)
Inductive data_pass : Type :=
| Continue (self : ULog) (msg_data_timestamp : Z)
| Break (self : ULog)
| Raised (self : ULog) (e : exn).

Definition data_step (message_name_filter_list : name_filter)
  (msg_data_timestamp : Z) (self : ULog) : data_pass :=
  let '(data, fh) := read 3 (_file_handle self) in
  let self := set_file_handle fh self in
  match header_initialize data with
  | Raise e => Raised self e
  | Ok header =>
      let '(data, fh) := read (Z.to_nat (msg_size header)) (_file_handle self) in
      let self := set_file_handle fh self in
      if Z.of_nat (List.length data) <? msg_size header then Break self
      else
        match data_dispatch message_name_filter_list header data
                msg_data_timestamp self with
        | (self, ts, None) => Continue self ts
        | (self, _, Some e) => Raised self e
        end
  end.

Fixpoint data_loop (fuel : nat) (message_name_filter_list : name_filter)
  (msg_data_timestamp : Z) (self : ULog) : option outcome :=
  match fuel with
  | O => None
  | S fuel' =>
      match data_step message_name_filter_list msg_data_timestamp self with
      | Continue self' ts => data_loop fuel' message_name_filter_list ts self'
      | Break self' => Some (self', None)
      | Raised self' e => Some (self', Some e)
      end
  end.

(** The final [while self._subscriptions] loop, over the pairs in the
    order [popitem] hands them out (last inserted first). *)
Fixpoint materialize (popped : list (Z * _MessageAddLogged)) (self : ULog)
  : outcome :=
  match popped with
  | [] => (self, None)
  | (_, value) :: rest =>
      let self := set_subscriptions (rev rest) self in
      if Nat.ltb 0 (List.length (buffer value)) then
        match Data_init value with
        | Ok data_item =>
            materialize rest (set_data_list (_data_list self ++ [data_item]) self)
        | Raise e => (self, Some e)
        end
      else materialize rest self
  end.

(** [ULog._read_file_data]: [struct.error] from the loop is swallowed,
    any other exception leaves the method. *)
Definition _read_file_data (message_name_filter_list : name_filter)
  (self : ULog) : option outcome :=
  match data_loop (loop_fuel self) message_name_filter_list 0 self with
  | None => None
  | Some (self, None) | Some (self, Some StructError) =>
      Some (materialize (rev (_subscriptions self)) self)
  | Some (self, Some e) => Some (self, Some e)
  end.

(** [ULog._load_file], the file being its bytes. *)
Definition _load_file (message_name_filter_list : name_filter) (self : ULog)
  : option outcome :=
  match _read_file_header self with
  | (self, Some e) => Some (self, Some e)
  | (self, None) =>
      let self := set_last_timestamp (_start_timestamp self) self in
      match _read_file_definitions self with
      | None => None
      | Some (self, Some e) => Some (self, Some e)
      | Some (self, None) => _read_file_data message_name_filter_list self
      end
  end.

(** [ULog(file_name, message_name_filter_list)]. *)
Definition ULog_init (file : bytes) (message_name_filter_list : name_filter)
  : option outcome :=
  _load_file message_name_filter_list (ULog_new (mk_file file 0)).

(** [ULog.get_dataset]. *)
Definition get_dataset (self : ULog) (name : string) (multi_instance : Z)
  : result Data :=
  list_index
    (filter (fun elem => String.eqb (data_name elem) name
                         && (data_multi_id elem =? multi_instance))
            (_data_list self)) 0.

(** Boolean-mask indexing [a[mask]]: the lengths must agree. *)
Fixpoint mask_select {A} (mask : list bool) (a : list A) : result (list A) :=
  match mask, a with
  | [], [] => Ok []
  | m :: mask', x :: a' =>
      r <- mask_select mask' a' ;; Ok (if m then x :: r else r)
  | _, _ => Raise IndexError
  end.

(** [np.where(x[:-1] != x[1:])[0] + 1], counting from position [i]. *)
Fixpoint change_indices (x : list npval) (i : nat) : list nat :=
  match x with
  | a :: (b :: _) as r =>
      if np_ne a b then S i :: change_indices r (S i)
      else change_indices r (S i)
  | _ => []
  end.

(** [a[indices]] for in-range indices. *)
Definition take {A} (a : list A) (indices : list nat) : list A :=
  flat_map (fun i => match nth_error a i with Some v => [v] | None => [] end)
           indices.

(** [ULog.Data.list_value_changes]. *)
Definition list_value_changes (self : Data) (fname : string)
  : result (list (npval * npval)) :=
  match dict_get String.eqb "timestamp" (data self) with
  | None => Raise KeyError
  | Some t =>
      match dict_get String.eqb fname (data self) with
      | None => Raise KeyError
      | Some x =>
          let indices := map np_ne_zero t in
          t <- mask_select indices t ;;
          x <- mask_select indices x ;;
          match t, x with
          | t0 :: _, x0 :: _ =>
              let indices := change_indices x 0 in
              Ok ((t0, x0) :: combine (take t indices) (take x indices))
          | _, _ => Ok []
          end
      end
  end.

(* ================================================================== *)
(** ** Notions used in the statements                                  *)
(* ================================================================== *)

(** The bytes left to read in the object's file. *)
Definition bytes_left (self : ULog) : nat :=
  List.length (remaining (_file_handle self)).

(** The state a pass of the data loop leaves behind. *)
Definition pass_state (p : data_pass) : ULog :=
  match p with
  | Continue s _ | Break s | Raised s _ => s
  end.

(** The sum of the primitive widths of a field list. *)
Definition record_width (fd : list _FieldData) : nat :=
  fold_right (fun f acc => (unpack_size (type_str f) + acc)%nat) 0%nat fd.

(** A field whose name starts with the padding marker. *)
Definition is_padding (f : _FieldData) : bool :=
  startswith (field_name f) "_padding".

(** The selection made by [get_dataset]. *)
Definition dataset_matches (name : string) (multi_instance : Z) (elem : Data)
  : bool :=
  String.eqb (data_name elem) name && (data_multi_id elem =? multi_instance).

(** The timestamps of the changed-parameter events, in order. *)
Definition stamps (self : ULog) : list Z :=
  map (fun p => fst (fst p)) (_changed_parameters self).

(** [lo <= t1 <= t2 <= ... <= tn <= hi] for the list [t1 ... tn]. *)
Fixpoint stamped_upto (lo hi : Z) (l : list Z) : Prop :=
  match l with
  | [] => lo <= hi
  | t :: r => lo <= t /\ stamped_upto t hi r
  end.

(** The state after [k] passes of the data loop that all went on. *)
Fixpoint data_run (k : nat) (message_name_filter_list : name_filter)
  (msg_data_timestamp : Z) (self : ULog) : option (Z * ULog) :=
  match k with
  | O => Some (msg_data_timestamp, self)
  | S k' =>
      match data_step message_name_filter_list msg_data_timestamp self with
      | Continue self' ts => data_run k' message_name_filter_list ts self'
      | _ => None
      end
  end.

(** The state after [k] passes of the definitions loop that all went on. *)
Fixpoint definitions_run (k : nat) (self : ULog) : option ULog :=
  match k with
  | O => Some self
  | S k' =>
      match definitions_step self with
      | inl self' => definitions_run k' self'
      | inr _ => None
      end
  end.

(** A buffer that [np.frombuffer] accepts for the subscription's dtype:
    a whole number of records of a non-zero size. *)
Definition whole_records (m : _MessageAddLogged) : bool :=
  negb (Nat.eqb (itemsize (dtype m)) 0)
  && Nat.eqb (Nat.modulo (List.length (buffer m)) (itemsize (dtype m))) 0.

(** The topics the final loop makes of the popped subscriptions. *)
Definition decoded (popped : list (Z * _MessageAddLogged)) : list Data :=
  flat_map (fun kv =>
              if Nat.ltb 0 (List.length (buffer (snd kv))) then
                match Data_init (snd kv) with
                | Ok d => [d]
                | Raise _ => []
                end
              else []) popped.

(** [subscription.buffer += more]. *)
Definition buffer_append (m : _MessageAddLogged) (more : bytes)
  : _MessageAddLogged :=
  mk_add_logged (multi_id m) (msg_id m) (message_name m) (field_data m)
    (timestamp_idx m) (timestamp_offset m) (buffer m ++ more) (dtype m).

(** The object as the data phase finds it: after the header and the
    definitions of the stream. *)
Definition enter_data_phase (file : bytes) : option outcome :=
  match _read_file_header (ULog_new (mk_file file 0)) with
  | (self, Some e) => Some (self, Some e)
  | (self, None) =>
      _read_file_definitions (set_last_timestamp (_start_timestamp self) self)
  end.

(** The object after the header of a stream, ready for the definitions. *)
Definition definitions_entry (file : bytes) : ULog :=
  let self := fst (_read_file_header (ULog_new (mk_file file 0))) in
  set_last_timestamp (_start_timestamp self) self.

(** The object at the start of the data phase of a stream, and after [k]
    passes of the data loop (the fresh object when there is none). *)
Definition data_phase_entry (file : bytes) : ULog :=
  match enter_data_phase file with
  | Some (self, _) => self
  | None => ULog_new (mk_file file 0)
  end.

Definition data_phase_after (k : nat) (flt : name_filter) (file : bytes) : ULog :=
  match data_run k flt 0 (data_phase_entry file) with
  | Some (_, self) => self
  | None => ULog_new (mk_file file 0)
  end.

(** The warnings printed about message id [id]. *)
Definition is_warning_for (id : Z) (p : printed) : bool :=
  match p with
  | WarnNoSubscription i => i =? id
  | WarnUnknownVersion => false
  end.

Definition warnings_for (id : Z) (self : ULog) : nat :=
  List.length (filter (is_warning_for id) (stdout self)).

(** Each id has been warned about once if it is in [_missing_message_ids]
    and not at all otherwise. *)
Definition warned_once (self : ULog) : Prop :=
  forall id, warnings_for id self
             = if set_mem id (_missing_message_ids self) then 1%nat else 0%nat.

(* ================================================================== *)
(** ** Building streams                                                *)
(* ================================================================== *)

(** Writers for the streams the statements below are evaluated on: the
    inverse of the framing the parser reads. *)
Definition byte_of_Z (z : Z) : byte :=
  match Byte.of_N (Z.to_N (z mod 256)) with
  | Some b => b
  | None => x00
  end.

Fixpoint le_bytes (n : nat) (z : Z) : bytes :=
  match n with
  | O => []
  | S n' => byte_of_Z z :: le_bytes n' (z / 256)
  end.

Definition file_header (version : byte) (start : Z) : bytes :=
  HEADER_BYTES ++ [version] ++ le_bytes 8 start.

Definition message (type : Z) (payload : bytes) : bytes :=
  le_bytes 2 (Z.of_nat (List.length payload)) ++ [byte_of_Z type] ++ payload.

Definition format_message (text : string) : bytes :=
  message MSG_TYPE_FORMAT (list_byte_of_string text).

Definition add_logged_message (multi id : Z) (name : string) : bytes :=
  message MSG_TYPE_ADD_LOGGED_MSG
    ([byte_of_Z multi] ++ le_bytes 2 id ++ list_byte_of_string name).

Definition data_message (id : Z) (record : bytes) : bytes :=
  message MSG_TYPE_DATA (le_bytes 2 id ++ record).

Definition parameter_message (type_key : string) (value : bytes) : bytes :=
  message MSG_TYPE_PARAMETER
    ([byte_of_Z (Z.of_nat (String.length type_key))]
       ++ list_byte_of_string type_key ++ value).

(** An envelope that announces [declared] payload bytes followed by fewer. *)
Definition cut_message (type declared : Z) (present : bytes) : bytes :=
  le_bytes 2 declared ++ [byte_of_Z type] ++ present.

(** A registry whose type [t] ends in a padding field, and the payload of
    the AddLoggedMessage that subscribes to it under id 5. *)
Definition padded_formats : formats_t :=
  [("t", mk_format "t" [("uint64_t", 1, "timestamp"); ("uint8_t", 4, "_padding0")])].

Definition padded_subscribe : bytes :=
  [x00] ++ le_bytes 2 5 ++ list_byte_of_string "t".

(** Two subscriptions (ids 1 and 2) to the same topic and instance, each
    with one record. *)
Definition two_subscriptions_stream : bytes :=
  file_header x00 100
    ++ format_message "t:uint64_t timestamp;"
    ++ add_logged_message 0 1 "t" ++ add_logged_message 0 2 "t"
    ++ data_message 1 (le_bytes 8 200) ++ data_message 2 (le_bytes 8 300).

(** A decoded topic with one [uint64_t] column of timestamps. *)
Definition timestamp_topic (name : string) (multi : Z) (ts : list Z) : Data :=
  mk_data multi name [mk_field "timestamp" Tuint64] 0
    [("timestamp", map NpInt ts)].

(** A header, a parameter change, a record stamped 500, a parameter
    change, a record stamped 300 and a last parameter change. *)
Definition parameters_stream : bytes :=
  file_header x00 100
    ++ format_message "t:uint64_t timestamp;"
    ++ add_logged_message 0 1 "t"
    ++ parameter_message "int32_t P" (le_bytes 4 1)
    ++ data_message 1 (le_bytes 8 500)
    ++ parameter_message "int32_t P" (le_bytes 4 2)
    ++ data_message 1 (le_bytes 8 300)
    ++ parameter_message "int32_t P" (le_bytes 4 3).

(** One subscription with two whole records, then an envelope that
    announces 5 payload bytes of which one is present. *)
Definition cut_stream : bytes :=
  file_header x00 100
    ++ format_message "t:uint64_t timestamp;"
    ++ add_logged_message 0 1 "t"
    ++ data_message 1 (le_bytes 8 200)
    ++ data_message 1 (le_bytes 8 300)
    ++ cut_message MSG_TYPE_DATA 5 [x01].

(** The same with a 9-byte record in the place of the second one. *)
Definition odd_record_cut_stream : bytes :=
  file_header x00 100
    ++ format_message "t:uint64_t timestamp;"
    ++ add_logged_message 0 1 "t"
    ++ data_message 1 (le_bytes 9 200)
    ++ cut_message MSG_TYPE_DATA 5 [x01].

Definition cut_stream_entry : ULog :=
  Eval vm_compute in data_phase_entry cut_stream.

Definition cut_stream_at_cut : ULog :=
  Eval vm_compute in data_phase_after 3 None cut_stream.

(** A topic without a timestamp field: its one-byte record is shorter
    than the eight bytes read at the timestamp offset. *)
Definition short_record_stream : bytes :=
  file_header x00 100
    ++ format_message "t:uint8_t a;"
    ++ add_logged_message 0 1 "t"
    ++ data_message 1 [x07]
    ++ data_message 1 [x08].

(** A topic with a [uint64_t] timestamp and a record of three bytes. *)
Definition short_timestamp_stream : bytes :=
  file_header x00 100
    ++ format_message "t:uint64_t timestamp;"
    ++ add_logged_message 0 1 "t"
    ++ data_message 1 [x01; x02; x03]
    ++ data_message 1 (le_bytes 8 300).

Definition short_record_entry : ULog :=
  Eval vm_compute in data_phase_entry short_record_stream.

Definition short_record_at_data : ULog :=
  Eval vm_compute in data_phase_after 1 None short_record_stream.

(** Records for id 9, which is never subscribed, around a subscription
    to id 1. *)
Definition unknown_id_stream : bytes :=
  file_header x00 100
    ++ format_message "t:uint64_t timestamp;"
    ++ add_logged_message 0 1 "t"
    ++ data_message 1 (le_bytes 8 200)
    ++ data_message 9 (le_bytes 8 900)
    ++ data_message 9 (le_bytes 8 901)
    ++ data_message 1 (le_bytes 8 300)
    ++ data_message 9 (le_bytes 8 902).

Definition unknown_id_entry : ULog :=
  Eval vm_compute in data_phase_entry unknown_id_stream.

Definition unknown_id_at_first : ULog :=
  Eval vm_compute in data_phase_after 2 None unknown_id_stream.

Definition unknown_id_at_second : ULog :=
  Eval vm_compute in data_phase_after 3 None unknown_id_stream.

(** Two definitions and the first subscription message. *)
Definition definitions_stream : bytes :=
  file_header x00 100
    ++ format_message "t:uint64_t timestamp;"
    ++ parameter_message "int32_t P" (le_bytes 4 1)
    ++ add_logged_message 0 1 "t"
    ++ data_message 1 (le_bytes 8 200).

(** A stream whose first subscription message is cut after one payload
    byte. *)
Definition cut_subscription_stream : bytes :=
  file_header x00 100
    ++ format_message "t:uint64_t timestamp;"
    ++ cut_message MSG_TYPE_ADD_LOGGED_MSG 4 [x00].

Definition definitions_stream_entry : ULog :=
  Eval vm_compute in definitions_entry definitions_stream.

Definition definitions_stream_at_subscription : ULog :=
  Eval vm_compute in
    match definitions_run 2 definitions_stream_entry with
    | Some self => self
    | None => definitions_stream_entry
    end.

(* ================================================================== *)
(** ** Accessors of the decoded result                                 *)
(* ================================================================== *)

(** A value, or the [TypeError] of an integer operation on a non-integer. *)
Inductive or_type_error (A : Type) : Type :=
| Returns (a : A)
| TypeError.
Arguments Returns {A} a.
Arguments TypeError {A}.

(** The operand of [>>] and [&]: an [int], or a [bool] taken as 0 or 1. *)
Definition as_int (v : pyvalue) : option Z :=
  match v with
  | PyInt z => Some z
  | PyBool b => Some (if b then 1 else 0)
  | PyFloat _ _ | PyBytes _ | PyStr _ => None
  end.

(** [ULog.get_version_info]. *)
Definition get_version_info (self : ULog) (key_name : string)
  : or_type_error (option (Z * Z * Z * Z)) :=
  match dict_get String.eqb key_name (_msg_info_dict self) with
  | Some v =>
      match as_int v with
      | Some val =>
          Returns (Some (Z.land (Z.shiftr val 24) 255,
                         Z.land (Z.shiftr val 16) 255,
                         Z.land (Z.shiftr val 8) 255,
                         Z.land val 255))
      | None => TypeError
      end
  | None => Returns None
  end.

(** [str(n)] for an integer. *)
Definition str_of_Z (z : Z) : string :=
  if z <? 0 then ("-" ++ str_of_nat (Z.to_nat (- z)))%string
  else str_of_nat (Z.to_nat z).

(** [ULog.get_version_info_str]. *)
Definition get_version_info_str (self : ULog) (key_name : string)
  : or_type_error (option string) :=
  match get_version_info self key_name with
  | TypeError => TypeError
  | Returns None => Returns None
  | Returns (Some (major, minor, patch, release)) =>
      if 64 <=? release then
        let type_str :=
          if release <? 128 then " (alpha)"
          else if release <? 192 then " (beta)"
          else if release <? 255 then " (RC)"
          else "" in
        Returns (Some ("v" ++ str_of_Z major ++ "." ++ str_of_Z minor ++ "."
                         ++ str_of_Z patch ++ type_str)%string)
      else Returns None
  end.

(** [ULog.MessageLogging.log_level_str]. *)
Definition log_level_str (self : MessageLogging) : string :=
  let level := log_level self in
  if level =? 48 then "EMERGENCY"
  else if level =? 49 then "ALERT"
  else if level =? 50 then "CRITICAL"
  else if level =? 51 then "ERROR"
  else if level =? 52 then "WARNING"
  else if level =? 53 then "NOTICE"
  else if level =? 54 then "INFO"
  else if level =? 55 then "DEBUG"
  else "UNKNOWN".

(** A header followed by two stray bytes, and a stream that ends with
    one stray byte after a record. *)
Definition stray_definitions_stream : bytes :=
  file_header x00 100 ++ [x01; x02].

Definition stray_data_stream : bytes :=
  file_header x00 100
    ++ format_message "t:uint64_t timestamp;"
    ++ add_logged_message 0 1 "t"
    ++ data_message 1 (le_bytes 8 200)
    ++ [x01].

Definition stray_data_entry : ULog :=
  Eval vm_compute in data_phase_entry stray_data_stream.

Definition stray_data_at_end : ULog :=
  Eval vm_compute in data_phase_after 2 None stray_data_stream.

(** The exceptions that can leave the data phase. *)
Definition leaves_data_phase (e : exn) : bool :=
  match e with
  | IndexError | KeyError | UnicodeDecodeError | ValueError | RecursionError =>
      true
  | StructError | OSError | Exception_ _ => false
  end.

(** A Logging message with a byte that is not ASCII in its text. *)
Definition bad_text_stream : bytes :=
  file_header x00 100
    ++ message MSG_TYPE_LOGGING ([x34] ++ le_bytes 8 7 ++ [xff]).

(** A subscription, a record, a RemoveLoggedMessage for the id, a Sync
    message and another record. *)
Definition remove_stream : bytes :=
  file_header x00 100
    ++ format_message "t:uint64_t timestamp;"
    ++ add_logged_message 0 1 "t"
    ++ data_message 1 (le_bytes 8 200)
    ++ message MSG_TYPE_REMOVE_LOGGED_MSG (le_bytes 2 1)
    ++ message MSG_TYPE_SYNC (le_bytes 8 0)
    ++ data_message 1 (le_bytes 8 300).

Definition remove_stream_entry : ULog :=
  Eval vm_compute in data_phase_entry remove_stream.

Definition remove_stream_at_remove : ULog :=
  Eval vm_compute in data_phase_after 2 None remove_stream.

(** Two topics with a record each. *)
Definition two_topics_stream : bytes :=
  file_header x00 100
    ++ format_message "a:uint64_t timestamp;"
    ++ format_message "b:uint64_t timestamp;"
    ++ add_logged_message 0 1 "a"
    ++ add_logged_message 0 2 "b"
    ++ data_message 1 (le_bytes 8 200)
    ++ data_message 2 (le_bytes 8 300).

Definition two_topics_filtered_entry : ULog :=
  Eval vm_compute in data_phase_entry two_topics_stream.

Definition two_topics_filtered_at_record : ULog :=
  Eval vm_compute in data_phase_after 2 (Some ["b"]) two_topics_stream.

(** Every subscription and every decoded topic passes the name filter. *)
Definition names_pass (flt : name_filter) (self : ULog) : Prop :=
  (forall id sub, In (id, sub) (_subscriptions self) ->
     passes_filter flt (message_name sub) = true)
  /\ (forall d, In d (_data_list self) -> passes_filter flt (data_name d) = true).

(** How many entries a declared field of array size [n] stands for. *)
Definition field_count (array_size : Z) : nat :=
  if 1 <? array_size then Z.to_nat array_size else 1%nat.

(** The width of a list of declared primitive fields: every field counts
    its primitive width once per element. *)
Fixpoint declared_width (fs : list (string * Z * string)) : nat :=
  match fs with
  | [] => 0
  | (type_name, array_size, _) :: fs' =>
      (match prim_of_string type_name with
       | Some ty => unpack_size ty * field_count array_size
       | None => 0
       end + declared_width fs')%nat
  end.

Fixpoint declared_count (fs : list (string * Z * string)) : nat :=
  match fs with
  | [] => 0
  | (_, array_size, _) :: fs' => (field_count array_size + declared_count fs')%nat
  end.

(** A registry with one type of primitive fields only. *)
Definition primitive_formats : formats_t :=
  [("imu", mk_format "imu"
             [("uint64_t", 1, "timestamp"); ("float", 3, "gyro");
              ("int16_t", 2, "raw"); ("bool", 1, "ok")])].

(** What a run of the flattening adds to the object. *)
Definition appends (prefix_str : string) (self self' : flat_state) : Prop :=
  exists added,
    fst self' = fst self ++ added
    /\ Forall (fun f => startswith (field_name f) prefix_str = true) added
    /\ (snd self' = snd self
        \/ Z.of_nat (List.length (fst self)) <= snd self'
           < Z.of_nat (List.length (fst self'))).

(** The payload of the AddLoggedMessage that subscribes to [name]. *)
Definition subscribe_payload (multi id : Z) (name : string) : bytes :=
  [byte_of_Z multi] ++ le_bytes 2 id ++ list_byte_of_string name.

(** A registry with a type that has no field named "timestamp" and one
    whose timestamp comes second. *)
Definition offset_formats : formats_t :=
  [("plain", mk_format "plain" [("uint16_t", 1, "a"); ("uint16_t", 1, "b")]);
   ("late", mk_format "late" [("uint32_t", 1, "seq"); ("uint64_t", 1, "timestamp");
                               ("uint8_t", 1, "flag")])].

(** A subscription to [{uint16_t a; int8_t b}] with three records in its
    buffer. *)
Definition three_records : _MessageAddLogged :=
  mk_add_logged 0 1 "t" [mk_field "a" Tuint16; mk_field "b" Tint8] (-1) 3
    [x01; x00; xff; x02; x00; x7f; x03; x00; x80]
    [("a", np_uint16); ("b", np_int8)].

(** The value changes as the docstring of [list_value_changes] words
    them: of the samples with a non-zero timestamp, the first one and
    every one whose value differs from that of the sample before it. *)
Fixpoint keep_changes (previous : npval) (samples : list (npval * npval))
  : list (npval * npval) :=
  match samples with
  | [] => []
  | (t, x) :: rest =>
      if np_ne previous x then (t, x) :: keep_changes x rest
      else keep_changes x rest
  end.

Definition value_changes_spec (t x : list npval) : list (npval * npval) :=
  match filter (fun s => np_ne_zero (fst s)) (combine t x) with
  | [] => []
  | (t0, x0) :: rest => (t0, x0) :: keep_changes x0 rest
  end.

(** The records of a topic that carry a non-zero timestamp, as
    (timestamp, value) pairs in record order. *)
Definition retained (t x : list npval) : list (npval * npval) :=
  filter (fun s => np_ne_zero (fst s)) (combine t x).

(** A topic with three records stamped 0 among those stamped 10 to 60,
    and the topic of the six records stamped 10 to 60 alone. *)
Definition gapped_topic : Data :=
  mk_data 0 "t" [mk_field "timestamp" Tuint64; mk_field "x" Tint32] 0
    [("timestamp", map NpInt [0; 10; 20; 0; 30; 40; 50; 0; 60]);
     ("x", map NpInt [9; 5; 5; 1; 5; 7; 7; 7; 3])].

Definition plain_topic : Data :=
  mk_data 0 "t" [mk_field "timestamp" Tuint64; mk_field "x" Tint32] 0
    [("timestamp", map NpInt [10; 20; 30; 40; 50; 60]);
     ("x", map NpInt [5; 5; 5; 7; 7; 3])].

(** The payload of an Info or Parameter message, as the writer frames
    it: the length of the "type key" text in one byte, the text, the raw
    value. *)
Definition info_payload (type_key : string) (value : bytes) : bytes :=
  [byte_of_Z (Z.of_nat (String.length type_key))]
    ++ list_byte_of_string type_key ++ value.

(** A text without the character [sep]. *)
Definition without (sep : ascii) (s : string) : bool :=
  negb (existsb (Ascii.eqb sep) (list_ascii_of_string s)).

(** A text of 7-bit characters. *)
Definition ascii7 (s : string) : bool :=
  forallb (fun b => byte_val b <? 128) (list_byte_of_string s).

(** The integer range of a primitive type ([None] for the others). *)
Definition int_range (p : prim) : option (Z * Z) :=
  match p with
  | Tint8 => Some (-128, 128)
  | Tint16 => Some (-32768, 32768)
  | Tint32 => Some (-2147483648, 2147483648)
  | Tint64 => Some (-9223372036854775808, 9223372036854775808)
  | Tuint8 => Some (0, 256)
  | Tuint16 => Some (0, 65536)
  | Tuint32 => Some (0, 4294967296)
  | Tuint64 => Some (0, 18446744073709551616)
  | Tfloat | Tdouble | Tbool | Tchar => None
  end.

(** A field of a Format message as the writer spells it: [type name],
    or [type[n] name] for an array of [n] elements. *)
Definition array_field_text (type_name : string) (n : nat) (fname : string)
  : string :=
  (type_name ++ "[" ++ str_of_nat n ++ "] " ++ fname)%string.

Definition scalar_field_text (type_name fname : string) : string :=
  (type_name ++ " " ++ fname)%string.

(** A decimal digit. *)
Definition is_digit (c : ascii) : bool :=
  match digit_val c with Some _ => true | None => false end.


(** A field as a writer declares it: type, array length if any, name;
    its spelling, and the entry the reader keeps for it. *)
Definition field_decl : Type := string * option nat * string.

Definition field_text (d : field_decl) : string :=
  let '(t, n, f) := d in
  match n with
  | Some n => array_field_text t n f
  | None => scalar_field_text t f
  end.

Definition field_entry (d : field_decl) : string * Z * string :=
  let '(t, n, f) := d in
  (t, match n with Some n => Z.of_nat n | None => 1 end, f).

(** A declaration whose type and name hold none of the separators and
    whose array length, if any, has no more digits than [int] converts. *)
Definition spelt (d : field_decl) : bool :=
  let '(t, n, f) := d in
  forallb (fun c => without c t) [" "; "["; "]"; ";"; ":"]%char
  && forallb (fun c => without c f) [" "; ";"; ":"]%char
  && match n with
     | Some n => Nat.leb (String.length (str_of_nat n)) int_max_str_digits
     | None => true
     end.

(** The text of a Format message: [name:field;field;...;]. *)
Definition fields_text (ds : list field_decl) : string :=
  fold_right (fun d rest => field_text d ++ ";" ++ rest)%string "" ds.

Definition format_text (name : string) (ds : list field_decl) : string :=
  (name ++ ":" ++ fields_text ds)%string.


(** The payloads of a Logging and of a Dropout message as a writer lays
    them out. *)
Definition logging_payload (level timestamp : Z) (text : string) : bytes :=
  [byte_of_Z level] ++ le_bytes 8 timestamp ++ list_byte_of_string text.

Definition dropout_payload (duration : Z) : bytes := le_bytes 2 duration.

(** A stream on which the data phase meets a Dropout message first with a
    payload of three bytes, then a Logging message. *)
Definition long_dropout_stream : bytes :=
  message MSG_TYPE_DROPOUT [x01; x00; x00]
    ++ message MSG_TYPE_LOGGING (logging_payload 52 7 "late").


(** The timestamp the parser reads in a record of a subscription. *)
Definition stamp (sub : _MessageAddLogged) (record : bytes) : Z :=
  le_uint (slice (timestamp_offset sub) (timestamp_offset sub + 8) record).

(** [_last_timestamp] after a record stamped [t]. *)
Definition later (last t : Z) : Z :=
  if negb (t =? 0) && (last <? t) then t else last.

(** The column of a field of type [t] that starts [off] bytes into each
    record. *)
Definition column (t : np_type) (off : nat) (records : list bytes)
  : list npval :=
  map (fun r => np_decode t (slice off (off + np_itemsize_of t) r)) records.

(** A subscription to [{uint16_t a; uint64_t timestamp; int8_t b}] under
    id 3, and three records of it. *)
Definition mixed_formats : formats_t :=
  [("m", mk_format "m" [("uint16_t", 1, "a"); ("uint64_t", 1, "timestamp");
                        ("int8_t", 1, "b")])].

Definition mixed_records : list bytes :=
  [le_bytes 2 10 ++ le_bytes 8 1000 ++ le_bytes 1 (-1);
   le_bytes 2 20 ++ le_bytes 8 3000 ++ le_bytes 1 5;
   le_bytes 2 30 ++ le_bytes 8 2000 ++ le_bytes 1 (-128)].

Definition mixed_stream : bytes :=
  add_logged_message 0 3 "m"
    ++ List.concat (map (data_message 3) mixed_records).

Definition mixed_entry : ULog :=
  set_message_formats mixed_formats (ULog_new (mk_file mixed_stream 0)).

Definition mixed_subscribed : ULog :=
  Eval vm_compute in
    match data_run 1 None 0 mixed_entry with
    | Some (_, s) => s
    | None => mixed_entry
    end.

Definition mixed_subscription : _MessageAddLogged :=
  Eval vm_compute in
    match dict_get Z.eqb 3 (_subscriptions mixed_subscribed) with
    | Some sub => sub
    | None => mk_add_logged 0 0 "" [] 0 0 [] []
    end.


(** A registry whose type [outer] has a field of a type that is not
    declared, and whose type [node] has a field of its own type. *)
Definition broken_formats : formats_t :=
  [("outer", mk_format "outer" [("uint64_t", 1, "timestamp"); ("inner", 1, "x")]);
   ("node", mk_format "node" [("uint8_t", 1, "v"); ("node", 2, "next")])].

(* ================================================================== *)
(** ** Sanity checks of the runtime model                              *)
(* ================================================================== *)

Example int_ex1 : py_int "3" = Ok 3. Proof. reflexivity. Qed.
Example int_ex2 : py_int "-12" = Ok (-12). Proof. reflexivity. Qed.
Example int_ex3 : py_int "" = Raise ValueError. Proof. reflexivity. Qed.
Example int_ex4 : py_int "1_0" = Ok 10. Proof. reflexivity. Qed.
Example extract_ex : _extract_type "inner[3] field" = Ok ("inner", 3, "field").
Proof. reflexivity. Qed.
Example extract_ex2 : _extract_type "uint64_t timestamp" = Ok ("uint64_t", 1, "timestamp").
Proof. reflexivity. Qed.
Example format_ex :
  MessageFormat_init (list_byte_of_string "inner:int32_t a;int32_t b;")
  = Ok (mk_format "inner" [("int32_t", 1, "a"); ("int32_t", 1, "b")]).
Proof. reflexivity. Qed.

(* ================================================================== *)
(** ** Files and loop bounds                                           *)
(* ================================================================== *)

(** Case analysis on an innermost scrutinee of the goal. *)
Ltac break_match :=
  match goal with
  | |- context [match ?x with _ => _ end] =>
      lazymatch x with
      | context [match _ with _ => _ end] => fail
      | _ => destruct x eqn:?
      end
  end.

Lemma read_data (n : nat) (fh : file_handle) :
  fst (read n fh) = firstn n (remaining fh).
Proof. reflexivity. Qed.

Lemma read_remaining (n : nat) (fh : file_handle) :
  remaining (snd (read n fh)) = skipn n (remaining fh).
Proof.
  unfold read, remaining; simpl.
  rewrite length_firstn, Nat.add_comm, <- skipn_skipn.
  set (r := skipn (position fh) (content fh)).
  destruct (Nat.le_ge_cases n (List.length r)) as [H | H].
  - now rewrite Nat.min_l.
  - rewrite Nat.min_r by exact H.
    now rewrite skipn_all, skipn_all2.
Qed.

Lemma read_content (n : nat) (fh : file_handle) :
  content (snd (read n fh)) = content fh.
Proof. reflexivity. Qed.

Lemma unpack_exact_ok (n : nat) (data d : bytes) :
  unpack_exact n data = Ok d -> d = data /\ List.length data = n.
Proof.
  unfold unpack_exact.
  destruct (Nat.eqb_spec (List.length data) n) as [E | E]; [|discriminate].
  intros H; injection H as <-; split; [reflexivity | exact E].
Qed.

Lemma header_initialize_ok (data : bytes) (h : _MessageHeader) :
  header_initialize data = Ok h -> List.length data = 3%nat.
Proof.
  unfold header_initialize, _unpack_ushort_byte, bind.
  destruct (unpack_exact 3 data) eqn:E; [|discriminate].
  intros _. now apply unpack_exact_ok in E.
Qed.

Lemma byte_val_range (b : byte) : 0 <= byte_val b < 256.
Proof. destruct b; vm_compute; split; congruence. Qed.

Lemma le_uint_nonneg (bs : bytes) : 0 <= le_uint bs.
Proof.
  induction bs as [|b bs IH]; cbn [le_uint]; [lia|].
  pose proof (byte_val_range b). lia.
Qed.

Lemma header_initialize_size (data : bytes) (h : _MessageHeader) :
  header_initialize data = Ok h -> 0 <= msg_size h.
Proof.
  unfold header_initialize, _unpack_ushort_byte, bind.
  destruct (unpack_exact 3 data) eqn:E; [|discriminate].
  intros H; inversion H; subst; simpl. apply le_uint_nonneg.
Qed.

Ltac break_match_hyp H :=
  match type of H with
  | context [match ?x with _ => _ end] =>
      lazymatch x with
      | context [match _ with _ => _ end] => fail
      | _ => destruct x eqn:?
      end
  end.

(** No branch of the dispatch touches the file or the start timestamp. *)
Lemma MessageData_initialize_frame data ts self :
  let '(self', _, _) := MessageData_initialize data ts self in
  _file_handle self' = _file_handle self
  /\ _start_timestamp self' = _start_timestamp self
  /\ _last_timestamp self' = _last_timestamp self
  /\ _changed_parameters self' = _changed_parameters self
  /\ _data_list self' = _data_list self.
Proof.
  unfold MessageData_initialize.
  repeat (break_match; simpl); auto 10.
Qed.

Lemma data_dispatch_frame flt header data ts self :
  let '(self', _, _) := data_dispatch flt header data ts self in
  _file_handle self' = _file_handle self
  /\ _start_timestamp self' = _start_timestamp self
  /\ _data_list self' = _data_list self.
Proof.
  unfold data_dispatch.
  pose proof (MessageData_initialize_frame data ts self) as F.
  destruct (MessageData_initialize data ts self) as [[s t] o].
  repeat (break_match; simpl); intuition congruence.
Qed.

(** [data_step] in terms of the bytes left in the file. *)
Lemma data_step_eq flt ts self :
  data_step flt ts self =
  let fh := _file_handle self in
  match header_initialize (firstn 3 (remaining fh)) with
  | Raise e => Raised (set_file_handle (snd (read 3 fh)) self) e
  | Ok header =>
      let n := Z.to_nat (msg_size header) in
      let data := firstn n (skipn 3 (remaining fh)) in
      let self2 := set_file_handle (snd (read n (snd (read 3 fh)))) self in
      if Z.of_nat (List.length data) <? msg_size header then Break self2
      else match data_dispatch flt header data ts self2 with
           | (s, t, None) => Continue s t
           | (s, _, Some e) => Raised s e
           end
  end.
Proof.
  unfold data_step.
  rewrite (surjective_pairing (read 3 (_file_handle self))).
  rewrite read_data. cbv zeta.
  destruct (header_initialize (firstn 3 (remaining (_file_handle self)))) as [h|e];
    [|reflexivity].
  change (_file_handle (set_file_handle ?f self)) with f.
  rewrite (surjective_pairing (read (Z.to_nat (msg_size h)) _)).
  rewrite read_data, read_remaining.
  reflexivity.
Qed.

Lemma bytes_left_after_message self n :
  (3 <= bytes_left self)%nat ->
  (bytes_left (set_file_handle (snd (read n (snd (read 3 (_file_handle self))))) self)
   + 3 <= bytes_left self)%nat.
Proof.
  unfold bytes_left. change (_file_handle (set_file_handle ?f self)) with f.
  rewrite !read_remaining, !length_skipn. lia.
Qed.

Lemma header_initialize_left self h :
  header_initialize (firstn 3 (remaining (_file_handle self))) = Ok h ->
  (3 <= bytes_left self)%nat.
Proof.
  intros H. apply header_initialize_ok in H.
  rewrite length_firstn in H. unfold bytes_left. lia.
Qed.

Lemma data_step_continue flt ts self self' ts' :
  data_step flt ts self = Continue self' ts' ->
  (bytes_left self' + 3 <= bytes_left self)%nat
  /\ _start_timestamp self' = _start_timestamp self
  /\ _data_list self' = _data_list self.
Proof.
  rewrite data_step_eq. cbv zeta.
  destruct (header_initialize _) as [h|] eqn:Hh; [|discriminate].
  destruct (_ <? _); [discriminate|].
  match goal with
  | |- context [data_dispatch flt h ?d ts ?s] =>
      pose proof (data_dispatch_frame flt h d ts s) as F;
      destruct (data_dispatch flt h d ts s) as [[s1 t1] o]
  end.
  destruct o; [discriminate|]. intros E; inversion E; subst.
  destruct F as (F1 & F2 & F3).
  split; [|split; [exact F2 | exact F3]].
  unfold bytes_left at 1. rewrite F1.
  apply (bytes_left_after_message self).
  eapply header_initialize_left; eassumption.
Qed.

(** The data loop always ends within [loop_fuel] passes. *)
Lemma data_loop_total flt :
  forall fuel ts self, (bytes_left self < fuel)%nat ->
    exists out, data_loop fuel flt ts self = Some out.
Proof.
  induction fuel as [|fuel IH]; intros ts self Hf; [lia|].
  simpl. destruct (data_step flt ts self) as [s t|s|s e] eqn:E; eauto.
  apply IH. apply data_step_continue in E. lia.
Qed.

(** More fuel than needed changes nothing. *)
Lemma data_loop_fuel_irrelevant flt :
  forall fuel fuel' ts self out,
    data_loop fuel flt ts self = Some out -> (fuel <= fuel')%nat ->
    data_loop fuel' flt ts self = Some out.
Proof.
  induction fuel as [|fuel IH]; intros fuel' ts self out H Hle; [discriminate|].
  destruct fuel' as [|fuel']; [lia|].
  simpl in *. destruct (data_step flt ts self); auto.
  apply IH with (fuel' := fuel') in H; [assumption|lia].
Qed.

(** [definitions_step] in terms of the bytes left in the file. *)
Lemma definitions_step_left self self' :
  definitions_step self = inl self' ->
  (bytes_left self' + 3 <= bytes_left self)%nat
  /\ _start_timestamp self' = _start_timestamp self
  /\ _last_timestamp self' = _last_timestamp self
  /\ _changed_parameters self' = _changed_parameters self
  /\ _subscriptions self' = _subscriptions self
  /\ _data_list self' = _data_list self
  /\ _missing_message_ids self' = _missing_message_ids self
  /\ stdout self' = stdout self.
Proof.
  unfold definitions_step.
  rewrite (surjective_pairing (read 3 (_file_handle self))).
  rewrite read_data. cbv zeta.
  destruct (firstn 3 (remaining (_file_handle self))) as [|b0 d0] eqn:E0;
    [discriminate|].
  rewrite <- E0.
  destruct (header_initialize _) as [h|] eqn:Hh; [|discriminate].
  change (_file_handle (set_file_handle ?f self)) with f.
  rewrite (surjective_pairing (read (Z.to_nat (msg_size h)) _)).
  cbv zeta.
  pose proof (bytes_left_after_message self (Z.to_nat (msg_size h))
                (header_initialize_left self Hh)) as L.
  repeat break_match; try discriminate;
    intros E; inversion E; subst; clear E;
    (split; [exact L | repeat split]).
Qed.

Lemma definitions_step_exit self self' o :
  definitions_step self = inr (self', o) ->
  _start_timestamp self' = _start_timestamp self
  /\ _last_timestamp self' = _last_timestamp self
  /\ _changed_parameters self' = _changed_parameters self
  /\ _subscriptions self' = _subscriptions self
  /\ _data_list self' = _data_list self
  /\ _missing_message_ids self' = _missing_message_ids self
  /\ stdout self' = stdout self.
Proof.
  unfold definitions_step.
  rewrite (surjective_pairing (read 3 (_file_handle self))).
  cbv zeta.
  destruct (fst (read 3 (_file_handle self))) as [|b0 d0].
  - intros E; inversion E; subst; repeat split.
  - destruct (header_initialize _) as [h|].
    + rewrite (surjective_pairing (read (Z.to_nat (msg_size h)) _)).
      repeat break_match; try discriminate;
        intros E; inversion E; subst; repeat split.
    + intros E; inversion E; subst; repeat split.
Qed.

(** The definitions loop always ends within [loop_fuel] passes. *)
Lemma definitions_loop_total :
  forall fuel self, (bytes_left self < fuel)%nat ->
    exists out, definitions_loop fuel self = Some out.
Proof.
  induction fuel as [|fuel IH]; intros self Hf; [lia|].
  simpl. destruct (definitions_step self) as [s|out] eqn:E; eauto.
  apply IH. apply definitions_step_left in E. lia.
Qed.

Lemma definitions_loop_frame :
  forall fuel self self' o,
    definitions_loop fuel self = Some (self', o) ->
    _start_timestamp self' = _start_timestamp self
    /\ _last_timestamp self' = _last_timestamp self
    /\ _changed_parameters self' = _changed_parameters self
    /\ _subscriptions self' = _subscriptions self
    /\ _data_list self' = _data_list self
    /\ _missing_message_ids self' = _missing_message_ids self
    /\ stdout self' = stdout self.
Proof.
  induction fuel as [|fuel IH]; intros self self' o H; [discriminate|].
  simpl in H. destruct (definitions_step self) as [s|out] eqn:E.
  - apply IH in H. apply definitions_step_left in E.
    intuition congruence.
  - inversion H; subst. now apply definitions_step_exit in E.
Qed.

Lemma data_loop_start_timestamp flt :
  forall fuel ts self self' o,
    data_loop fuel flt ts self = Some (self', o) ->
    _start_timestamp self' = _start_timestamp self.
Proof.
  induction fuel as [|fuel IH]; intros ts self self' o H; [discriminate|].
  simpl in H. destruct (data_step flt ts self) as [s t|s|s e] eqn:E.
  - apply IH in H. apply data_step_continue in E. intuition congruence.
  - inversion H; subst. rewrite data_step_eq in E. cbv zeta in E.
    repeat break_match_hyp E; inversion E; reflexivity.
  - inversion H; subst. rewrite data_step_eq in E. cbv zeta in E.
    destruct (header_initialize _); [|inversion E; reflexivity].
    destruct (_ <? _); [discriminate|].
    match type of E with
    | context [data_dispatch flt ?h ?d ts ?s0] =>
        pose proof (data_dispatch_frame flt h d ts s0) as F;
        destruct (data_dispatch flt h d ts s0) as [[s1 t1] o1]
    end.
    destruct o1; inversion E; subst. destruct F as (_ & F & _). exact F.
Qed.

Lemma materialize_frame :
  forall popped self,
    let self' := fst (materialize popped self) in
    _start_timestamp self' = _start_timestamp self
    /\ _last_timestamp self' = _last_timestamp self
    /\ _changed_parameters self' = _changed_parameters self
    /\ _missing_message_ids self' = _missing_message_ids self
    /\ stdout self' = stdout self.
Proof.
  induction popped as [|[k v] rest IH]; intros self; simpl; [tauto|].
  destruct (Nat.ltb 0 (List.length (buffer v))).
  - destruct (Data_init v); simpl; [|tauto].
    match goal with |- context [materialize rest ?s] => specialize (IH s) end.
    simpl in IH. exact IH.
  - match goal with |- context [materialize rest ?s] => specialize (IH s) end.
    simpl in IH. exact IH.
Qed.

Lemma read_file_data_total flt self :
  exists out, _read_file_data flt self = Some out.
Proof.
  unfold _read_file_data.
  destruct (data_loop_total flt (fuel := loop_fuel self) 0 self) as [[s o] E].
  { unfold loop_fuel, bytes_left. lia. }
  rewrite E. destruct o as [[]|]; eauto.
Qed.

Lemma read_file_data_start_timestamp flt self self' o :
  _read_file_data flt self = Some (self', o) ->
  _start_timestamp self' = _start_timestamp self.
Proof.
  unfold _read_file_data.
  destruct (data_loop _ flt 0 self) as [[s o']|] eqn:E; [|discriminate].
  apply data_loop_start_timestamp in E.
  pose proof (materialize_frame (rev (_subscriptions s)) s) as (M & _).
  destruct o' as [[]|]; intros H; inversion H; subst; try congruence;
    rewrite <- E; rewrite <- M;
    match goal with H1 : materialize _ _ = _ |- _ => now rewrite H1 end.
Qed.

Lemma bytes_eqb_eq (a b : bytes) : bytes_eqb a b = true <-> a = b.
Proof.
  revert b. induction a as [|x a IH]; destruct b as [|y b]; simpl;
    try (split; [discriminate | discriminate]); [tauto|].
  rewrite andb_true_iff, IH. split.
  - intros [H1 H2]. apply Byte.byte_dec_bl in H1. congruence.
  - intros H; inversion H; subst. split; [now apply Byte.byte_dec_lb | reflexivity].
Qed.

(** What [_read_file_header] does on a fresh object over the bytes [file]. *)
Lemma read_file_header_cases (file : bytes) :
  let r := _read_file_header (ULog_new (mk_file file 0)) in
  ((List.length file < 16)%nat -> snd r = Some header_too_short)
  /\ ((16 <= List.length file)%nat -> firstn 7 file <> HEADER_BYTES ->
      snd r = Some header_bad_magic)
  /\ ((16 <= List.length file)%nat -> firstn 7 file = HEADER_BYTES ->
      snd r = None /\ _start_timestamp (fst r) = le_uint (slice 8 16 file)).
Proof.
  unfold _read_file_header.
  rewrite (surjective_pairing (read 16 _)). rewrite read_data.
  change (remaining (_file_handle (ULog_new (mk_file file 0)))) with file.
  cbv zeta.
  assert (S7 : slice 0 7 (firstn 16 file) = firstn 7 file).
  { change (slice 0 7 (firstn 16 file)) with (firstn 7 (firstn 16 file)).
    rewrite firstn_firstn. reflexivity. }
  assert (S8 : (16 <= List.length file)%nat ->
               slice_from 8 (firstn 16 file) = slice 8 16 file).
  { intros _. unfold slice_from, slice. now rewrite skipn_firstn_comm. }
  rewrite S7.
  destruct (Nat.eqb_spec (List.length (firstn 16 file)) 16) as [L | L];
    rewrite length_firstn in L; cbn [negb].
  - split; [lia|].
    destruct (bytes_eqb (firstn 7 file) HEADER_BYTES) eqn:M; cbn [negb].
    + apply bytes_eqb_eq in M. split; [congruence|]. intros Hl _.
      rewrite (S8 Hl).
      assert (U : _unpack_uint64 (slice 8 16 file) = Ok (le_uint (slice 8 16 file))).
      { unfold _unpack_uint64, unpack_exact, slice.
        rewrite length_firstn, length_skipn.
        replace (Nat.min (16 - 8) (List.length file - 8)) with 8%nat by lia.
        reflexivity. }
      rewrite U. split; reflexivity.
    + split; [reflexivity|]. intros _ Heq. apply bytes_eqb_eq in Heq. congruence.
  - split; [reflexivity|]. split; intros; lia.
Qed.

Lemma load_file_after_header flt self0 self1 :
  _read_file_header self0 = (self1, None) ->
  exists self out,
    _load_file flt self0 = Some (self, out)
    /\ _start_timestamp self = _start_timestamp self1.
Proof.
  intros H. unfold _load_file. rewrite H.
  set (s := set_last_timestamp (_start_timestamp self1) self1).
  unfold _read_file_definitions.
  destruct (definitions_loop_total (fuel := loop_fuel s) s) as [[s2 o2] E2].
  { unfold loop_fuel, bytes_left. lia. }
  rewrite E2. apply definitions_loop_frame in E2. destruct E2 as (E2 & _).
  destruct o2 as [e|].
  - exists s2, (Some e). split; [reflexivity | exact E2].
  - destruct (read_file_data_total flt s2) as [[s3 o3] E3].
    exists s3, o3. split; [exact E3|].
    apply read_file_data_start_timestamp in E3. rewrite E3, E2. reflexivity.
Qed.

(* ================================================================== *)
(** ** The file header (C2)                                            *)
(* ================================================================== *)

(** C2, amended.  On a stream of at least 16 bytes whose first 7 bytes are
    the magic constant, the parse gets past the header and the object's
    [start_timestamp] is the little-endian unsigned 64-bit value at bytes
    8..15 (whatever the later phases do).  On a stream of at least 16
    bytes whose first 7 bytes differ from the constant the parse fails
    with the "Failed to parse header" exception (the spec's FormatError).
    On a stream of fewer than 16 bytes it fails with the "Header too
    short" exception (the spec's TruncatedError), whatever its first
    bytes are: the length is tested first. *)
Theorem header_contract (file : bytes) (flt : name_filter) :
  ((16 <= List.length file)%nat -> firstn 7 file = HEADER_BYTES ->
     snd (_read_file_header (ULog_new (mk_file file 0))) = None
     /\ exists self out,
          ULog_init file flt = Some (self, out)
          /\ _start_timestamp self = le_uint (slice 8 16 file))
  /\ ((16 <= List.length file)%nat -> firstn 7 file <> HEADER_BYTES ->
     exists self, ULog_init file flt = Some (self, Some header_bad_magic))
  /\ ((List.length file < 16)%nat ->
     exists self, ULog_init file flt = Some (self, Some header_too_short)).
Proof.
  pose proof (read_file_header_cases file) as (Hshort & Hbad & Hgood).
  unfold ULog_init.
  destruct (_read_file_header (ULog_new (mk_file file 0))) as [s o] eqn:E.
  simpl in Hshort, Hbad, Hgood.
  split; [|split].
  - intros Hl Hm. destruct (Hgood Hl Hm) as [-> Hts].
    destruct (load_file_after_header flt _ E) as (self & out & L & S).
    split; [reflexivity|].
    exists self, out. rewrite L, S, Hts. split; reflexivity.
  - intros Hl Hm. rewrite (Hbad Hl Hm) in E.
    exists s. unfold _load_file. now rewrite E.
  - intros Hl. rewrite (Hshort Hl) in E.
    exists s. unfold _load_file. now rewrite E.
Qed.

(** Streams for the header: a well-formed one, one with a wrong magic and
    one that is cut short. *)
Lemma header_contract_witness :
  (exists self out,
     ULog_init (file_header x00 1000) None = Some (self, out)
     /\ _start_timestamp self = 1000)
  /\ (exists self,
        ULog_init (list_byte_of_string "NotULog_12345678") None
        = Some (self, Some header_bad_magic))
  /\ (exists self,
        ULog_init (list_byte_of_string "ULog") None
        = Some (self, Some header_too_short)).
Proof.
  split; [|split].
  - destruct (proj1 (header_contract (file_header x00 1000) None))
      as (_ & self & out & H1 & H2).
    + vm_compute. lia.
    + reflexivity.
    + exists self, out. split; [exact H1|]. rewrite H2. reflexivity.
  - apply (proj1 (proj2 (header_contract
             (list_byte_of_string "NotULog_12345678") None))).
    + vm_compute. lia.
    + vm_compute. discriminate.
  - apply (proj2 (proj2 (header_contract (list_byte_of_string "ULog") None))).
    vm_compute. lia.
Defined.

(** C2 as stated does not hold: a stream of 7 bytes that are not the magic
    constant fails with "Header too short", not with "Failed to parse
    header". *)
Lemma header_short_stream_wrong_magic :
  let file := list_byte_of_string "NotULog" in
  firstn 7 file <> HEADER_BYTES
  /\ (exists self, ULog_init file None = Some (self, Some header_too_short))
  /\ ~ (exists self, ULog_init file None = Some (self, Some header_bad_magic)).
Proof.
  cbv zeta. split; [vm_compute; discriminate|]. split.
  - eexists. vm_compute. reflexivity.
  - intros [self H]. vm_compute in H. discriminate.
Qed.

(* ================================================================== *)
(** ** Flattening (C6)                                                 *)
(* ================================================================== *)

Lemma parse_nested_type_unfold depth prefix_str type_name message_formats self mf :
  dict_get String.eqb type_name message_formats = Some mf ->
  _parse_nested_type (S depth) prefix_str type_name message_formats self
  = fields_loop (fun p t s => _parse_nested_type depth p t message_formats s)
      prefix_str (fields mf) self.
Proof.
  intros H. change (_parse_nested_type (S depth) prefix_str type_name message_formats self)
    with (match dict_get String.eqb type_name message_formats with
          | None => Raise KeyError
          | Some message_format =>
              fields_loop
                (fun p t s => _parse_nested_type depth p t message_formats s)
                prefix_str (fields message_format) self
          end).
  now rewrite H.
Qed.

(** C6.  In any registry where [outer] is a composite type whose one
    field, [field], is a length-3 array of the composite [inner], and
    [inner] is [{int32_t a; int32_t b}], flattening [outer] yields exactly
    six entries, [field[0].a], [field[0].b], [field[1].a], [field[1].b],
    [field[2].a], [field[2].b], in that order, all [int32_t]; the same
    six entries are the subscription's field list. *)
Theorem flatten_array_of_composite
  (message_formats : formats_t) (outer inner n1 n2 : string)
  (Houter : dict_get String.eqb outer message_formats
            = Some (mk_format n1 [(inner, 3, "field")]))
  (Hinner : dict_get String.eqb inner message_formats
            = Some (mk_format n2 [("int32_t", 1, "a"); ("int32_t", 1, "b")]))
  (Hcomposite : prim_of_string inner = None) :
  let flat := [mk_field "field[0].a" Tint32; mk_field "field[0].b" Tint32;
               mk_field "field[1].a" Tint32; mk_field "field[1].b" Tint32;
               mk_field "field[2].a" Tint32; mk_field "field[2].b" Tint32] in
  _parse_nested_type recursion_limit "" outer message_formats ([], -1)
    = Ok (flat, -1)
  /\ _parse_format outer message_formats = Ok (flat, -1)
  /\ List.length flat = 6%nat.
Proof.
  cbv zeta.
  assert (E : _parse_nested_type recursion_limit "" outer message_formats ([], -1)
              = Ok ([mk_field "field[0].a" Tint32; mk_field "field[0].b" Tint32;
                     mk_field "field[1].a" Tint32; mk_field "field[1].b" Tint32;
                     mk_field "field[2].a" Tint32; mk_field "field[2].b" Tint32], -1)).
  { unfold recursion_limit.
    rewrite parse_nested_type_unfold with (1 := Houter).
    cbn [fields].
    cbn [fields_loop]. rewrite Hcomposite.
    change (1 <? 3) with true. cbv iota.
    change (seq 0 (Z.to_nat 3)) with [0%nat; 1%nat; 2%nat].
    cbn [index_loop].
    do 3 (rewrite parse_nested_type_unfold with (1 := Hinner); simpl).
    reflexivity. }
  split; [exact E|]. split; [|reflexivity].
  unfold _parse_format. rewrite E. reflexivity.
Qed.

(** The registry read from the two Format messages
    [outer:inner[3] field;] and [inner:int32_t a;int32_t b;]. *)
Lemma flatten_array_of_composite_witness :
  let outer_format := mk_format "outer" [("inner", 3, "field")] in
  let inner_format :=
    mk_format "inner" [("int32_t", 1, "a"); ("int32_t", 1, "b")] in
  MessageFormat_init (list_byte_of_string "outer:inner[3] field;")
    = Ok outer_format
  /\ MessageFormat_init (list_byte_of_string "inner:int32_t a;int32_t b;")
    = Ok inner_format
  /\ _parse_format "outer" [("outer", outer_format); ("inner", inner_format)]
    = Ok ([mk_field "field[0].a" Tint32; mk_field "field[0].b" Tint32;
           mk_field "field[1].a" Tint32; mk_field "field[1].b" Tint32;
           mk_field "field[2].a" Tint32; mk_field "field[2].b" Tint32], -1).
Proof.
  cbv zeta. split; [reflexivity|]. split; [reflexivity|].
  apply (proj1 (proj2 (@flatten_array_of_composite
           [("outer", mk_format "outer" [("inner", 3, "field")]);
            ("inner", mk_format "inner"
                        [("int32_t", 1, "a"); ("int32_t", 1, "b")])]
           "outer" "inner" "outer" "inner"
           eq_refl eq_refl eq_refl))).
Defined.

(* ================================================================== *)
(** ** The record size of a subscription (C1)                          *)
(* ================================================================== *)

Lemma bind_ok {A B} (r : result A) (k : A -> result B) (b : B) :
  bind r k = Ok b -> exists a, r = Ok a /\ k a = Ok b.
Proof. destruct r as [a|e]; simpl; [eauto | discriminate]. Qed.

Lemma pop_padding_rev_split (l : list _FieldData) :
  exists d, l = d ++ pop_padding_rev l /\ Forall (fun f => is_padding f = true) d.
Proof.
  induction l as [|f l (d & E & F)]; simpl.
  - exists []. split; [reflexivity | constructor].
  - destruct (startswith (field_name f) "_padding") eqn:P.
    + exists (f :: d). split; [simpl; congruence | constructor; assumption].
    + exists []. split; [reflexivity | constructor].
Qed.

Lemma pop_padding_rev_head (l : list _FieldData) :
  match pop_padding_rev l with
  | f :: _ => is_padding f = false
  | [] => True
  end.
Proof.
  induction l as [|f l IH]; simpl; [exact I|].
  destruct (startswith (field_name f) "_padding") eqn:P; [exact IH | exact P].
Qed.

(** [pop_padding] removes a suffix made of padding fields, and what it
    keeps does not end in one. *)
Lemma pop_padding_split (fd : list _FieldData) :
  exists dropped,
    fd = pop_padding fd ++ dropped
    /\ Forall (fun f => is_padding f = true) dropped
    /\ match rev (pop_padding fd) with
       | f :: _ => is_padding f = false
       | [] => True
       end.
Proof.
  unfold pop_padding.
  destruct (pop_padding_rev_split (rev fd)) as (d & E & F).
  exists (rev d). split; [|split].
  - rewrite <- rev_app_distr, <- E. now rewrite rev_involutive.
  - apply Forall_rev. exact F.
  - rewrite rev_involutive. apply pop_padding_rev_head.
Qed.

Lemma record_width_app (a b : list _FieldData) :
  record_width (a ++ b) = (record_width a + record_width b)%nat.
Proof. induction a as [|f a IH]; simpl; [reflexivity | rewrite IH; lia]. Qed.

Lemma np_itemsize_unpack (p : prim) : np_itemsize_of (unpack_np p) = unpack_size p.
Proof. destruct p; reflexivity. Qed.

Lemma itemsize_default_names (l : list (string * np_type)) :
  forall i, itemsize (default_names i l) = itemsize l.
Proof.
  induction l as [|[n t] l IH]; intros i; simpl; [reflexivity|].
  now rewrite IH.
Qed.

Lemma itemsize_dtype_list (fd : list _FieldData) :
  itemsize (dtype_list fd) = record_width fd.
Proof.
  induction fd as [|f fd IH]; simpl; [reflexivity|].
  now rewrite IH, np_itemsize_unpack.
Qed.

Lemma np_dtype_make_itemsize l dt :
  np_dtype_make l = Ok dt -> itemsize dt = itemsize l.
Proof.
  unfold np_dtype_make. destruct (has_dup _); [discriminate|].
  intros H; inversion H. apply itemsize_default_names.
Qed.

Lemma chunks_length (n size : nat) :
  forall b, List.length (chunks n size b) = n.
Proof. induction n as [|n IH]; intros b; simpl; [reflexivity | now rewrite IH]. Qed.

Lemma chunks_sizes (n size : nat) :
  forall b, (n * size <= List.length b)%nat ->
    Forall (fun r => List.length r = size) (chunks n size b).
Proof.
  induction n as [|n IH]; intros b H; simpl; constructor.
  - rewrite length_firstn. simpl in H. lia.
  - apply IH. rewrite length_skipn. simpl in H. lia.
Qed.

(** [np.frombuffer] slices the buffer with the item size of the dtype. *)
Lemma np_frombuffer_stride buf dt records :
  np_frombuffer buf dt = Ok records ->
  List.length buf = (List.length records * itemsize dt)%nat
  /\ Forall (fun r => List.length r = itemsize dt) records.
Proof.
  unfold np_frombuffer.
  destruct (Nat.eqb_spec (itemsize dt) 0) as [Z0 | Z0]; [discriminate|].
  destruct (Nat.eqb_spec (List.length buf mod itemsize dt) 0) as [M | M];
    [|discriminate].
  simpl. intros H; inversion H; subst; clear H.
  rewrite chunks_length.
  pose proof (Nat.div_mod_eq (List.length buf) (itemsize dt)) as D.
  rewrite M in D.
  split; [lia|]. apply chunks_sizes. lia.
Qed.

(** C1, amended.  The record size with which the accumulated buffer of a
    subscription is sliced (the item size of its dtype, used by
    [np.frombuffer]) is the sum of the primitive widths of the emitted,
    trimmed field list.  The trailing padding fields that [_parse_format]
    removed from the flattened list do not count: the sum over the full
    flattened list is the record size plus the widths of those fields. *)
Theorem stride_is_trimmed_width
  (data : bytes) (message_formats : formats_t) (sub : _MessageAddLogged)
  (Hsub : MessageAddLogged_init data message_formats = Ok sub) :
  exists flat idx dropped,
    _parse_nested_type recursion_limit "" (message_name sub) message_formats
      ([], -1) = Ok (flat, idx)
    /\ flat = field_data sub ++ dropped
    /\ Forall (fun f => is_padding f = true) dropped
    /\ match rev (field_data sub) with
       | f :: _ => is_padding f = false
       | [] => True
       end
    /\ itemsize (dtype sub) = record_width (field_data sub)
    /\ record_width flat = (itemsize (dtype sub) + record_width dropped)%nat
    /\ forall buf records,
         np_frombuffer buf (dtype sub) = Ok records ->
         List.length buf
         = (List.length records * record_width (field_data sub))%nat.
Proof.
  unfold MessageAddLogged_init in Hsub.
  apply bind_ok in Hsub as (mid & _ & Hsub).
  apply bind_ok in Hsub as (id & _ & Hsub).
  apply bind_ok in Hsub as (name & _ & Hsub).
  apply bind_ok in Hsub as ([fd idx] & Hfmt & Hsub).
  apply bind_ok in Hsub as (dt & Hdt & Hsub).
  inversion Hsub; subst; clear Hsub. cbn [message_name field_data dtype].
  unfold _parse_format in Hfmt.
  apply bind_ok in Hfmt as ([flat idx'] & Hflat & Hfmt).
  inversion Hfmt; subst; clear Hfmt.
  destruct (pop_padding_split flat) as (dropped & E & F & L).
  assert (W : itemsize dt = record_width (pop_padding flat)).
  { apply np_dtype_make_itemsize in Hdt. now rewrite Hdt, itemsize_dtype_list. }
  exists flat, idx, dropped.
  repeat (split; [assumption|]).
  split.
  - rewrite E at 1. rewrite record_width_app. lia.
  - intros buf records H. apply np_frombuffer_stride in H as [H _]. now rewrite <- W.
Qed.

(** The padded type: the record size is 8, the full flattened list is 12
    bytes wide. *)
Lemma stride_is_trimmed_width_witness :
  let sub := mk_add_logged 0 5 "t" [mk_field "timestamp" Tuint64] 0 0 []
               [("timestamp", np_uint64)] in
  MessageAddLogged_init padded_subscribe padded_formats = Ok sub
  /\ exists flat idx dropped,
       _parse_nested_type recursion_limit "" (message_name sub) padded_formats
         ([], -1) = Ok (flat, idx)
       /\ flat = field_data sub ++ dropped
       /\ Forall (fun f => is_padding f = true) dropped
       /\ match rev (field_data sub) with
          | f :: _ => is_padding f = false
          | [] => True
          end
       /\ itemsize (dtype sub) = record_width (field_data sub)
       /\ record_width flat = (itemsize (dtype sub) + record_width dropped)%nat
       /\ forall buf records,
            np_frombuffer buf (dtype sub) = Ok records ->
            List.length buf
            = (List.length records * record_width (field_data sub))%nat.
Proof.
  cbv zeta. split; [reflexivity|].
  apply (@stride_is_trimmed_width padded_subscribe padded_formats). reflexivity.
Defined.

(** C1 as stated does not hold: for the padded type the flattened list
    is 12 bytes wide, the buffer is sliced by 8, and a buffer of two
    12-byte records comes out as three records. *)
Lemma trailing_padding_not_in_stride :
  exists sub flat idx records,
    MessageAddLogged_init padded_subscribe padded_formats = Ok sub
    /\ _parse_nested_type recursion_limit "" (message_name sub) padded_formats
         ([], -1) = Ok (flat, idx)
    /\ record_width flat = 12%nat
    /\ itemsize (dtype sub) = 8%nat
    /\ itemsize (dtype sub) <> record_width flat
    /\ np_frombuffer (repeat x00 24) (dtype sub) = Ok records
    /\ List.length records = 3%nat.
Proof.
  do 4 eexists. split; [reflexivity|]. split; [reflexivity|].
  split; [reflexivity|]. split; [reflexivity|].
  split; [vm_compute; discriminate|]. split; reflexivity.
Qed.

(* ================================================================== *)
(** ** Looking a topic up (C9)                                         *)
(* ================================================================== *)

Lemma filter_none {A} (f : A -> bool) (l : list A) :
  (forall x, In x l -> f x = false) -> filter f l = [].
Proof.
  induction l as [|x l IH]; intros H; simpl; [reflexivity|].
  rewrite (H x (or_introl eq_refl)). apply IH. intros y Hy. apply H. now right.
Qed.

(** C9, amended.  [get_dataset] raises the not-found condition
    ([IndexError]) when no element of the data list has the name and the
    instance id asked for.  When at least one has, it returns the first
    such element in the order of the list; so a unique match is returned,
    and an ambiguous query is answered with the first match instead of
    being refused. *)
Theorem get_dataset_first_match (self : ULog) (name : string) (multi_instance : Z) :
  ((forall elem, In elem (_data_list self) ->
      dataset_matches name multi_instance elem = false) ->
   get_dataset self name multi_instance = Raise IndexError)
  /\ (forall before elem after,
        _data_list self = before ++ elem :: after ->
        (forall e, In e before -> dataset_matches name multi_instance e = false) ->
        dataset_matches name multi_instance elem = true ->
        get_dataset self name multi_instance = Ok elem).
Proof.
  unfold get_dataset.
  change (fun elem : Data => String.eqb (data_name elem) name
                              && (data_multi_id elem =? multi_instance))
    with (dataset_matches name multi_instance).
  split.
  - intros H. now rewrite (filter_none _ _ H).
  - intros before elem after E Hb He.
    rewrite E, filter_app, (filter_none _ _ Hb). simpl. now rewrite He.
Qed.

(** A data list with the topics [a] and [b]: [c] is not found, [b] is. *)
Lemma get_dataset_first_match_witness :
  let self := set_data_list [timestamp_topic "a" 0 [1]; timestamp_topic "b" 0 [2]]
                (ULog_new (mk_file [] 0)) in
  get_dataset self "c" 0 = Raise IndexError
  /\ get_dataset self "b" 0 = Ok (timestamp_topic "b" 0 [2]).
Proof.
  cbv zeta. split.
  - apply (proj1 (get_dataset_first_match _ "c" 0)).
    intros elem [<- | [<- | []]]; reflexivity.
  - apply (proj2 (get_dataset_first_match _ "b" 0)) with
      (before := [timestamp_topic "a" 0 [1]]) (after := []).
    + reflexivity.
    + intros e [<- | []]; reflexivity.
    + reflexivity.
Defined.

(** C9 as stated does not hold: after parsing a stream with two
    subscriptions to topic [t], instance 0, two elements of the data list
    match the query and [get_dataset] returns the first of them. *)
Lemma get_dataset_ambiguous_returns_first :
  exists self,
    ULog_init two_subscriptions_stream None = Some (self, None)
    /\ _data_list self
       = [timestamp_topic "t" 0 [300]; timestamp_topic "t" 0 [200]]
    /\ List.length (filter (dataset_matches "t" 0) (_data_list self)) = 2%nat
    /\ get_dataset self "t" 0 = Ok (timestamp_topic "t" 0 [300])
    /\ get_dataset self "t" 0 <> Raise IndexError.
Proof.
  eexists. split; [vm_compute; reflexivity|].
  split; [reflexivity|]. split; [reflexivity|]. split; [reflexivity|].
  discriminate.
Qed.

(* ================================================================== *)
(** ** Value changes: records stamped zero                             *)
(* ================================================================== *)

(** Records stamped 0 are left out before the comparison of neighbours. *)
Example value_changes_skips_zero :
  list_value_changes
    (mk_data 0 "t" [mk_field "timestamp" Tuint64; mk_field "x" Tint32] 0
       [("timestamp", map NpInt [0; 10; 0; 20; 30]);
        ("x", map NpInt [1; 2; 9; 2; 4])]) "x"
  = Ok [(NpInt 10, NpInt 2); (NpInt 30, NpInt 4)].
Proof. reflexivity. Qed.

(* ================================================================== *)
(** ** The running last timestamp (C7)                                 *)
(* ================================================================== *)

Lemma stamped_upto_raise (l : list Z) :
  forall lo hi hi', stamped_upto lo hi l -> hi <= hi' -> stamped_upto lo hi' l.
Proof.
  induction l as [|t l IH]; simpl; intros lo hi hi' H Hle; [lia|].
  destruct H as [H1 H2]. split; [exact H1 | eapply IH; eassumption].
Qed.

Lemma stamped_upto_snoc (l : list Z) :
  forall lo hi, stamped_upto lo hi l -> stamped_upto lo hi (l ++ [hi]).
Proof.
  induction l as [|t l IH]; simpl; intros lo hi H; [lia|].
  destruct H as [H1 H2]. split; [exact H1 | now apply IH].
Qed.

(** What the dispatch of one message does to the last timestamp and to
    the changed-parameter list: nothing, or a data record with a larger
    non-zero timestamp replaces the last timestamp, or a parameter
    message appends an event stamped with the last timestamp. *)
Lemma data_dispatch_stamps flt h d ts self :
  let '(self', ts', e) := data_dispatch flt h d ts self in
  _start_timestamp self' = _start_timestamp self
  /\ ((_last_timestamp self' = _last_timestamp self
       /\ _changed_parameters self' = _changed_parameters self)
      \/ (msg_type h = MSG_TYPE_DATA /\ e = None /\ ts' <> 0
          /\ _last_timestamp self < ts' /\ _last_timestamp self' = ts'
          /\ _changed_parameters self' = _changed_parameters self)
      \/ (msg_type h = MSG_TYPE_PARAMETER /\ e = None
          /\ _last_timestamp self' = _last_timestamp self
          /\ exists info,
               MessageInfo_init d = Ok info
               /\ _changed_parameters self'
                  = _changed_parameters self
                      ++ [(_last_timestamp self, info_key info, info_value info)])).
Proof.
  unfold data_dispatch.
  destruct (msg_type h =? MSG_TYPE_PARAMETER) eqn:EP.
  { apply Z.eqb_eq in EP.
    destruct (MessageInfo_init d) as [info|] eqn:EI; simpl.
    - split; [reflexivity|]. right; right. repeat split; eauto.
    - split; [reflexivity|]. left; split; reflexivity. }
  destruct (msg_type h =? MSG_TYPE_ADD_LOGGED_MSG).
  { destruct (MessageAddLogged_init d (_message_formats self)) as [m|];
      [destruct (passes_filter flt (message_name m))|]; simpl;
      (split; [reflexivity | left; split; reflexivity]). }
  destruct (msg_type h =? MSG_TYPE_LOGGING).
  { destruct (MessageLogging_init d); simpl;
      (split; [reflexivity | left; split; reflexivity]). }
  destruct (msg_type h =? MSG_TYPE_DATA) eqn:ED.
  { apply Z.eqb_eq in ED.
    pose proof (MessageData_initialize_frame d ts self) as F.
    destruct (MessageData_initialize d ts self) as [[s t] o].
    destruct F as (_ & F1 & F2 & F3 & _).
    destruct o as [e|].
    - split; [exact F1 | left; split; assumption].
    - destruct (negb (t =? 0) && (_last_timestamp s <? t)) eqn:C; simpl.
      + apply andb_true_iff in C as [C1 C2].
        apply negb_true_iff, Z.eqb_neq in C1. apply Z.ltb_lt in C2.
        split; [exact F1|]. right; left.
        repeat split; try assumption; lia.
      + split; [exact F1 | left; split; assumption]. }
  destruct (msg_type h =? MSG_TYPE_DROPOUT).
  { destruct (MessageDropout_init d (_last_timestamp self)); simpl;
      (split; [reflexivity | left; split; reflexivity]). }
  simpl. split; [reflexivity | left; split; reflexivity].
Qed.

(** One pass of the data loop, whatever its end, in the same terms. *)
Lemma data_step_stamps flt ts self :
  let self' := pass_state (data_step flt ts self) in
  _start_timestamp self' = _start_timestamp self
  /\ _last_timestamp self <= _last_timestamp self'
  /\ (_changed_parameters self' = _changed_parameters self
      \/ (_last_timestamp self' = _last_timestamp self
          /\ exists key value,
               _changed_parameters self'
               = _changed_parameters self ++ [(_last_timestamp self, key, value)])).
Proof.
  rewrite data_step_eq. cbv zeta.
  destruct (header_initialize _) as [h|]; simpl; [|split; [reflexivity | split; [lia | now left]]].
  destruct (_ <? _); simpl; [split; [reflexivity | split; [lia | now left]]|].
  match goal with
  | |- context [data_dispatch flt h ?d ts ?s0] =>
      pose proof (data_dispatch_stamps flt h d ts s0) as D;
      destruct (data_dispatch flt h d ts s0) as [[s1 t1] o1]
  end.
  cbn [_start_timestamp _last_timestamp _changed_parameters set_file_handle] in D.
  assert (G : _start_timestamp s1 = _start_timestamp self
              /\ _last_timestamp self <= _last_timestamp s1
              /\ (_changed_parameters s1 = _changed_parameters self
                  \/ (_last_timestamp s1 = _last_timestamp self
                      /\ exists key value,
                           _changed_parameters s1
                           = _changed_parameters self
                               ++ [(_last_timestamp self, key, value)]))).
  { destruct D as (D0 & [(D1 & D2) | [(_ & _ & _ & D1 & D2 & D3) | (_ & _ & D1 & info & _ & D2)]]).
    - split; [exact D0 | split; [lia | now left]].
    - split; [exact D0 | split; [lia | now left]].
    - split; [exact D0 | split; [lia | right; split; [exact D1 | eauto]]]. }
  destruct o1; exact G.
Qed.

(** The chain [start <= stamps <= last] is kept by every pass. *)
Lemma data_step_chain flt ts self :
  stamped_upto (_start_timestamp self) (_last_timestamp self) (stamps self) ->
  let self' := pass_state (data_step flt ts self) in
  stamped_upto (_start_timestamp self') (_last_timestamp self') (stamps self').
Proof.
  intros J. pose proof (data_step_stamps flt ts self) as (S & L & C).
  cbv zeta. rewrite S. unfold stamps in *.
  destruct C as [C | (C1 & k & v & C2)].
  - rewrite C. eapply stamped_upto_raise; eassumption.
  - rewrite C2, C1, map_app. simpl. now apply stamped_upto_snoc.
Qed.

Lemma data_loop_chain flt :
  forall fuel ts self self' o,
    data_loop fuel flt ts self = Some (self', o) ->
    stamped_upto (_start_timestamp self) (_last_timestamp self) (stamps self) ->
    _last_timestamp self <= _last_timestamp self'
    /\ stamped_upto (_start_timestamp self') (_last_timestamp self') (stamps self').
Proof.
  induction fuel as [|fuel IH]; intros ts self self' o H J; [discriminate|].
  simpl in H.
  pose proof (data_step_chain flt ts self J) as J'.
  pose proof (data_step_stamps flt ts self) as (_ & L & _).
  destruct (data_step flt ts self) as [s t|s|s e]; simpl in J', L.
  - destruct (IH _ _ _ _ H J') as [L' J'']. split; [lia | exact J''].
  - inversion H; subst. split; assumption.
  - inversion H; subst. split; assumption.
Qed.

Lemma read_file_data_chain flt self self' o :
  _read_file_data flt self = Some (self', o) ->
  stamped_upto (_start_timestamp self) (_last_timestamp self) (stamps self) ->
  _last_timestamp self <= _last_timestamp self'
  /\ stamped_upto (_start_timestamp self') (_last_timestamp self') (stamps self').
Proof.
  unfold _read_file_data. intros H J.
  destruct (data_loop _ flt 0 self) as [[s o']|] eqn:E; [|discriminate].
  destruct (data_loop_chain _ _ _ _ E J) as [L J'].
  pose proof (materialize_frame (rev (_subscriptions s)) s) as (M1 & M2 & M3 & _).
  cbv zeta in M1, M2, M3.
  assert (G : forall r, materialize (rev (_subscriptions s)) s = r ->
                _last_timestamp self <= _last_timestamp (fst r)
                /\ stamped_upto (_start_timestamp (fst r))
                     (_last_timestamp (fst r)) (stamps (fst r))).
  { intros r <-. unfold stamps in *. rewrite M1, M2, M3. split; assumption. }
  destruct o' as [[]|]; inversion H; subst; clear H;
    try (split; assumption);
    match goal with
    | H1 : materialize _ _ = (?a, ?b) |- _ => exact (G (a, b) H1)
    end.
Qed.

(** The header reader leaves the last timestamp and the parameter events
    of a fresh object alone, and sets the start timestamp only when it
    returns normally. *)
Lemma read_file_header_fresh (fh : file_handle) :
  let r := _read_file_header (ULog_new fh) in
  _last_timestamp (fst r) = 0
  /\ _changed_parameters (fst r) = []
  /\ (snd r <> None -> _start_timestamp (fst r) = 0).
Proof.
  unfold _read_file_header.
  rewrite (surjective_pairing (read 16 _)). cbv zeta.
  repeat break_match; simpl; repeat split; congruence.
Qed.

(** C7.  Over a whole parse the changed-parameter events are stamped in
    non-decreasing order between the start timestamp and the final last
    timestamp.  The data phase is entered with the last timestamp equal
    to the header's start timestamp; no pass of the data loop lowers it;
    the dispatch of a message changes it only when the message is a data
    record whose timestamp is non-zero and strictly larger, which then
    becomes the last timestamp; and a parameter message appends an event
    stamped with the last timestamp of that moment. *)
Theorem last_timestamp_monotone
  (file : bytes) (flt : name_filter) (self : ULog) (o : option exn)
  (Hparse : ULog_init file flt = Some (self, o)) :
  stamped_upto (_start_timestamp self) (_last_timestamp self) (stamps self)
  /\ (forall s1 s2 o2,
        _read_file_header (ULog_new (mk_file file 0)) = (s1, None) ->
        _read_file_definitions (set_last_timestamp (_start_timestamp s1) s1)
          = Some (s2, o2) ->
        _last_timestamp s2 = _start_timestamp s1
        /\ _start_timestamp s2 = _start_timestamp s1
        /\ _changed_parameters s2 = []
        /\ _last_timestamp s2 <= _last_timestamp self)
  /\ (forall ts s,
        _last_timestamp s <= _last_timestamp (pass_state (data_step flt ts s)))
  /\ (forall h d ts s,
        let '(s', ts', e) := data_dispatch flt h d ts s in
        (_last_timestamp s' = _last_timestamp s
         /\ _changed_parameters s' = _changed_parameters s)
        \/ (msg_type h = MSG_TYPE_DATA /\ e = None /\ ts' <> 0
            /\ _last_timestamp s < ts' /\ _last_timestamp s' = ts'
            /\ _changed_parameters s' = _changed_parameters s)
        \/ (msg_type h = MSG_TYPE_PARAMETER /\ e = None
            /\ _last_timestamp s' = _last_timestamp s
            /\ exists info,
                 MessageInfo_init d = Ok info
                 /\ _changed_parameters s'
                    = _changed_parameters s
                        ++ [(_last_timestamp s, info_key info, info_value info)])).
Proof.
  assert (Hdisp : forall h d ts s,
            let '(s', ts', e) := data_dispatch flt h d ts s in
            (_last_timestamp s' = _last_timestamp s
             /\ _changed_parameters s' = _changed_parameters s)
            \/ (msg_type h = MSG_TYPE_DATA /\ e = None /\ ts' <> 0
                /\ _last_timestamp s < ts' /\ _last_timestamp s' = ts'
                /\ _changed_parameters s' = _changed_parameters s)
            \/ (msg_type h = MSG_TYPE_PARAMETER /\ e = None
                /\ _last_timestamp s' = _last_timestamp s
                /\ exists info,
                     MessageInfo_init d = Ok info
                     /\ _changed_parameters s'
                        = _changed_parameters s
                            ++ [(_last_timestamp s, info_key info, info_value info)])).
  { intros h d ts s. pose proof (data_dispatch_stamps flt h d ts s) as D.
    destruct (data_dispatch flt h d ts s) as [[s' t'] e]. exact (proj2 D). }
  assert (Hstep : forall ts s,
            _last_timestamp s <= _last_timestamp (pass_state (data_step flt ts s))).
  { intros ts s. exact (proj1 (proj2 (data_step_stamps flt ts s))). }
  unfold ULog_init, _load_file in Hparse.
  pose proof (read_file_header_fresh (mk_file file 0)) as (F1 & F2 & F3).
  destruct (_read_file_header (ULog_new (mk_file file 0))) as [s1 o1] eqn:E1.
  cbv zeta in F1, F2, F3. simpl in F1, F2, F3.
  destruct o1 as [e1|].
  - inversion Hparse; subst; clear Hparse.
    split; [|split; [|split; [exact Hstep | exact Hdisp]]].
    + unfold stamps. rewrite F1, F2, F3 by discriminate. simpl. lia.
    + intros s1' s2 o2 Habs. discriminate.
  - set (s := set_last_timestamp (_start_timestamp s1) s1) in *.
    destruct (_read_file_definitions s) as [[s2 o2]|] eqn:E2; [|discriminate].
    pose proof E2 as E2'. unfold _read_file_definitions in E2'.
    apply definitions_loop_frame in E2' as (D1 & D2 & D3 & _).
    assert (J2 : stamped_upto (_start_timestamp s2) (_last_timestamp s2) (stamps s2)).
    { unfold stamps. rewrite D1, D2, D3. subst s. simpl. rewrite F2. simpl. lia. }
    assert (Last : _last_timestamp s2 <= _last_timestamp self
                   /\ stamped_upto (_start_timestamp self) (_last_timestamp self)
                        (stamps self)).
    { destruct o2 as [e2|].
      - inversion Hparse; subst. split; [lia | exact J2].
      - exact (read_file_data_chain _ _ Hparse J2). }
    split; [exact (proj2 Last)|].
    split; [|split; [exact Hstep | exact Hdisp]].
    intros s1' s2' o2' Hh Hd. inversion Hh; subst s1'.
    fold s in Hd. rewrite E2 in Hd. inversion Hd; subst s2' o2'.
    rewrite D1, D2, D3. subst s. simpl. repeat split; try assumption.
    destruct Last as [L _]. rewrite D2 in L. exact L.
Qed.

(** Three parameter changes around records stamped 500 and 300: the
    events are stamped 100 (the start), 500 and 500. *)
Lemma last_timestamp_monotone_witness :
  exists self,
    ULog_init parameters_stream None = Some (self, None)
    /\ stamps self = [100; 500; 500]
    /\ _start_timestamp self = 100
    /\ _last_timestamp self = 500
    /\ stamped_upto (_start_timestamp self) (_last_timestamp self) (stamps self).
Proof.
  eexists. split; [vm_compute; reflexivity|].
  split; [reflexivity|]. split; [reflexivity|]. split; [reflexivity|].
  refine (proj1 (@last_timestamp_monotone parameters_stream None _ None _)).
  vm_compute; reflexivity.
Defined.

(* ================================================================== *)
(** ** Reaching a point of the data phase                              *)
(* ================================================================== *)

Lemma data_loop_deterministic flt fuel1 fuel2 ts self out1 out2 :
  data_loop fuel1 flt ts self = Some out1 ->
  data_loop fuel2 flt ts self = Some out2 ->
  out1 = out2.
Proof.
  intros H1 H2.
  apply data_loop_fuel_irrelevant with (fuel' := Nat.max fuel1 fuel2) in H1; [|lia].
  apply data_loop_fuel_irrelevant with (fuel' := Nat.max fuel1 fuel2) in H2; [|lia].
  congruence.
Qed.

(** The loop started [k] passes earlier ends as the loop started here. *)
Lemma data_loop_after_run flt :
  forall k ts0 self0 ts self fuel out,
    data_run k flt ts0 self0 = Some (ts, self) ->
    data_loop fuel flt ts self = Some out ->
    data_loop (loop_fuel self0) flt ts0 self0 = Some out.
Proof.
  intros k ts0 self0 ts self fuel out Hrun Hloop.
  assert (G : data_loop (k + fuel) flt ts0 self0 = Some out).
  { revert ts0 self0 Hrun. induction k as [|k IH]; intros ts0 self0 Hrun.
    - inversion Hrun; subst. exact Hloop.
    - simpl in *. destruct (data_step flt ts0 self0); try discriminate.
      now apply IH. }
  destruct (data_loop_total flt (fuel := loop_fuel self0) ts0 self0) as [out' E].
  { unfold loop_fuel, bytes_left. lia. }
  rewrite E. f_equal. eapply data_loop_deterministic; eassumption.
Qed.

Lemma data_run_frame flt :
  forall k ts0 self0 ts self,
    data_run k flt ts0 self0 = Some (ts, self) ->
    _data_list self = _data_list self0.
Proof.
  induction k as [|k IH]; intros ts0 self0 ts self H; simpl in H.
  - now inversion H.
  - destruct (data_step flt ts0 self0) eqn:E; try discriminate.
    apply IH in H. apply data_step_continue in E. intuition congruence.
Qed.

(** *** The final loop *)

(** [materialize] walks the reversed table, which is the order in which
    [popitem] empties it. *)
Lemma dict_popitem_rev {K V} (d d' : dict K V) (kv : K * V) :
  dict_popitem d = Some (kv, d') -> rev d = kv :: rev d'.
Proof.
  unfold dict_popitem. destruct (rev d) as [|x r] eqn:E; [discriminate|].
  intros H; inversion H; subst. now rewrite rev_involutive.
Qed.

Lemma whole_records_Data_init m :
  whole_records m = true <-> exists d, Data_init m = Ok d.
Proof.
  unfold whole_records, Data_init, np_frombuffer.
  destruct (Nat.eqb (itemsize (dtype m)) 0); simpl.
  - split; [discriminate | intros [d H]; discriminate].
  - destruct (Nat.eqb (List.length (buffer m) mod itemsize (dtype m)) 0); simpl.
    + split; [eauto | reflexivity].
    + split; [discriminate | intros [d H]; discriminate].
Qed.

Lemma Data_init_raises m e : Data_init m = Raise e -> e = ValueError.
Proof.
  unfold Data_init, np_frombuffer.
  repeat break_match; simpl; intros H; now inversion H.
Qed.

Lemma Data_init_identity m d :
  Data_init m = Ok d ->
  data_name d = message_name m /\ data_multi_id d = multi_id m
  /\ data_field_data d = field_data m.
Proof.
  unfold Data_init. intros H. apply bind_ok in H as (a & _ & H).
  inversion H; subst. repeat split.
Qed.

(** When every non-empty buffer is a whole number of records, the final
    loop returns normally, empties the table and appends one topic per
    subscription with a non-empty buffer, in the order of [popitem]. *)
Lemma materialize_ok :
  forall popped self,
    (forall kv, In kv popped -> buffer (snd kv) <> [] ->
                whole_records (snd kv) = true) ->
    exists final,
      materialize popped self = (final, None)
      /\ _data_list final = _data_list self ++ decoded popped
      /\ (popped <> [] -> _subscriptions final = []).
Proof.
  induction popped as [|[k v] rest IH]; intros self Hfit.
  - exists self. simpl. rewrite app_nil_r. repeat split. congruence.
  - cbn [materialize decoded flat_map snd].
    assert (Hrest : forall kv, In kv rest -> buffer (snd kv) <> [] ->
                               whole_records (snd kv) = true).
    { intros kv Hin. apply Hfit. now right. }
    assert (Hsubs : forall s : ULog,
               _subscriptions s = rev rest ->
               forall final, materialize rest s = (final, None) ->
               (rest <> [] -> _subscriptions final = []) ->
               _subscriptions final = []).
    { intros s Hs final Hm Hne. destruct rest as [|x rest'].
      - simpl in Hm. inversion Hm; subst. exact Hs.
      - apply Hne. discriminate. }
    destruct (Nat.ltb 0 (List.length (buffer v))) eqn:Hlen.
    + assert (Hv : whole_records v = true).
      { apply (Hfit (k, v)); [now left|]. simpl.
        apply Nat.ltb_lt in Hlen. destruct (buffer v); [simpl in Hlen; lia | discriminate]. }
      apply whole_records_Data_init in Hv as [d Hd]. rewrite Hd.
      match goal with |- context [materialize rest ?s] =>
        destruct (IH s Hrest) as (final & Hm & Hl & Hs);
        exists final; split; [exact Hm|]; split;
        [ rewrite Hl; simpl; now rewrite <- app_assoc
        | intros _; exact (Hsubs s eq_refl final Hm Hs) ]
      end.
    + match goal with |- context [materialize rest ?s] =>
        destruct (IH s Hrest) as (final & Hm & Hl & Hs);
        exists final; split; [exact Hm|]; split;
        [ rewrite Hl; reflexivity
        | intros _; exact (Hsubs s eq_refl final Hm Hs) ]
      end.
Qed.

Lemma decoded_In popped kv d :
  In kv popped -> buffer (snd kv) <> [] -> Data_init (snd kv) = Ok d ->
  In d (decoded popped).
Proof.
  intros Hin Hne Hd. unfold decoded. apply in_flat_map. exists kv.
  split; [exact Hin|].
  destruct (buffer (snd kv)) eqn:B; [congruence|]. simpl. rewrite Hd. now left.
Qed.

(* ================================================================== *)
(** ** A stream cut in the middle of a record (C3)                     *)
(* ================================================================== *)

(** The pass that meets an envelope announcing more than is left. *)
Lemma data_step_cut flt ts self h :
  header_initialize (firstn 3 (remaining (_file_handle self))) = Ok h ->
  Z.of_nat (List.length (skipn 3 (remaining (_file_handle self)))) < msg_size h ->
  data_step flt ts self
  = Break (set_file_handle
             (snd (read (Z.to_nat (msg_size h)) (snd (read 3 (_file_handle self)))))
             self).
Proof.
  intros Hh Hcut. rewrite data_step_eq. cbv zeta. rewrite Hh.
  rewrite length_firstn.
  destruct (Z.ltb_spec
              (Z.of_nat (Nat.min (Z.to_nat (msg_size h))
                           (List.length (skipn 3 (remaining (_file_handle self))))))
              (msg_size h)) as [L | L]; [reflexivity | lia].
Qed.

(** C3, amended.  When the data loop, after any number of passes, meets
    an envelope whose declared payload length exceeds the bytes that
    remain, the pass ends the loop by [break]: no exception is raised,
    nothing is appended to any buffer, and the method goes on to the
    final loop over the subscriptions as they stand.  Provided every
    non-empty buffer holds a whole number of records of its
    subscription's non-zero record size, that loop returns normally and
    every subscription with a non-empty buffer is converted into a
    decoded topic of the result. *)
Theorem cut_record_ends_data_phase
  (flt : name_filter) (self0 self : ULog) (k : nat) (ts : Z) (h : _MessageHeader)
  (Hrun : data_run k flt 0 self0 = Some (ts, self))
  (Hhdr : header_initialize (firstn 3 (remaining (_file_handle self))) = Ok h)
  (Hcut : Z.of_nat (List.length (skipn 3 (remaining (_file_handle self))))
          < msg_size h) :
  exists self_b,
    data_step flt ts self = Break self_b
    /\ _subscriptions self_b = _subscriptions self
    /\ _read_file_data flt self0
       = Some (materialize (rev (_subscriptions self)) self_b)
    /\ ((forall id sub, In (id, sub) (_subscriptions self) ->
           buffer sub <> [] -> whole_records sub = true) ->
        exists final,
          _read_file_data flt self0 = Some (final, None)
          /\ _data_list final
             = _data_list self0 ++ decoded (rev (_subscriptions self))
          /\ forall id sub, In (id, sub) (_subscriptions self) ->
               buffer sub <> [] ->
               exists d, Data_init sub = Ok d /\ In d (_data_list final)).
Proof.
  pose proof (data_step_cut flt ts self Hhdr Hcut) as Hstep.
  set (self_b := set_file_handle _ self) in Hstep.
  assert (Hloop : data_loop 1 flt ts self = Some (self_b, None)).
  { simpl. now rewrite Hstep. }
  assert (Hdata : _read_file_data flt self0
                  = Some (materialize (rev (_subscriptions self)) self_b)).
  { unfold _read_file_data.
    now rewrite (@data_loop_after_run _ _ _ _ _ _ _ _ Hrun Hloop). }
  exists self_b. split; [exact Hstep|]. split; [reflexivity|].
  split; [exact Hdata|].
  intros Hfit.
  destruct (materialize_ok (rev (_subscriptions self)) self_b) as (final & Hm & Hl & _).
  { intros [id sub] Hin. apply (Hfit id sub). apply (proj2 (in_rev _ _)). exact Hin. }
  exists final. rewrite Hdata, Hm. split; [reflexivity|].
  assert (Hlist : _data_list self_b = _data_list self0).
  { apply data_run_frame in Hrun. exact Hrun. }
  rewrite Hl, Hlist. split; [reflexivity|].
  intros id sub Hin Hne.
  destruct (proj1 (whole_records_Data_init sub) (Hfit id sub Hin Hne)) as [d Hd].
  exists d. split; [exact Hd|]. apply in_or_app. right.
  apply decoded_In with (kv := (id, sub));
    [apply (proj1 (in_rev _ _)); exact Hin | exact Hne | exact Hd].
Qed.

(** The stream with two whole records and a cut third one: three passes
    lead to the cut envelope, and the parse returns the topic with the
    two records. *)
Lemma cut_record_ends_data_phase_witness :
  enter_data_phase cut_stream = Some (cut_stream_entry, None)
  /\ data_run 3 None 0 cut_stream_entry = Some (300, cut_stream_at_cut)
  /\ header_initialize (firstn 3 (remaining (_file_handle cut_stream_at_cut)))
     = Ok (mk_header 5 MSG_TYPE_DATA)
  /\ List.length (skipn 3 (remaining (_file_handle cut_stream_at_cut))) = 1%nat
  /\ exists final,
       ULog_init cut_stream None = Some (final, None)
       /\ _data_list final = [timestamp_topic "t" 0 [200; 300]].
Proof.
  assert (Hrun : data_run 3 None 0 cut_stream_entry = Some (300, cut_stream_at_cut))
    by (vm_compute; reflexivity).
  assert (Hhdr : header_initialize
                   (firstn 3 (remaining (_file_handle cut_stream_at_cut)))
                 = Ok (mk_header 5 MSG_TYPE_DATA))
    by (vm_compute; reflexivity).
  assert (Hcut : Z.of_nat (List.length
                             (skipn 3 (remaining (_file_handle cut_stream_at_cut))))
                 < msg_size (mk_header 5 MSG_TYPE_DATA))
    by (vm_compute; reflexivity).
  split; [vm_compute; reflexivity|]. split; [exact Hrun|].
  split; [exact Hhdr|]. split; [vm_compute; reflexivity|].
  destruct (@cut_record_ends_data_phase None _ _ _ _ _ Hrun Hhdr Hcut)
    as (self_b & _ & _ & _ & Hok).
  destruct Hok as (final & Hdata & Hlist & _).
  { intros id sub [E | []]. inversion E; subst. intros _. vm_compute; reflexivity. }
  exists final. split.
  - rewrite <- Hdata. vm_compute; reflexivity.
  - rewrite Hlist. vm_compute; reflexivity.
Defined.

(** C3 as stated does not hold: with a 9-byte record accumulated for a
    topic whose records are 8 bytes, the cut envelope still ends the loop
    by [break], but the final loop raises [ValueError] out of the parse
    and the subscription is not converted. *)
Lemma cut_stream_with_odd_record_raises :
  exists self0 ts self self_b final sub,
    enter_data_phase odd_record_cut_stream = Some (self0, None)
    /\ data_run 2 None 0 self0 = Some (ts, self)
    /\ data_step None ts self = Break self_b
    /\ dict_get Z.eqb 1 (_subscriptions self_b) = Some sub
    /\ List.length (buffer sub) = 9%nat
    /\ ULog_init odd_record_cut_stream None = Some (final, Some ValueError)
    /\ _data_list final = [].
Proof.
  do 6 eexists.
  split; [vm_compute; reflexivity|]. split; [vm_compute; reflexivity|].
  split; [vm_compute; reflexivity|]. split; [vm_compute; reflexivity|].
  split; [reflexivity|]. split; [vm_compute; reflexivity | reflexivity].
Qed.

(* ================================================================== *)
(** ** A record too short for its timestamp (C10)                      *)
(* ================================================================== *)

Lemma dict_get_set_same {V} (k : Z) (v : V) (d : dict Z V) :
  dict_get Z.eqb k (dict_set Z.eqb k v d) = Some v.
Proof.
  induction d as [|[k' v'] d IH]; simpl.
  - now rewrite Z.eqb_refl.
  - destruct (Z.eqb k k') eqn:E; simpl; rewrite ?Z.eqb_refl, ?E; auto.
Qed.

Lemma dict_get_set_other {V} (k k' : Z) (v : V) (d : dict Z V) :
  k' <> k -> dict_get Z.eqb k' (dict_set Z.eqb k v d) = dict_get Z.eqb k' d.
Proof.
  intros Hne. induction d as [|[k0 v0] d IH]; simpl.
  - destruct (Z.eqb_spec k' k); [contradiction | reflexivity].
  - destruct (Z.eqb_spec k k0) as [-> | N]; simpl.
    + destruct (Z.eqb_spec k' k0); [contradiction | reflexivity].
    + destruct (Z.eqb k' k0); [reflexivity | exact IH].
Qed.

Lemma data_dispatch_data flt h d ts self :
  msg_type h = MSG_TYPE_DATA ->
  data_dispatch flt h d ts self
  = match MessageData_initialize d ts self with
    | (self, ts, None) =>
        if negb (ts =? 0) && (_last_timestamp self <? ts)
        then (set_last_timestamp ts self, ts, None)
        else (self, ts, None)
    | (self, ts, Some e) => (self, ts, Some e)
    end.
Proof. intros H. unfold data_dispatch. rewrite H. reflexivity. Qed.

(** The pass over a complete message. *)
Lemma data_step_complete flt ts self h :
  header_initialize (firstn 3 (remaining (_file_handle self))) = Ok h ->
  msg_size h
  <= Z.of_nat (List.length (firstn (Z.to_nat (msg_size h))
                              (skipn 3 (remaining (_file_handle self))))) ->
  data_step flt ts self
  = match data_dispatch flt h
            (firstn (Z.to_nat (msg_size h)) (skipn 3 (remaining (_file_handle self))))
            ts
            (set_file_handle
               (snd (read (Z.to_nat (msg_size h)) (snd (read 3 (_file_handle self)))))
               self) with
    | (s, t, None) => Continue s t
    | (s, _, Some e) => Raised s e
    end.
Proof.
  intros Hh Hfull. rewrite data_step_eq. cbv zeta. rewrite Hh.
  destruct (Z.ltb_spec
              (Z.of_nat (List.length (firstn (Z.to_nat (msg_size h))
                                        (skipn 3 (remaining (_file_handle self))))))
              (msg_size h)) as [L | L]; [lia | reflexivity].
Qed.

(** The timestamp is read from eight bytes at the offset: fewer than
    [t_off + 10] payload bytes make the read a [struct.error]. *)
Lemma timestamp_unpack_short (data : bytes) (t_off : nat) :
  (List.length data < t_off + 10)%nat ->
  _unpack_uint64 (slice (t_off + 2) (t_off + 10) data) = Raise StructError.
Proof.
  intros H. unfold _unpack_uint64, unpack_exact, slice.
  rewrite length_firstn, length_skipn.
  destruct (Nat.eqb_spec
              (Nat.min (t_off + 10 - (t_off + 2)) (List.length data - (t_off + 2))) 8)
    as [E | E]; [lia | reflexivity].
Qed.

(** The final loop converts every subscription with a non-empty buffer
    when all such buffers are whole numbers of records. *)
Lemma materialize_converts (self : ULog) :
  (forall id sub, In (id, sub) (_subscriptions self) ->
     buffer sub <> [] -> whole_records sub = true) ->
  exists final,
    materialize (rev (_subscriptions self)) self = (final, None)
    /\ _data_list final = _data_list self ++ decoded (rev (_subscriptions self))
    /\ forall id sub, In (id, sub) (_subscriptions self) ->
         buffer sub <> [] ->
         exists d, Data_init sub = Ok d /\ In d (_data_list final).
Proof.
  intros Hfit.
  destruct (materialize_ok (rev (_subscriptions self)) self) as (final & Hm & Hl & _).
  { intros [id sub] Hin. apply (Hfit id sub). apply (proj2 (in_rev _ _)). exact Hin. }
  exists final. split; [exact Hm|]. split; [exact Hl|].
  intros id sub Hin Hne.
  destruct (proj1 (whole_records_Data_init sub) (Hfit id sub Hin Hne)) as [d Hd].
  exists d. split; [exact Hd|]. rewrite Hl. apply in_or_app. right.
  apply decoded_In with (kv := (id, sub));
    [apply (proj1 (in_rev _ _)); exact Hin | exact Hne | exact Hd].
Qed.

(** C10, amended.  When the data loop, after any number of passes, reads
    a complete data record whose id has a subscription and whose payload
    holds fewer than [timestamp_offset + 10] bytes, the record's bytes
    are appended to the subscription's buffer and the read of the
    timestamp then raises [struct.error].  The handler of the data phase
    swallows it, so the rest of the stream is not read, and the final
    loop runs over the subscriptions as the pass left them.  Provided
    every non-empty buffer (the one with the short record's bytes among
    them) holds a whole number of records of its non-zero record size,
    every subscription with a non-empty buffer is converted into a
    decoded topic and the method returns normally. *)
Theorem short_record_ends_data_phase
  (flt : name_filter) (self0 self : ULog) (k : nat) (ts : Z)
  (h : _MessageHeader) (payload : bytes) (id : Z) (sub : _MessageAddLogged)
  (Hrun : data_run k flt 0 self0 = Some (ts, self))
  (Hhdr : header_initialize (firstn 3 (remaining (_file_handle self))) = Ok h)
  (Htype : msg_type h = MSG_TYPE_DATA)
  (Hpayload : payload = firstn (Z.to_nat (msg_size h))
                          (skipn 3 (remaining (_file_handle self))))
  (Hfull : msg_size h <= Z.of_nat (List.length payload))
  (Hid : _unpack_ushort (slice 0 2 payload) = Ok id)
  (Hsub : dict_get Z.eqb id (_subscriptions self) = Some sub)
  (Hshort : (List.length payload < timestamp_offset sub + 10)%nat) :
  exists self_r,
    data_step flt ts self = Raised self_r StructError
    /\ dict_get Z.eqb id (_subscriptions self_r)
       = Some (buffer_append sub (slice_from 2 payload))
    /\ (forall id', id' <> id ->
          dict_get Z.eqb id' (_subscriptions self_r)
          = dict_get Z.eqb id' (_subscriptions self))
    /\ _read_file_data flt self0
       = Some (materialize (rev (_subscriptions self_r)) self_r)
    /\ ((forall id' sub', In (id', sub') (_subscriptions self_r) ->
           buffer sub' <> [] -> whole_records sub' = true) ->
        exists final,
          _read_file_data flt self0 = Some (final, None)
          /\ _data_list final
             = _data_list self0 ++ decoded (rev (_subscriptions self_r))
          /\ forall id' sub', In (id', sub') (_subscriptions self_r) ->
               buffer sub' <> [] ->
               exists d, Data_init sub' = Ok d /\ In d (_data_list final)).
Proof.
  subst payload.
  pose proof (@data_step_complete flt ts self h Hhdr Hfull) as Hstep.
  rewrite (@data_dispatch_data flt h _ ts _ Htype) in Hstep.
  set (self1 := set_file_handle _ self) in Hstep.
  set (payload := firstn (Z.to_nat (msg_size h))
                    (skipn 3 (remaining (_file_handle self)))) in *.
  assert (Hinit : MessageData_initialize payload ts self1
                  = (set_subscriptions
                       (dict_set Z.eqb id (buffer_append sub (slice_from 2 payload))
                          (_subscriptions self)) self1, ts, Some StructError)).
  { unfold MessageData_initialize. rewrite Hid.
    change (_subscriptions self1) with (_subscriptions self). rewrite Hsub.
    rewrite (@timestamp_unpack_short _ _ Hshort). reflexivity. }
  rewrite Hinit in Hstep.
  set (self_r := set_subscriptions _ self1) in Hstep.
  assert (Hloop : data_loop 1 flt ts self = Some (self_r, Some StructError)).
  { simpl. now rewrite Hstep. }
  assert (Hdata : _read_file_data flt self0
                  = Some (materialize (rev (_subscriptions self_r)) self_r)).
  { unfold _read_file_data.
    now rewrite (@data_loop_after_run _ _ _ _ _ _ _ _ Hrun Hloop). }
  exists self_r. split; [exact Hstep|].
  split; [apply dict_get_set_same|].
  split; [intros id' Hne; now apply dict_get_set_other|].
  split; [exact Hdata|].
  intros Hfit. destruct (@materialize_converts self_r Hfit) as (final & Hm & Hl & Hc).
  exists final. rewrite Hdata, Hm. split; [reflexivity|].
  split; [|exact Hc].
  rewrite Hl. apply data_run_frame in Hrun. now rewrite <- Hrun.
Qed.

(** The topic [{uint8_t a}] has no timestamp field, so its offset is the
    whole record and the first one-byte record already raises: the topic
    comes out with that one record, the second record is never read. *)
Lemma short_record_ends_data_phase_witness :
  let sub := mk_add_logged 0 1 "t" [mk_field "a" Tuint8] (-1) 1 []
               [("a", np_uint8)] in
  data_run 1 None 0 short_record_entry = Some (0, short_record_at_data)
  /\ dict_get Z.eqb 1 (_subscriptions short_record_at_data) = Some sub
  /\ exists final,
       ULog_init short_record_stream None = Some (final, None)
       /\ _data_list final
          = [mk_data 0 "t" [mk_field "a" Tuint8] (-1) [("a", [NpInt 7])]].
Proof.
  cbv zeta.
  assert (Hrun : data_run 1 None 0 short_record_entry
                 = Some (0, short_record_at_data))
    by (vm_compute; reflexivity).
  split; [exact Hrun|]. split; [vm_compute; reflexivity|].
  destruct (@short_record_ends_data_phase None short_record_entry
              short_record_at_data 1 0 (mk_header 3 MSG_TYPE_DATA)
              [x01; x00; x07] 1
              (mk_add_logged 0 1 "t" [mk_field "a" Tuint8] (-1) 1 []
                 [("a", np_uint8)])
              Hrun)
    as (self_r & Hstep & Hbuf & _ & Hdata & Hok);
    try (vm_compute; reflexivity).
  { vm_compute. discriminate. }
  { vm_compute. lia. }
  destruct Hok as (final & Hfinal & Hlist & _).
  { intros id' sub' Hin _.
    rewrite data_step_eq in Hstep. vm_compute in Hstep.
    inversion Hstep; subst self_r; clear Hstep.
    destruct Hin as [E | []]. inversion E; subst. vm_compute; reflexivity. }
  exists final. split.
  - rewrite <- Hfinal. vm_compute; reflexivity.
  - rewrite Hlist.
    rewrite data_step_eq in Hstep. vm_compute in Hstep.
    inversion Hstep; subst self_r. vm_compute; reflexivity.
Defined.

(** C10 as stated does not hold: with a [uint64_t] timestamp and a
    record of three bytes, the [struct.error] is swallowed but the buffer
    then holds three bytes for 8-byte records, and the final loop raises
    [ValueError] out of the parse instead of converting the buffer. *)
Lemma short_timestamp_record_raises :
  exists self0 ts self self_r final sub,
    enter_data_phase short_timestamp_stream = Some (self0, None)
    /\ data_run 1 None 0 self0 = Some (ts, self)
    /\ data_step None ts self = Raised self_r StructError
    /\ dict_get Z.eqb 1 (_subscriptions self_r) = Some sub
    /\ buffer sub = [x01; x02; x03]
    /\ itemsize (dtype sub) = 8%nat
    /\ ULog_init short_timestamp_stream None = Some (final, Some ValueError)
    /\ _data_list final = [].
Proof.
  do 6 eexists.
  split; [vm_compute; reflexivity|]. split; [vm_compute; reflexivity|].
  split; [vm_compute; reflexivity|]. split; [vm_compute; reflexivity|].
  split; [reflexivity|]. split; [reflexivity|].
  split; [vm_compute; reflexivity | reflexivity].
Qed.

(* ================================================================== *)
(** ** Records of an unknown id (C4)                                   *)
(* ================================================================== *)

Lemma set_mem_add (x y : Z) (s : list Z) :
  set_mem x (set_add y s) = set_mem x s || (x =? y).
Proof.
  unfold set_add. destruct (set_mem y s) eqn:E.
  - destruct (Z.eqb_spec x y) as [-> | N]; [now rewrite E | now rewrite orb_false_r].
  - unfold set_mem. rewrite existsb_app. simpl. now rewrite orb_false_r.
Qed.

(** What [initialize] does to the buffers, the warnings and the set of
    missing ids. *)
Lemma MessageData_initialize_warnings data ts self :
  let '(self', ts', e) := MessageData_initialize data ts self in
  (warned_once self -> warned_once self')
  /\ (forall id, set_mem id (_missing_message_ids self) = true ->
                 set_mem id (_missing_message_ids self') = true).
Proof.
  unfold MessageData_initialize.
  destruct (_unpack_ushort (slice 0 2 data)) as [id|]; [|tauto].
  destruct (dict_get Z.eqb id (_subscriptions self)).
  { destruct (_unpack_uint64 _); simpl; tauto. }
  destruct (set_mem id (_filtered_message_ids self)); simpl; [tauto|].
  destruct (set_mem id (_missing_message_ids self)) eqn:M; simpl; [tauto|].
  split.
  - intros W j. pose proof (W j) as Wj. unfold warnings_for in *. simpl.
    rewrite filter_app, length_app, set_mem_add, Wj. simpl.
    rewrite (Z.eqb_sym id j).
    destruct (Z.eqb_spec j id) as [-> | N].
    + rewrite M. reflexivity.
    + rewrite orb_false_r. destruct (set_mem j _); reflexivity.
  - intros j Hj. rewrite set_mem_add, Hj. reflexivity.
Qed.

Lemma data_dispatch_warnings flt h d ts self :
  let '(self', _, _) := data_dispatch flt h d ts self in
  (warned_once self -> warned_once self')
  /\ (forall id, set_mem id (_missing_message_ids self) = true ->
                 set_mem id (_missing_message_ids self') = true).
Proof.
  unfold data_dispatch.
  pose proof (MessageData_initialize_warnings d ts self) as F.
  destruct (MessageData_initialize d ts self) as [[s t] o].
  repeat (break_match; simpl); try tauto; try exact F.
Qed.

Lemma data_step_warnings flt ts self :
  let self' := pass_state (data_step flt ts self) in
  (warned_once self -> warned_once self')
  /\ (forall id, set_mem id (_missing_message_ids self) = true ->
                 set_mem id (_missing_message_ids self') = true).
Proof.
  rewrite data_step_eq. cbv zeta.
  destruct (header_initialize _) as [h|]; simpl; [|tauto].
  destruct (_ <? _); simpl; [tauto|].
  match goal with
  | |- context [data_dispatch flt h ?d ts ?s0] =>
      pose proof (data_dispatch_warnings flt h d ts s0) as D;
      destruct (data_dispatch flt h d ts s0) as [[s1 t1] o1]
  end.
  destruct o1; exact D.
Qed.

Lemma data_loop_warnings flt :
  forall fuel ts self self' o,
    data_loop fuel flt ts self = Some (self', o) ->
    (warned_once self -> warned_once self')
    /\ (forall id, set_mem id (_missing_message_ids self) = true ->
                   set_mem id (_missing_message_ids self') = true).
Proof.
  induction fuel as [|fuel IH]; intros ts self self' o H; [discriminate|].
  simpl in H. pose proof (data_step_warnings flt ts self) as (W & M).
  destruct (data_step flt ts self) as [s t|s|s e]; simpl in W, M.
  - destruct (IH _ _ _ _ H) as (W' & M'). split; auto.
  - inversion H; subst. split; assumption.
  - inversion H; subst. split; assumption.
Qed.

Lemma data_run_warnings flt :
  forall k ts0 self0 ts self,
    data_run k flt ts0 self0 = Some (ts, self) ->
    warned_once self0 -> warned_once self.
Proof.
  induction k as [|k IH]; intros ts0 self0 ts self H W; simpl in H.
  - inversion H; subst. exact W.
  - pose proof (data_step_warnings flt ts0 self0) as (W' & _).
    destruct (data_step flt ts0 self0); try discriminate.
    eapply IH; [eassumption | now apply W'].
Qed.

Lemma data_run_snoc flt :
  forall k ts0 self0 ts self ts' self',
    data_run k flt ts0 self0 = Some (ts, self) ->
    data_step flt ts self = Continue self' ts' ->
    data_run (S k) flt ts0 self0 = Some (ts', self').
Proof.
  induction k as [|k IH]; intros ts0 self0 ts self ts' self' H E.
  - inversion H; subst. simpl. now rewrite E.
  - simpl in H. change (data_run (S (S k)) flt ts0 self0)
      with (match data_step flt ts0 self0 with
            | Continue s t => data_run (S k) flt t s
            | _ => None
            end).
    destruct (data_step flt ts0 self0); try discriminate.
    eapply IH; eassumption.
Qed.

(** The data phase is entered with nothing warned about. *)
Lemma enter_data_phase_warnings file self0 o :
  enter_data_phase file = Some (self0, o) -> warned_once self0.
Proof.
  unfold enter_data_phase.
  assert (H0 : forall r, _read_file_header (ULog_new (mk_file file 0)) = r ->
                 _missing_message_ids (fst r) = []
                 /\ forall id, filter (is_warning_for id) (stdout (fst r)) = []).
  { intros r <-. unfold _read_file_header.
    rewrite (surjective_pairing (read 16 _)). cbv zeta.
    repeat break_match; simpl; split; reflexivity. }
  destruct (_read_file_header (ULog_new (mk_file file 0))) as [s1 o1] eqn:E1.
  destruct (H0 _ eq_refl) as [Hm Hs]. simpl in Hm, Hs.
  destruct o1 as [e|].
  - intros H; inversion H; subst. intros id. unfold warnings_for.
    now rewrite Hs, Hm.
  - unfold _read_file_definitions. intros H.
    apply definitions_loop_frame in H as (_ & _ & _ & _ & _ & Dm & Ds).
    intros id. unfold warnings_for. rewrite Dm, Ds. simpl. now rewrite Hs, Hm.
Qed.

Lemma ULog_init_enter file flt self0 :
  enter_data_phase file = Some (self0, None) ->
  ULog_init file flt = _read_file_data flt self0.
Proof.
  unfold enter_data_phase, ULog_init, _load_file.
  destruct (_read_file_header _) as [s1 [e|]]; [discriminate|].
  intros H. now rewrite H.
Qed.

Lemma read_file_data_warnings flt self self' o :
  _read_file_data flt self = Some (self', o) ->
  exists s_end o_end,
    data_loop (loop_fuel self) flt 0 self = Some (s_end, o_end)
    /\ stdout self' = stdout s_end
    /\ _missing_message_ids self' = _missing_message_ids s_end.
Proof.
  unfold _read_file_data.
  destruct (data_loop _ flt 0 self) as [[s o']|]; [|discriminate].
  pose proof (materialize_frame (rev (_subscriptions s)) s) as (_ & _ & _ & M1 & M2).
  cbv zeta in M1, M2.
  intros H. exists s, o'. split; [reflexivity|].
  destruct o' as [[]|]; inversion H; subst; try (split; reflexivity);
    match goal with
    | H1 : materialize _ _ = _ |- _ => rewrite H1 in M1, M2; simpl in M1, M2
    end; split; assumption.
Qed.

(** The dispatch of a data record whose id is neither subscribed nor
    filtered. *)
Lemma MessageData_initialize_unknown data ts self id :
  _unpack_ushort (slice 0 2 data) = Ok id ->
  dict_get Z.eqb id (_subscriptions self) = None ->
  set_mem id (_filtered_message_ids self) = false ->
  MessageData_initialize data ts self
  = (if set_mem id (_missing_message_ids self) then self
     else set_stdout (stdout self ++ [WarnNoSubscription id])
            (set_missing_message_ids
               (set_add id (_missing_message_ids self)) self),
     0, None).
Proof.
  intros Hid Hsub Hflt. unfold MessageData_initialize.
  rewrite Hid, Hsub, Hflt. simpl.
  destruct (set_mem id (_missing_message_ids self)); reflexivity.
Qed.

(** C4.  In a parse whose data loop, after any number of passes, reads a
    complete data record whose id has no subscription and is not in the
    filtered set: the pass goes on with the record's timestamp taken as
    zero, no buffer is touched, the last timestamp is kept, and a
    warning for the id is printed unless one was printed before; from
    then on, and in the object the parse ends with, exactly one warning
    for that id has been printed, however many such records follow. *)
Theorem unknown_id_warned_once
  (file : bytes) (flt : name_filter) (self0 self : ULog) (k : nat) (ts : Z)
  (h : _MessageHeader) (payload : bytes) (id : Z)
  (Henter : enter_data_phase file = Some (self0, None))
  (Hrun : data_run k flt 0 self0 = Some (ts, self))
  (Hhdr : header_initialize (firstn 3 (remaining (_file_handle self))) = Ok h)
  (Htype : msg_type h = MSG_TYPE_DATA)
  (Hpayload : payload = firstn (Z.to_nat (msg_size h))
                          (skipn 3 (remaining (_file_handle self))))
  (Hfull : msg_size h <= Z.of_nat (List.length payload))
  (Hid : _unpack_ushort (slice 0 2 payload) = Ok id)
  (Hunknown : dict_get Z.eqb id (_subscriptions self) = None)
  (Hunfiltered : set_mem id (_filtered_message_ids self) = false) :
  exists self',
    data_step flt ts self = Continue self' 0
    /\ _subscriptions self' = _subscriptions self
    /\ _last_timestamp self' = _last_timestamp self
    /\ warnings_for id self'
       = (warnings_for id self
          + if set_mem id (_missing_message_ids self) then 0 else 1)%nat
    /\ warnings_for id self' = 1%nat
    /\ (forall k' ts' later,
          data_run k' flt 0 self' = Some (ts', later) ->
          warnings_for id later = 1%nat)
    /\ (forall final o,
          ULog_init file flt = Some (final, o) -> warnings_for id final = 1%nat).
Proof.
  subst payload.
  set (payload := firstn (Z.to_nat (msg_size h))
                    (skipn 3 (remaining (_file_handle self)))) in *.
  pose proof (@data_step_complete flt ts self h Hhdr Hfull) as Hstep.
  rewrite (@data_dispatch_data flt h _ ts _ Htype) in Hstep.
  fold payload in Hstep.
  set (self1 := set_file_handle _ self) in Hstep.
  rewrite (@MessageData_initialize_unknown payload ts self1 id Hid Hunknown
             Hunfiltered) in Hstep.
  change (_missing_message_ids self1) with (_missing_message_ids self) in Hstep.
  change (stdout self1) with (stdout self) in Hstep.
  assert (W : warned_once self).
  { eapply data_run_warnings; [exact Hrun|].
    eapply enter_data_phase_warnings; exact Henter. }
  pose proof (W id) as Wid.
  set (self' := if set_mem id (_missing_message_ids self) then self1
                else set_stdout (stdout self ++ [WarnNoSubscription id])
                       (set_missing_message_ids
                          (set_add id (_missing_message_ids self)) self1)) in *.
  assert (Hcont : data_step flt ts self = Continue self' 0).
  { rewrite Hstep. change (negb (0 =? 0)) with false. reflexivity. }
  assert (Hsubs : _subscriptions self' = _subscriptions self)
    by (subst self'; destruct (set_mem id (_missing_message_ids self)); reflexivity).
  assert (Hlast : _last_timestamp self' = _last_timestamp self)
    by (subst self'; destruct (set_mem id (_missing_message_ids self)); reflexivity).
  assert (Hmem : set_mem id (_missing_message_ids self') = true).
  { subst self'. destruct (set_mem id (_missing_message_ids self)) eqn:M.
    - exact M.
    - simpl. now rewrite set_mem_add, Z.eqb_refl, orb_true_r. }
  assert (W' : warned_once self').
  { pose proof (data_step_warnings flt ts self) as (Wp & _).
    rewrite Hcont in Wp. simpl in Wp. now apply Wp. }
  assert (Hone : warnings_for id self' = 1%nat).
  { rewrite (W' id), Hmem. reflexivity. }
  assert (Hloop : forall fuel s_end o_end,
             data_loop fuel flt 0 self' = Some (s_end, o_end) ->
             warnings_for id s_end = 1%nat).
  { intros fuel s_end o_end E.
    destruct (@data_loop_warnings _ _ _ _ _ _ E) as (Wl & Ml).
    rewrite (Wl W' id), (Ml id Hmem). reflexivity. }
  exists self'. split; [exact Hcont|]. split; [exact Hsubs|].
  split; [exact Hlast|]. split.
  { rewrite Hone, Wid. destruct (set_mem id (_missing_message_ids self)); reflexivity. }
  split; [exact Hone|]. split.
  - intros k' ts' later Hlater.
    assert (Wl : warned_once later) by (eapply data_run_warnings; eassumption).
    assert (Ml : set_mem id (_missing_message_ids later) = true).
    { clear - Hlater Hmem. revert Hlater Hmem. generalize 0 at 1. generalize self'.
      induction k' as [|k' IH]; intros s t Hlater Hmem; simpl in Hlater.
      - inversion Hlater; subst. exact Hmem.
      - pose proof (data_step_warnings flt t s) as (_ & Mp).
        destruct (data_step flt t s); try discriminate.
        eapply IH; [exact Hlater | now apply Mp]. }
    rewrite (Wl id), Ml. reflexivity.
  - intros final o Hfinal.
    rewrite (@ULog_init_enter file flt self0 Henter) in Hfinal.
    apply read_file_data_warnings in Hfinal as (s_end & o_end & E & Hs & Hm).
    pose proof (@data_run_snoc _ _ _ _ _ _ _ _ Hrun Hcont) as Hrun'.
    destruct (data_loop_total flt (fuel := loop_fuel self') 0 self') as [[s2 o2] E2].
    { unfold loop_fuel, bytes_left. lia. }
    rewrite (@data_loop_after_run _ _ _ _ _ _ _ _ Hrun' E2) in E.
    inversion E; subst s2 o2.
    unfold warnings_for. rewrite Hs. exact (Hloop _ _ _ E2).
Qed.

(** Three records for the unknown id 9: one warning, and the last
    timestamp is that of the records of id 1. *)
Lemma unknown_id_warned_once_witness :
  enter_data_phase unknown_id_stream = Some (unknown_id_entry, None)
  /\ data_run 2 None 0 unknown_id_entry = Some (200, unknown_id_at_first)
  /\ dict_get Z.eqb 9 (_subscriptions unknown_id_at_first) = None
  /\ exists final,
       ULog_init unknown_id_stream None = Some (final, None)
       /\ warnings_for 9 final = 1%nat
       /\ stdout final = [WarnNoSubscription 9]
       /\ _last_timestamp final = 300.
Proof.
  assert (Henter : enter_data_phase unknown_id_stream
                   = Some (unknown_id_entry, None))
    by (vm_compute; reflexivity).
  assert (Hrun : data_run 2 None 0 unknown_id_entry
                 = Some (200, unknown_id_at_first))
    by (vm_compute; reflexivity).
  split; [exact Henter|]. split; [exact Hrun|]. split; [vm_compute; reflexivity|].
  destruct (@unknown_id_warned_once unknown_id_stream None unknown_id_entry
              unknown_id_at_first 2 200 (mk_header 10 MSG_TYPE_DATA)
              (le_bytes 2 9 ++ le_bytes 8 900) 9 Henter Hrun)
    as (self' & _ & _ & _ & _ & _ & _ & Hall);
    try (vm_compute; reflexivity).
  { vm_compute. discriminate. }
  eexists. split; [vm_compute; reflexivity|].
  split; [|split; reflexivity].
  eapply Hall. vm_compute; reflexivity.
Defined.

(** The second record for id 9 prints nothing more. *)
Example unknown_id_repeated :
  data_run 3 None 0 unknown_id_entry = Some (0, unknown_id_at_second)
  /\ warnings_for 9 unknown_id_at_second = 1%nat
  /\ match data_step None 0 unknown_id_at_second with
     | Continue s ts => ts = 0 /\ stdout s = stdout unknown_id_at_second
     | _ => False
     end.
Proof. vm_compute. repeat split; reflexivity. Qed.

(* ================================================================== *)
(** ** The end of the definitions phase (C8)                           *)
(* ================================================================== *)

Lemma definitions_loop_fuel_irrelevant :
  forall fuel fuel' self out,
    definitions_loop fuel self = Some out -> (fuel <= fuel')%nat ->
    definitions_loop fuel' self = Some out.
Proof.
  induction fuel as [|fuel IH]; intros fuel' self out H Hle; [discriminate|].
  destruct fuel' as [|fuel']; [lia|].
  simpl in *. destruct (definitions_step self); auto.
  apply IH with (fuel' := fuel') in H; [assumption|lia].
Qed.

(** The loop started [k] passes earlier ends as the loop started here. *)
Lemma definitions_loop_after_run :
  forall k self0 self fuel out,
    definitions_run k self0 = Some self ->
    definitions_loop fuel self = Some out ->
    _read_file_definitions self0 = Some out.
Proof.
  intros k self0 self fuel out Hrun Hloop.
  assert (G : definitions_loop (k + fuel) self0 = Some out).
  { revert self0 Hrun. induction k as [|k IH]; intros self0 Hrun.
    - inversion Hrun; subst. exact Hloop.
    - simpl in *. destruct (definitions_step self0); try discriminate.
      now apply IH. }
  unfold _read_file_definitions.
  destruct (definitions_loop_total (fuel := loop_fuel self0) self0) as [out' E].
  { unfold loop_fuel, bytes_left. lia. }
  rewrite E. f_equal.
  apply definitions_loop_fuel_irrelevant
    with (fuel' := Nat.max (k + fuel) (loop_fuel self0)) in G; [|lia].
  apply definitions_loop_fuel_irrelevant
    with (fuel' := Nat.max (k + fuel) (loop_fuel self0)) in E; [|lia].
  congruence.
Qed.

Lemma set_file_handle_same (self : ULog) :
  set_file_handle (mk_file (content (_file_handle self))
                     (position (_file_handle self))) self = self.
Proof. destruct self as [? ? ? ? ? ? ? ? ? ? ? ? [c p] ?]. reflexivity. Qed.

(** X29.  When the definitions loop, after any number of passes, reads
    a complete AddLoggedMessage or Logging message, it seeks back by the 3
    bytes of the envelope plus the payload length and leaves the method:
    the object, file position included, is as it was before the message
    was read.  The definitions phase of the parse ends in that state, and
    the first pass of the data loop frames and dispatches exactly that
    message. *)
Theorem definitions_stop_before_subscription
  (flt : name_filter) (self0 self : ULog) (k : nat) (ts : Z)
  (h : _MessageHeader) (payload : bytes)
  (Hrun : definitions_run k self0 = Some self)
  (Hhdr : header_initialize (firstn 3 (remaining (_file_handle self))) = Ok h)
  (Htype : msg_type h = MSG_TYPE_ADD_LOGGED_MSG \/ msg_type h = MSG_TYPE_LOGGING)
  (Hpayload : payload = firstn (Z.to_nat (msg_size h))
                          (skipn 3 (remaining (_file_handle self))))
  (Hfull : msg_size h <= Z.of_nat (List.length payload)) :
  let consumed := snd (read (Z.to_nat (msg_size h))
                         (snd (read 3 (_file_handle self)))) in
  Z.of_nat (position consumed)
    = Z.of_nat (position (_file_handle self)) + (3 + msg_size h)
  /\ seek_cur (- (3 + msg_size h)) consumed = Ok (_file_handle self)
  /\ definitions_step self = inr (self, None)
  /\ _read_file_definitions self0 = Some (self, None)
  /\ fst (read 3 (_file_handle self)) = firstn 3 (remaining (_file_handle self))
  /\ fst (read (Z.to_nat (msg_size h)) (snd (read 3 (_file_handle self))))
     = payload
  /\ data_step flt ts self
     = match data_dispatch flt h payload ts (set_file_handle consumed self) with
       | (s, t, None) => Continue s t
       | (s, _, Some e) => Raised s e
       end.
Proof.
  subst payload. cbv zeta.
  set (fh := _file_handle self) in *.
  pose proof (header_initialize_ok _ Hhdr) as L3.
  pose proof (header_initialize_size _ Hhdr) as Hsz.
  assert (Ln : List.length (firstn (Z.to_nat (msg_size h)) (skipn 3 (remaining fh)))
               = Z.to_nat (msg_size h)).
  { rewrite length_firstn in *. lia. }
  assert (Hpos : position (snd (read (Z.to_nat (msg_size h)) (snd (read 3 fh))))
                 = (position fh + 3 + Z.to_nat (msg_size h))%nat).
  { unfold read at 1. cbn [snd position].
    rewrite read_remaining, Ln. unfold read. cbn [snd position]. rewrite L3. lia. }
  assert (Hseek : seek_cur (- (3 + msg_size h))
                    (snd (read (Z.to_nat (msg_size h)) (snd (read 3 fh))))
                  = Ok fh).
  { unfold seek_cur. rewrite Hpos.
    destruct (Z.ltb_spec
                (Z.of_nat (position fh + 3 + Z.to_nat (msg_size h))
                 + - (3 + msg_size h)) 0) as [Hneg | Hneg]; [lia|].
    replace (Z.to_nat (Z.of_nat (position fh + 3 + Z.to_nat (msg_size h))
                       + - (3 + msg_size h))) with (position fh) by lia.
    change (content (snd (read (Z.to_nat (msg_size h)) (snd (read 3 fh)))))
      with (content fh).
    destruct fh; reflexivity. }
  assert (Hstep : definitions_step self = inr (self, None)).
  { unfold definitions_step. fold fh.
    rewrite (surjective_pairing (read 3 fh)). rewrite read_data. cbv zeta.
    destruct (firstn 3 (remaining fh)) as [|b0 d0] eqn:E0; [discriminate|].
    rewrite <- E0 in *. rewrite Hhdr.
    change (_file_handle (set_file_handle ?f self)) with f.
    rewrite (surjective_pairing (read (Z.to_nat (msg_size h)) _)). cbv zeta.
    change (_file_handle (set_file_handle ?f ?s)) with f.
    assert (E1 : (msg_type h =? MSG_TYPE_INFO) = false)
      by (destruct Htype as [-> | ->]; reflexivity).
    assert (E2 : (msg_type h =? MSG_TYPE_FORMAT) = false)
      by (destruct Htype as [-> | ->]; reflexivity).
    assert (E3 : (msg_type h =? MSG_TYPE_PARAMETER) = false)
      by (destruct Htype as [-> | ->]; reflexivity).
    assert (E4 : (msg_type h =? MSG_TYPE_ADD_LOGGED_MSG)
                 || (msg_type h =? MSG_TYPE_LOGGING) = true)
      by (destruct Htype as [-> | ->]; reflexivity).
    rewrite E1, E2, E3, E4, Hseek.
    f_equal. f_equal.
    transitivity (set_file_handle fh self); [reflexivity|].
    subst fh. destruct self as [? ? ? ? ? ? ? ? ? ? ? ? [c p] ?]. reflexivity. }
  split; [rewrite Hpos; lia|]. split; [exact Hseek|]. split; [exact Hstep|].
  split.
  { apply definitions_loop_after_run with (k := k) (self := self) (fuel := 1%nat).
    - exact Hrun.
    - simpl. now rewrite Hstep. }
  split; [apply read_data|]. split; [now rewrite read_data, read_remaining|].
  apply data_step_complete; [exact Hhdr | exact Hfull].
Qed.

(** A Format and a Parameter message are read, the subscription message
    at byte 57 is left in place, and the data phase registers it. *)
Lemma definitions_stop_before_subscription_witness :
  definitions_run 2 definitions_stream_entry
  = Some definitions_stream_at_subscription
  /\ position (_file_handle definitions_stream_at_subscription) = 57%nat
  /\ _read_file_definitions definitions_stream_entry
     = Some (definitions_stream_at_subscription, None)
  /\ exists s ts,
       data_step None 0 definitions_stream_at_subscription = Continue s ts
       /\ dict_mem Z.eqb 1 (_subscriptions s) = true.
Proof.
  assert (Hrun : definitions_run 2 definitions_stream_entry
                 = Some definitions_stream_at_subscription)
    by (vm_compute; reflexivity).
  destruct (@definitions_stop_before_subscription None definitions_stream_entry
              definitions_stream_at_subscription 2 0
              (mk_header 4 MSG_TYPE_ADD_LOGGED_MSG)
              ([x00] ++ le_bytes 2 1 ++ list_byte_of_string "t") Hrun)
    as (_ & _ & _ & Hdefs & _ & _ & Hdata);
    try (vm_compute; reflexivity).
  { left. reflexivity. }
  { vm_compute. discriminate. }
  split; [exact Hrun|]. split; [reflexivity|]. split; [exact Hdefs|].
  rewrite Hdata. do 2 eexists. split; [vm_compute; reflexivity | reflexivity].
Defined.

(** C8, at the failing input.  The claim has the definitions loop stop
    at the first AddLoggedMessage or Logging message without consuming
    it, the position back at its envelope, so that the data phase reads
    that exact message first.  On the stream of 44 bytes whose first
    subscription message is cut (a header, a Format message, then at byte
    40 an envelope that announces 4 payload bytes, of which one is
    present) the read returns the one byte, the file stands at byte 44,
    and the seek goes back by the announced 3 + 4 bytes to byte 37, not
    to the envelope at byte 40: the data phase starts inside the Format
    message and the envelope it reads there is not that of the
    subscription message.  The data loop tests for the short read
    ([len(data) < header.msg_size]); the definitions loop does not. *)
Lemma definitions_cut_subscription_rewinds_too_far :
  exists self0 self,
    definitions_run 1 (definitions_entry cut_subscription_stream) = Some self0
    /\ position (_file_handle self0) = 40%nat
    /\ header_initialize (firstn 3 (remaining (_file_handle self0)))
       = Ok (mk_header 4 MSG_TYPE_ADD_LOGGED_MSG)
    /\ _read_file_definitions (definitions_entry cut_subscription_stream)
       = Some (self, None)
    /\ position (_file_handle self) = 37%nat
    /\ header_initialize (firstn 3 (remaining (_file_handle self)))
       <> Ok (mk_header 4 MSG_TYPE_ADD_LOGGED_MSG).
Proof.
  do 2 eexists.
  split; [vm_compute; reflexivity|]. split; [reflexivity|].
  split; [vm_compute; reflexivity|]. split; [vm_compute; reflexivity|].
  split; [reflexivity|]. vm_compute. discriminate.
Qed.

(* ================================================================== *)
(** ** The version accessors                                           *)
(* ================================================================== *)

Lemma byte_field_range (val : Z) (n : Z) :
  0 <= n -> 0 <= Z.land (Z.shiftr val n) 255 < 256.
Proof.
  intros Hn. change 255 with (Z.ones 8).
  rewrite Z.land_ones by lia. apply Z.mod_pos_bound. lia.
Qed.

(** X1.  When the info dictionary holds an integer under the key,
    [get_version_info] returns four numbers between 0 and 255; when the
    integer fits in 32 bits they are its four bytes, most significant
    first, so the integer is recovered from them. *)
Theorem get_version_info_bytes
  (self : ULog) (key_name : string) (val : Z)
  (Hkey : dict_get String.eqb key_name (_msg_info_dict self) = Some (PyInt val)) :
  exists major minor patch release,
    get_version_info self key_name = Returns (Some (major, minor, patch, release))
    /\ 0 <= major < 256 /\ 0 <= minor < 256
    /\ 0 <= patch < 256 /\ 0 <= release < 256
    /\ (0 <= val < 2 ^ 32 ->
        val = major * 2 ^ 24 + minor * 2 ^ 16 + patch * 2 ^ 8 + release).
Proof.
  unfold get_version_info. rewrite Hkey. cbn [as_int].
  do 4 eexists. split; [reflexivity|].
  pose proof (@byte_field_range val 24 ltac:(lia)) as R24.
  pose proof (@byte_field_range val 16 ltac:(lia)) as R16.
  pose proof (@byte_field_range val 8 ltac:(lia)) as R8.
  pose proof (@byte_field_range val 0 ltac:(lia)) as R0.
  rewrite Z.shiftr_0_r in R0.
  repeat (split; [assumption|]).
  intros Hval. change 255 with (Z.ones 8).
  rewrite !Z.land_ones, !Z.shiftr_div_pow2 by lia.
  change (2 ^ 24) with 16777216. change (2 ^ 16) with 65536.
  change (2 ^ 8) with 256. change (2 ^ 32) with 4294967296 in Hval.
  Z.to_euclidean_division_equations. lia.
Qed.

(** The release 1.6.2 stored as 0x010602ff. *)
Lemma get_version_info_bytes_witness :
  let self := set_msg_info_dict [("ver_sw_release", PyInt 17171199)]
                (ULog_new (mk_file [] 0)) in
  get_version_info self "ver_sw_release" = Returns (Some (1, 6, 2, 255)).
Proof.
  cbv zeta.
  destruct (@get_version_info_bytes
              (set_msg_info_dict [("ver_sw_release", PyInt 17171199)]
                 (ULog_new (mk_file [] 0)))
              "ver_sw_release" 17171199 eq_refl)
    as (a & b & c & d & H & _).
  rewrite H. vm_compute in H. exact (eq_sym H).
Defined.

(** X2.  [get_version_info_str] returns [None] exactly when the key is
    missing or the release type (the low byte) is below 64, a development
    version; it raises exactly when the stored value is not an integer;
    in every other case it returns a string. *)
Theorem get_version_info_str_cases (self : ULog) (key_name : string) :
  (get_version_info_str self key_name = Returns None <->
     dict_get String.eqb key_name (_msg_info_dict self) = None
     \/ exists v val,
          dict_get String.eqb key_name (_msg_info_dict self) = Some v
          /\ as_int v = Some val /\ Z.land val 255 < 64)
  /\ (get_version_info_str self key_name = TypeError <->
      exists v, dict_get String.eqb key_name (_msg_info_dict self) = Some v
                /\ as_int v = None).
Proof.
  unfold get_version_info_str, get_version_info.
  destruct (dict_get String.eqb key_name (_msg_info_dict self)) as [v|].
  - destruct (as_int v) as [val|] eqn:E.
    + destruct (Z.leb_spec 64 (Z.land val 255)) as [L | L]; split; split.
      * discriminate.
      * intros [H | (v' & val' & Hv & Hi & Hlt)]; [discriminate|].
        inversion Hv; subst v'. rewrite E in Hi. inversion Hi; subst. lia.
      * discriminate.
      * intros (v' & Hv & Hi). inversion Hv; subst v'. congruence.
      * intros _. right. exists v, val. auto.
      * reflexivity.
      * discriminate.
      * intros (v' & Hv & Hi). inversion Hv; subst v'. congruence.
    + split; split.
      * discriminate.
      * intros [H | (v' & val' & Hv & Hi & _)]; [discriminate|].
        inversion Hv; subst v'. congruence.
      * intros _. exists v. auto.
      * reflexivity.
  - split; split.
    + intros _. now left.
    + reflexivity.
    + discriminate.
    + intros (v & Hv & _). discriminate.
Qed.

(** A development build (type 0) has no display string. *)
Lemma get_version_info_str_cases_witness :
  get_version_info_str
    (set_msg_info_dict [("ver_sw_release", PyInt 17171200)]
       (ULog_new (mk_file [] 0))) "ver_sw_release" = Returns None
  /\ get_version_info_str
       (set_msg_info_dict [("ver_sw_release", PyStr "1.6.2")]
          (ULog_new (mk_file [] 0))) "ver_sw_release" = TypeError.
Proof.
  split.
  - apply (proj2 (proj1 (get_version_info_str_cases _ _))).
    right. exists (PyInt 17171200), 17171200.
    split; [reflexivity|]. split; [reflexivity|]. vm_compute. reflexivity.
  - apply (proj2 (proj2 (get_version_info_str_cases _ _))).
    exists (PyStr "1.6.2"). split; reflexivity.
Defined.

Example version_str_release :
  get_version_info_str
    (set_msg_info_dict [("ver_sw_release", PyInt 17171199)]
       (ULog_new (mk_file [] 0))) "ver_sw_release" = Returns (Some "v1.6.2").
Proof. reflexivity. Qed.

Example version_str_rc :
  get_version_info_str
    (set_msg_info_dict [("ver_sw_release", PyInt 17171136)]
       (ULog_new (mk_file [] 0))) "ver_sw_release"
  = Returns (Some "v1.6.2 (RC)").
Proof. reflexivity. Qed.

(** X3.  [log_level_str] answers "UNKNOWN" exactly for the levels outside
    ['0'..'7'] (48..55), and two levels inside that range with the same
    name are the same level. *)
Theorem log_level_str_unknown (m m' : MessageLogging) :
  (log_level_str m = "UNKNOWN" <-> log_level m < 48 \/ 55 < log_level m)
  /\ (48 <= log_level m <= 55 -> 48 <= log_level m' <= 55 ->
      log_level_str m = log_level_str m' -> log_level m = log_level m').
Proof.
  unfold log_level_str. cbv zeta.
  repeat match goal with
         | |- context [?a =? ?b] => destruct (Z.eqb_spec a b)
         end;
    (split; [split; [try discriminate; intros; lia
                    | intros; try reflexivity; lia]
            | intros; try discriminate; lia]).
Qed.

Lemma log_level_str_unknown_witness :
  log_level_str (mk_logging 56 0 "") = "UNKNOWN"
  /\ log_level_str (mk_logging 52 0 "") = "WARNING".
Proof.
  split; [|reflexivity].
  apply (proj2 (proj1 (log_level_str_unknown (mk_logging 56 0 "")
                         (mk_logging 56 0 "")))).
  right. vm_compute. reflexivity.
Defined.

(* ================================================================== *)
(** ** The header and the ends of the stream                           *)
(* ================================================================== *)

Lemma le_uint_bound (bs : bytes) : le_uint bs < 256 ^ Z.of_nat (List.length bs).
Proof.
  induction bs as [|b bs IH]; cbn [le_uint List.length]; [reflexivity|].
  rewrite Nat2Z.inj_succ, Z.pow_succ_r by lia.
  pose proof (byte_val_range b). lia.
Qed.

Lemma slice_length {A} (a b : nat) (l : list A) :
  (b <= List.length l)%nat -> List.length (slice a b l) = (b - a)%nat.
Proof. intros H. unfold slice. rewrite length_firstn, length_skipn. lia. Qed.

(** X4.  On a stream of at least 16 bytes that starts with the magic
    constant, the header reader returns normally with the file at byte
    16 and a start timestamp below 2^64, and prints the version warning
    exactly when the byte after the magic is not zero. *)
Theorem header_version_warning (file : bytes)
  (Hlen : (16 <= List.length file)%nat)
  (Hmagic : firstn 7 file = HEADER_BYTES) :
  let r := _read_file_header (ULog_new (mk_file file 0)) in
  snd r = None
  /\ position (_file_handle (fst r)) = 16%nat
  /\ 0 <= _start_timestamp (fst r) < 2 ^ 64
  /\ stdout (fst r)
     = (if bytes_eqb (slice 7 8 file) [x00] then [] else [WarnUnknownVersion]).
Proof.
  pose proof (read_file_header_cases file) as (_ & _ & Hgood).
  destruct (Hgood Hlen Hmagic) as [Hnone Hts].
  cbv zeta. split; [exact Hnone|].
  split; [|split].
  - unfold _read_file_header.
    rewrite (surjective_pairing (read 16 _)). cbv zeta.
    assert (P : position (snd (read 16 (_file_handle (ULog_new (mk_file file 0)))))
                = 16%nat).
    { unfold read. cbn [snd position _file_handle ULog_new remaining content skipn].
      rewrite length_firstn. lia. }
    repeat break_match; simpl; exact P.
  - rewrite Hts. split; [apply le_uint_nonneg|].
    pose proof (le_uint_bound (slice 8 16 file)) as B.
    rewrite slice_length in B by exact Hlen. exact B.
  - unfold _read_file_header.
    rewrite (surjective_pairing (read 16 _)). rewrite read_data.
    change (remaining (_file_handle (ULog_new (mk_file file 0)))) with file.
    cbv zeta.
    assert (S78 : slice 7 8 (firstn 16 file) = slice 7 8 file).
    { unfold slice. rewrite skipn_firstn_comm, firstn_firstn. reflexivity. }
    rewrite S78.
    destruct (Nat.eqb (List.length (firstn 16 file)) 16) eqn:E16.
    + cbn [negb].
      change (slice 0 7 (firstn 16 file)) with (firstn 7 (firstn 16 file)).
      rewrite firstn_firstn. change (Nat.min 7 16) with 7%nat.
      rewrite Hmagic. change (bytes_eqb HEADER_BYTES HEADER_BYTES) with true.
      cbn [negb].
      destruct (bytes_eqb (slice 7 8 file) [x00]); cbn [negb];
        destruct (_unpack_uint64 _); reflexivity.
    + apply Nat.eqb_neq in E16. rewrite length_firstn in E16. lia.
Qed.

(** A header with version 1 and one with version 0. *)
Lemma header_version_warning_witness :
  stdout (fst (_read_file_header (ULog_new (mk_file (file_header x01 5) 0))))
  = [WarnUnknownVersion]
  /\ stdout (fst (_read_file_header (ULog_new (mk_file (file_header x00 5) 0))))
     = [].
Proof.
  split.
  - destruct (@header_version_warning (file_header x01 5)) as (_ & _ & _ & H).
    + vm_compute. lia.
    + reflexivity.
    + rewrite H. reflexivity.
  - destruct (@header_version_warning (file_header x00 5)) as (_ & _ & _ & H).
    + vm_compute. lia.
    + reflexivity.
    + rewrite H. reflexivity.
Defined.

Lemma header_initialize_short (data : bytes) :
  List.length data <> 3%nat -> header_initialize data = Raise StructError.
Proof.
  intros H. unfold header_initialize, _unpack_ushort_byte, unpack_exact.
  destruct (Nat.eqb_spec (List.length data) 3); [contradiction | reflexivity].
Qed.

(** X5.  In the definitions phase a stream that ends with one or two
    bytes, too few for an envelope, makes [struct.error] leave the parse:
    only an empty read ends that loop. *)
Theorem definitions_stray_bytes_raise
  (self0 self : ULog) (k : nat)
  (Hrun : definitions_run k self0 = Some self)
  (Hleft : (1 <= bytes_left self < 3)%nat) :
  exists self',
    definitions_step self = inr (self', Some StructError)
    /\ _read_file_definitions self0 = Some (self', Some StructError).
Proof.
  assert (Hstep : exists self', definitions_step self = inr (self', Some StructError)).
  { unfold definitions_step.
    rewrite (surjective_pairing (read 3 (_file_handle self))). rewrite read_data.
    cbv zeta. unfold bytes_left in Hleft.
    destruct (firstn 3 (remaining (_file_handle self))) as [|b0 d0] eqn:E0.
    - apply (f_equal (@List.length byte)) in E0. rewrite length_firstn in E0.
      cbn [List.length] in E0. lia.
    - rewrite <- E0. rewrite header_initialize_short; [eauto|].
      rewrite length_firstn. lia. }
  destruct Hstep as [self' Hstep]. exists self'. split; [exact Hstep|].
  apply definitions_loop_after_run with (k := k) (self := self) (fuel := 1%nat).
  - exact Hrun.
  - simpl. now rewrite Hstep.
Qed.

Lemma definitions_stray_bytes_raise_witness :
  exists self',
    ULog_init stray_definitions_stream None = Some (self', Some StructError).
Proof.
  destruct (@definitions_stray_bytes_raise
              (definitions_entry stray_definitions_stream)
              (definitions_entry stray_definitions_stream) 0 eq_refl)
    as (self' & _ & H).
  { vm_compute. lia. }
  exists self'. unfold ULog_init, _load_file.
  change (_read_file_header (ULog_new (mk_file stray_definitions_stream 0)))
    with (fst (_read_file_header (ULog_new (mk_file stray_definitions_stream 0))),
          @None exn).
  cbv beta iota.
  change (set_last_timestamp _ _)
    with (definitions_entry stray_definitions_stream).
  rewrite H. reflexivity.
Defined.

(** X6.  In the data phase the end of the stream, with no byte or with
    one or two stray bytes left, is the normal end: the [struct.error]
    of the short envelope is swallowed and the final loop runs over the
    subscriptions as they are. *)
Theorem data_phase_ends_at_end_of_stream
  (flt : name_filter) (self0 self : ULog) (k : nat) (ts : Z)
  (Hrun : data_run k flt 0 self0 = Some (ts, self))
  (Hleft : (bytes_left self < 3)%nat) :
  exists self_r,
    data_step flt ts self = Raised self_r StructError
    /\ _subscriptions self_r = _subscriptions self
    /\ _read_file_data flt self0
       = Some (materialize (rev (_subscriptions self)) self_r)
    /\ ((forall id sub, In (id, sub) (_subscriptions self) ->
           buffer sub <> [] -> whole_records sub = true) ->
        exists final,
          _read_file_data flt self0 = Some (final, None)
          /\ _data_list final
             = _data_list self0 ++ decoded (rev (_subscriptions self))).
Proof.
  assert (Hstep : data_step flt ts self
                  = Raised (set_file_handle (snd (read 3 (_file_handle self))) self)
                      StructError).
  { rewrite data_step_eq. cbv zeta. rewrite header_initialize_short; [reflexivity|].
    rewrite length_firstn. unfold bytes_left in Hleft. lia. }
  set (self_r := set_file_handle _ self) in Hstep.
  assert (Hloop : data_loop 1 flt ts self = Some (self_r, Some StructError)).
  { simpl. now rewrite Hstep. }
  assert (Hdata : _read_file_data flt self0
                  = Some (materialize (rev (_subscriptions self)) self_r)).
  { unfold _read_file_data.
    now rewrite (@data_loop_after_run _ _ _ _ _ _ _ _ Hrun Hloop). }
  exists self_r. split; [exact Hstep|]. split; [reflexivity|].
  split; [exact Hdata|].
  intros Hfit.
  destruct (@materialize_converts self_r Hfit) as (final & Hm & Hl & _).
  exists final. rewrite Hdata. change (_subscriptions self_r)
    with (_subscriptions self) in Hm, Hl.
  rewrite Hm. split; [reflexivity|].
  rewrite Hl. apply data_run_frame in Hrun. now rewrite <- Hrun.
Qed.

Lemma data_phase_ends_at_end_of_stream_witness :
  data_run 2 None 0 stray_data_entry = Some (200, stray_data_at_end)
  /\ bytes_left stray_data_at_end = 1%nat
  /\ exists final,
       ULog_init stray_data_stream None = Some (final, None)
       /\ _data_list final = [timestamp_topic "t" 0 [200]].
Proof.
  assert (Hrun : data_run 2 None 0 stray_data_entry = Some (200, stray_data_at_end))
    by (vm_compute; reflexivity).
  split; [exact Hrun|]. split; [reflexivity|].
  destruct (@data_phase_ends_at_end_of_stream None _ _ _ _ Hrun)
    as (self_r & _ & _ & _ & Hok).
  { vm_compute. lia. }
  destruct Hok as (final & Hfinal & Hlist).
  { intros id sub [E | []]. inversion E; subst. intros _. vm_compute; reflexivity. }
  exists final. split.
  - rewrite <- Hfinal. vm_compute; reflexivity.
  - rewrite Hlist. vm_compute; reflexivity.
Defined.

(* ================================================================== *)
(** ** The exceptions of the data phase                                *)
(* ================================================================== *)

Lemma bind_raise {A B} (r : result A) (k : A -> result B) (e : exn) :
  bind r k = Raise e -> r = Raise e \/ exists a, r = Ok a /\ k a = Raise e.
Proof.
  destruct r as [a|e']; simpl; [eauto|].
  intros H; inversion H; subst. now left.
Qed.

Lemma unpack_exact_raise n data e : unpack_exact n data = Raise e -> e = StructError.
Proof. unfold unpack_exact. destruct (Nat.eqb _ _); intros H; now inversion H. Qed.

Lemma unpack_ubyte_raise data e : unpack_ubyte data = Raise e -> e = StructError.
Proof.
  unfold unpack_ubyte. intros H. apply bind_raise in H as [H | (a & _ & H)];
    [now apply unpack_exact_raise in H | discriminate].
Qed.

Lemma unpack_ushort_raise data e : _unpack_ushort data = Raise e -> e = StructError.
Proof.
  unfold _unpack_ushort. intros H. apply bind_raise in H as [H | (a & _ & H)];
    [now apply unpack_exact_raise in H | discriminate].
Qed.

Lemma unpack_uint64_raise data e : _unpack_uint64 data = Raise e -> e = StructError.
Proof.
  unfold _unpack_uint64. intros H. apply bind_raise in H as [H | (a & _ & H)];
    [now apply unpack_exact_raise in H | discriminate].
Qed.

Lemma parse_string_raise data e : _parse_string data = Raise e -> e = UnicodeDecodeError.
Proof. unfold _parse_string. destruct (forallb _ _); intros H; now inversion H. Qed.

Lemma list_index_raise {A} (l : list A) i e : list_index l i = Raise e -> e = IndexError.
Proof. unfold list_index. destruct (nth_error l i); intros H; now inversion H. Qed.

Lemma struct_unpack_raise p data e : struct_unpack p data = Raise e -> e = StructError.
Proof.
  unfold struct_unpack. intros H. apply bind_raise in H as [H | (a & _ & H)];
    [now apply unpack_exact_raise in H | discriminate].
Qed.

Lemma MessageInfo_init_raise data e :
  MessageInfo_init data = Raise e ->
  e = StructError \/ e = UnicodeDecodeError \/ e = IndexError.
Proof.
  unfold MessageInfo_init. intros H.
  apply bind_raise in H as [H | (a & _ & H)];
    [apply unpack_ubyte_raise in H; auto|].
  apply bind_raise in H as [H | (tk & _ & H)];
    [apply parse_string_raise in H; auto|].
  apply bind_raise in H as [H | (ty & _ & H)];
    [apply list_index_raise in H; auto|].
  apply bind_raise in H as [H | (key & _ & H)];
    [apply list_index_raise in H; auto|].
  destruct (startswith ty "char[").
  - apply bind_raise in H as [H | (v & _ & H)];
      [apply parse_string_raise in H; auto | discriminate].
  - destruct (prim_of_string ty); [|discriminate].
    apply bind_raise in H as [H | (v & _ & H)];
      [apply struct_unpack_raise in H; auto | discriminate].
Qed.

Lemma MessageLogging_init_raise data e :
  MessageLogging_init data = Raise e -> e = StructError \/ e = UnicodeDecodeError.
Proof.
  unfold MessageLogging_init. intros H.
  apply bind_raise in H as [H | (a & _ & H)];
    [apply unpack_ubyte_raise in H; auto|].
  apply bind_raise in H as [H | (b & _ & H)];
    [apply unpack_uint64_raise in H; auto|].
  apply bind_raise in H as [H | (c & _ & H)];
    [apply parse_string_raise in H; auto | discriminate].
Qed.

Lemma MessageDropout_init_raise data ts e :
  MessageDropout_init data ts = Raise e -> e = StructError.
Proof.
  unfold MessageDropout_init. intros H.
  apply bind_raise in H as [H | (a & _ & H)];
    [now apply unpack_ushort_raise in H | discriminate].
Qed.

Lemma index_loop_raise nested qualified :
  (forall p s e, nested p s = Raise e -> e = KeyError \/ e = RecursionError) ->
  forall idxs self e,
    index_loop nested qualified idxs self = Raise e ->
    e = KeyError \/ e = RecursionError.
Proof.
  intros Hn. induction idxs as [|i idxs IH]; intros self e H; simpl in H;
    [discriminate|].
  apply bind_raise in H as [H | (a & _ & H)]; eauto.
Qed.

Lemma fields_loop_raise nested prefix_str :
  (forall p t s e, nested p t s = Raise e -> e = KeyError \/ e = RecursionError) ->
  forall fs self e,
    fields_loop nested prefix_str fs self = Raise e ->
    e = KeyError \/ e = RecursionError.
Proof.
  intros Hn. induction fs as [|[[ty n] fname] fs IH]; intros self e H;
    simpl in H; [discriminate|].
  destruct (prim_of_string ty); [eauto|].
  destruct (1 <? n).
  - apply bind_raise in H as [H | (a & _ & H)]; [|eauto].
    eapply index_loop_raise; [|exact H]. intros p s e0. apply Hn.
  - apply bind_raise in H as [H | (a & _ & H)]; eauto.
Qed.

Lemma parse_nested_type_raise message_formats :
  forall depth prefix_str type_name self e,
    _parse_nested_type depth prefix_str type_name message_formats self = Raise e ->
    e = KeyError \/ e = RecursionError.
Proof.
  induction depth as [|depth IH]; intros prefix_str type_name self e H.
  - inversion H. now right.
  - change (_parse_nested_type (S depth) prefix_str type_name message_formats self)
      with (match dict_get String.eqb type_name message_formats with
            | None => Raise KeyError
            | Some message_format =>
                fields_loop
                  (fun p t s => _parse_nested_type depth p t message_formats s)
                  prefix_str (fields message_format) self
            end) in H.
    destruct (dict_get String.eqb type_name message_formats);
      [|inversion H; now left].
    eapply fields_loop_raise; [|exact H].
    intros p t s e0. apply IH.
Qed.

Lemma MessageAddLogged_init_raise data message_formats e :
  MessageAddLogged_init data message_formats = Raise e ->
  e = StructError \/ e = UnicodeDecodeError \/ e = KeyError
  \/ e = RecursionError \/ e = ValueError.
Proof.
  unfold MessageAddLogged_init. intros H.
  apply bind_raise in H as [H | (a & _ & H)];
    [apply unpack_ubyte_raise in H; auto|].
  apply bind_raise in H as [H | (b & _ & H)];
    [apply unpack_ushort_raise in H; auto|].
  apply bind_raise in H as [H | (c & _ & H)];
    [apply parse_string_raise in H; auto|].
  apply bind_raise in H as [H | ([fd idx] & _ & H)].
  - unfold _parse_format in H.
    apply bind_raise in H as [H | ([fd idx] & _ & H)]; [|discriminate].
    apply parse_nested_type_raise in H. tauto.
  - apply bind_raise in H as [H | (dt & _ & H)]; [|discriminate].
    unfold np_dtype_make in H. destruct (has_dup _); inversion H. auto 10.
Qed.

Lemma MessageData_initialize_raise data ts self s t e :
  MessageData_initialize data ts self = (s, t, Some e) -> e = StructError.
Proof.
  unfold MessageData_initialize.
  destruct (_unpack_ushort (slice 0 2 data)) as [id|e0] eqn:E0.
  - destruct (dict_get Z.eqb id (_subscriptions self)).
    + destruct (_unpack_uint64 _) as [v|e1] eqn:E1; intros H; inversion H; subst.
      now apply unpack_uint64_raise in E1.
    + intros H; inversion H.
  - intros H; inversion H; subst. now apply unpack_ushort_raise in E0.
Qed.

(** The exceptions of the dispatch of one message. *)
Lemma data_dispatch_raise flt h d ts self s t e :
  data_dispatch flt h d ts self = (s, t, Some e) ->
  e = StructError \/ leaves_data_phase e = true.
Proof.
  unfold data_dispatch.
  destruct (msg_type h =? MSG_TYPE_PARAMETER).
  { destruct (MessageInfo_init d) as [i|e0] eqn:E; intros H; inversion H; subst.
    apply MessageInfo_init_raise in E as [-> | [-> | ->]]; auto. }
  destruct (msg_type h =? MSG_TYPE_ADD_LOGGED_MSG).
  { destruct (MessageAddLogged_init d (_message_formats self)) as [m|e0] eqn:E.
    - destruct (passes_filter flt (message_name m)); intros H; inversion H.
    - intros H; inversion H; subst.
      apply MessageAddLogged_init_raise in E as [-> | [-> | [-> | [-> | ->]]]]; auto. }
  destruct (msg_type h =? MSG_TYPE_LOGGING).
  { destruct (MessageLogging_init d) as [m|e0] eqn:E; intros H; inversion H; subst.
    apply MessageLogging_init_raise in E as [-> | ->]; auto. }
  destruct (msg_type h =? MSG_TYPE_DATA).
  { destruct (MessageData_initialize d ts self) as [[s0 t0] [e0|]] eqn:E.
    - intros H; inversion H; subst. apply MessageData_initialize_raise in E. auto.
    - destruct (negb (t0 =? 0) && (_last_timestamp s0 <? t0)); intros H; inversion H. }
  destruct (msg_type h =? MSG_TYPE_DROPOUT).
  { destruct (MessageDropout_init d (_last_timestamp self)) as [m|e0] eqn:E;
      intros H; inversion H; subst.
    apply MessageDropout_init_raise in E. auto. }
  intros H; inversion H.
Qed.

Lemma data_loop_raise flt :
  forall fuel ts self s e,
    data_loop fuel flt ts self = Some (s, Some e) ->
    e = StructError \/ leaves_data_phase e = true.
Proof.
  induction fuel as [|fuel IH]; intros ts self s e H; [discriminate|].
  simpl in H. destruct (data_step flt ts self) as [s1 t1|s1|s1 e1] eqn:E.
  - eapply IH; exact H.
  - inversion H.
  - inversion H; subst. rewrite data_step_eq in E. cbv zeta in E.
    destruct (header_initialize _) as [h|e0] eqn:Hh.
    + destruct (_ <? _); [discriminate|].
      match type of E with
      | context [data_dispatch flt h ?d ts ?s0] =>
          destruct (data_dispatch flt h d ts s0) as [[s2 t2] [e2|]] eqn:D
      end; inversion E; subst.
      eapply data_dispatch_raise; exact D.
    + inversion E; subst. unfold header_initialize in Hh.
      apply bind_raise in Hh as [Hh | ([sz ty] & _ & Hh)]; [|discriminate].
      unfold _unpack_ushort_byte in Hh.
      apply bind_raise in Hh as [Hh | (a & _ & Hh)]; [|discriminate].
      apply unpack_exact_raise in Hh. auto.
Qed.

(** X7.  An exception that leaves the data phase is an [IndexError], a
    [KeyError], a [UnicodeDecodeError], a [ValueError] or a
    [RecursionError]: [struct.error] never does (the handler swallows
    it), nor do [OSError] or the exceptions of the header. *)
Theorem data_phase_exceptions
  (flt : name_filter) (self final : ULog) (e : exn)
  (Hraise : _read_file_data flt self = Some (final, Some e)) :
  leaves_data_phase e = true.
Proof.
  unfold _read_file_data in Hraise.
  destruct (data_loop _ flt 0 self) as [[s o]|] eqn:E; [|discriminate].
  assert (M : forall s0 final0 e0,
             materialize (rev (_subscriptions s0)) s0 = (final0, Some e0) ->
             e0 = ValueError).
  { intros s0. generalize (rev (_subscriptions s0)). intros popped. revert s0.
    induction popped as [|[k v] rest IH]; intros s0 final0 e0 H; simpl in H;
      [inversion H|].
    destruct (Nat.ltb 0 (List.length (buffer v))); [|eapply IH; exact H].
    destruct (Data_init v) as [d|e1] eqn:D; [eapply IH; exact H|].
    inversion H; subst. now apply Data_init_raises in D. }
  destruct o as [e0|].
  - pose proof (data_loop_raise _ _ _ _ E) as [-> | L].
    + destruct (materialize _ s) as [f [e1|]] eqn:Hm; inversion Hraise; subst.
      now rewrite (M _ _ _ Hm).
    + destruct e0; try discriminate L; inversion Hraise; subst; reflexivity.
  - destruct (materialize _ s) as [f [e1|]] eqn:Hm; inversion Hraise; subst.
    now rewrite (M _ _ _ Hm).
Qed.

(** A Logging message whose text is not ASCII stops the parse with the
    decoding error. *)
Lemma data_phase_exceptions_witness :
  exists final,
    _read_file_data None (data_phase_entry bad_text_stream)
    = Some (final, Some UnicodeDecodeError)
    /\ leaves_data_phase UnicodeDecodeError = true.
Proof.
  eexists. split; [vm_compute; reflexivity|].
  refine (@data_phase_exceptions None (data_phase_entry bad_text_stream) _
            UnicodeDecodeError _).
  vm_compute; reflexivity.
Defined.

(* ================================================================== *)
(** ** Messages the data phase passes over                             *)
(* ================================================================== *)

Lemma consumed_position (fh : file_handle) (h : _MessageHeader) :
  header_initialize (firstn 3 (remaining fh)) = Ok h ->
  msg_size h
  <= Z.of_nat (List.length (firstn (Z.to_nat (msg_size h)) (skipn 3 (remaining fh)))) ->
  Z.of_nat (position (snd (read (Z.to_nat (msg_size h)) (snd (read 3 fh)))))
  = Z.of_nat (position fh) + 3 + msg_size h.
Proof.
  intros Hh Hfull.
  pose proof (header_initialize_ok _ Hh) as L3.
  pose proof (header_initialize_size _ Hh) as Hsz.
  unfold read at 1. cbn [snd position].
  rewrite read_remaining. unfold read. cbn [snd position].
  rewrite L3. rewrite length_firstn in *. lia.
Qed.

(** X8.  A complete message of the data phase whose type is none of
    Parameter, AddLoggedMessage, Logging, Data and Dropout is passed
    over: the file moves on by the 3 bytes of the envelope plus the
    payload and nothing else of the object changes.  So a
    RemoveLoggedMessage does not end a subscription, and Format and Info
    messages that come after the definitions are not read. *)
Theorem data_step_passes_over
  (flt : name_filter) (self : ULog) (ts : Z) (h : _MessageHeader)
  (Hhdr : header_initialize (firstn 3 (remaining (_file_handle self))) = Ok h)
  (Hfull : msg_size h
           <= Z.of_nat (List.length
                          (firstn (Z.to_nat (msg_size h))
                             (skipn 3 (remaining (_file_handle self))))))
  (Hother : msg_type h <> MSG_TYPE_PARAMETER
            /\ msg_type h <> MSG_TYPE_ADD_LOGGED_MSG
            /\ msg_type h <> MSG_TYPE_LOGGING
            /\ msg_type h <> MSG_TYPE_DATA
            /\ msg_type h <> MSG_TYPE_DROPOUT) :
  let consumed := snd (read (Z.to_nat (msg_size h))
                         (snd (read 3 (_file_handle self)))) in
  data_step flt ts self = Continue (set_file_handle consumed self) ts
  /\ Z.of_nat (position consumed)
     = Z.of_nat (position (_file_handle self)) + 3 + msg_size h.
Proof.
  cbv zeta. split; [|now apply consumed_position].
  rewrite (@data_step_complete flt ts self h Hhdr Hfull).
  unfold data_dispatch.
  destruct Hother as (H1 & H2 & H3 & H4 & H5).
  destruct (Z.eqb_spec (msg_type h) MSG_TYPE_PARAMETER); [contradiction|].
  destruct (Z.eqb_spec (msg_type h) MSG_TYPE_ADD_LOGGED_MSG); [contradiction|].
  destruct (Z.eqb_spec (msg_type h) MSG_TYPE_LOGGING); [contradiction|].
  destruct (Z.eqb_spec (msg_type h) MSG_TYPE_DATA); [contradiction|].
  destruct (Z.eqb_spec (msg_type h) MSG_TYPE_DROPOUT); [contradiction|].
  reflexivity.
Qed.

(** The RemoveLoggedMessage for id 1 leaves the subscription in place and
    the record that follows is accumulated: the topic has both records. *)
Lemma data_step_passes_over_witness :
  data_run 2 None 0 remove_stream_entry = Some (200, remove_stream_at_remove)
  /\ (exists s,
        data_step None 200 remove_stream_at_remove = Continue s 200
        /\ _subscriptions s = _subscriptions remove_stream_at_remove)
  /\ exists final,
       ULog_init remove_stream None = Some (final, None)
       /\ _data_list final = [timestamp_topic "t" 0 [200; 300]].
Proof.
  split; [vm_compute; reflexivity|]. split.
  - destruct (@data_step_passes_over None remove_stream_at_remove 200
                (mk_header 2 MSG_TYPE_REMOVE_LOGGED_MSG)) as [H _].
    + vm_compute; reflexivity.
    + vm_compute. discriminate.
    + repeat split; discriminate.
    + eexists. split; [exact H | reflexivity].
  - eexists. split; [vm_compute; reflexivity | reflexivity].
Defined.

(** X10.  A complete data record whose id has no subscription and is in
    the filtered set is dropped without a word: the pass goes on with the
    record's timestamp taken as zero, and only the file position has
    changed. *)
Theorem filtered_record_dropped
  (flt : name_filter) (self : ULog) (ts : Z) (h : _MessageHeader)
  (payload : bytes) (id : Z)
  (Hhdr : header_initialize (firstn 3 (remaining (_file_handle self))) = Ok h)
  (Htype : msg_type h = MSG_TYPE_DATA)
  (Hpayload : payload = firstn (Z.to_nat (msg_size h))
                          (skipn 3 (remaining (_file_handle self))))
  (Hfull : msg_size h <= Z.of_nat (List.length payload))
  (Hid : _unpack_ushort (slice 0 2 payload) = Ok id)
  (Hunknown : dict_get Z.eqb id (_subscriptions self) = None)
  (Hfiltered : set_mem id (_filtered_message_ids self) = true) :
  data_step flt ts self
  = Continue
      (set_file_handle
         (snd (read (Z.to_nat (msg_size h)) (snd (read 3 (_file_handle self)))))
         self) 0.
Proof.
  subst payload.
  rewrite (@data_step_complete flt ts self h Hhdr Hfull).
  rewrite (@data_dispatch_data flt h _ ts _ Htype).
  unfold MessageData_initialize. rewrite Hid.
  change (_subscriptions (set_file_handle ?f self)) with (_subscriptions self).
  rewrite Hunknown.
  change (_filtered_message_ids (set_file_handle ?f self))
    with (_filtered_message_ids self).
  rewrite Hfiltered. reflexivity.
Qed.

(** With the allow-list [b], the record of topic [a] (id 1) is dropped
    and nothing is printed. *)
Lemma filtered_record_dropped_witness :
  data_run 2 (Some ["b"]) 0 two_topics_filtered_entry
  = Some (0, two_topics_filtered_at_record)
  /\ _filtered_message_ids two_topics_filtered_at_record = [1]
  /\ exists s,
       data_step (Some ["b"]) 0 two_topics_filtered_at_record = Continue s 0
       /\ stdout s = [] /\ _subscriptions s = _subscriptions two_topics_filtered_at_record.
Proof.
  split; [vm_compute; reflexivity|]. split; [reflexivity|].
  eexists. split.
  - apply (@filtered_record_dropped (Some ["b"]) two_topics_filtered_at_record 0
             (mk_header 10 MSG_TYPE_DATA) (le_bytes 2 1 ++ le_bytes 8 200) 1);
      try (vm_compute; reflexivity).
    vm_compute. discriminate.
  - split; reflexivity.
Defined.

(* ================================================================== *)
(** ** The topic allow-list                                            *)
(* ================================================================== *)

Lemma In_dict_set {K V} (eqb : K -> K -> bool) (k : K) (v : V) (d : dict K V) kv :
  In kv (dict_set eqb k v d) -> kv = (k, v) \/ In kv d.
Proof.
  induction d as [|[k0 v0] d IH]; simpl.
  - intros [H | []]; auto.
  - destruct (eqb k k0); simpl.
    + intros [H | H]; auto.
    + intros [H | H]; [auto | destruct (IH H); auto].
Qed.

Lemma dict_get_In {K V} (eqb : K -> K -> bool) (k : K) (v : V) (d : dict K V) :
  dict_get eqb k d = Some v -> exists k', In (k', v) d.
Proof.
  induction d as [|[k0 v0] d IH]; simpl; [discriminate|].
  destruct (eqb k k0).
  - intros H; inversion H; subst. eauto.
  - intros H. destruct (IH H) as [k' Hk]. eauto.
Qed.

Lemma MessageData_initialize_names flt data ts self :
  names_pass flt self ->
  names_pass flt (fst (fst (MessageData_initialize data ts self))).
Proof.
  intros [Hs Hd]. unfold MessageData_initialize.
  destruct (_unpack_ushort (slice 0 2 data)) as [id|]; [|split; assumption].
  destruct (dict_get Z.eqb id (_subscriptions self)) as [sub|] eqn:G.
  - assert (N : names_pass flt
                  (set_subscriptions
                     (dict_set Z.eqb id
                        (mk_add_logged (multi_id sub) (msg_id sub) (message_name sub)
                           (field_data sub) (timestamp_idx sub) (timestamp_offset sub)
                           (buffer sub ++ slice_from 2 data) (dtype sub))
                        (_subscriptions self)) self)).
    { split; [|exact Hd]. intros id' sub' Hin. simpl in Hin.
      apply In_dict_set in Hin as [E | Hin]; [|eapply Hs; exact Hin].
      inversion E; subst. simpl.
      destruct (@dict_get_In _ _ _ _ _ _ G) as [k' Hk]. eapply Hs; exact Hk. }
    destruct (_unpack_uint64 _); exact N.
  - destruct (negb (set_mem id (_filtered_message_ids self)));
      [destruct (negb (set_mem id (_missing_message_ids self)))|];
      split; assumption.
Qed.

Lemma data_dispatch_names flt h d ts self :
  names_pass flt self ->
  names_pass flt (fst (fst (data_dispatch flt h d ts self))).
Proof.
  intros N. pose proof N as [Hs Hd]. unfold data_dispatch.
  destruct (msg_type h =? MSG_TYPE_PARAMETER).
  { destruct (MessageInfo_init d); exact N. }
  destruct (msg_type h =? MSG_TYPE_ADD_LOGGED_MSG).
  { destruct (MessageAddLogged_init d (_message_formats self)) as [m|]; [|exact N].
    destruct (passes_filter flt (message_name m)) eqn:P; [|exact N].
    split; [|exact Hd]. intros id sub Hin. simpl in Hin.
    apply In_dict_set in Hin as [E | Hin]; [|eapply Hs; exact Hin].
    inversion E; subst. exact P. }
  destruct (msg_type h =? MSG_TYPE_LOGGING).
  { destruct (MessageLogging_init d); exact N. }
  destruct (msg_type h =? MSG_TYPE_DATA).
  { pose proof (@MessageData_initialize_names flt d ts self N) as M.
    destruct (MessageData_initialize d ts self) as [[s t] [e|]]; [exact M|].
    destruct (negb (t =? 0) && (_last_timestamp s <? t)); exact M. }
  destruct (msg_type h =? MSG_TYPE_DROPOUT).
  { destruct (MessageDropout_init d (_last_timestamp self)); exact N. }
  exact N.
Qed.

Lemma data_step_names flt ts self :
  names_pass flt self -> names_pass flt (pass_state (data_step flt ts self)).
Proof.
  intros N. rewrite data_step_eq. cbv zeta.
  destruct (header_initialize _) as [h|]; [|exact N].
  destruct (_ <? _); [exact N|].
  match goal with
  | |- context [data_dispatch flt h ?d ts ?s0] =>
      pose proof (@data_dispatch_names flt h d ts s0 N) as D;
      destruct (data_dispatch flt h d ts s0) as [[s1 t1] [e1|]]
  end; exact D.
Qed.

Lemma data_loop_names flt :
  forall fuel ts self self' o,
    data_loop fuel flt ts self = Some (self', o) ->
    names_pass flt self -> names_pass flt self'.
Proof.
  induction fuel as [|fuel IH]; intros ts self self' o H N; [discriminate|].
  simpl in H. pose proof (@data_step_names flt ts self N) as N'.
  destruct (data_step flt ts self) as [s t|s|s e]; simpl in N'.
  - eapply IH; eassumption.
  - inversion H; subst. exact N'.
  - inversion H; subst. exact N'.
Qed.

Lemma materialize_names flt :
  forall popped self,
    (forall kv, In kv popped -> passes_filter flt (message_name (snd kv)) = true) ->
    (forall d, In d (_data_list self) -> passes_filter flt (data_name d) = true) ->
    forall d, In d (_data_list (fst (materialize popped self))) ->
              passes_filter flt (data_name d) = true.
Proof.
  induction popped as [|[k v] rest IH]; intros self Hp Hd; simpl; [exact Hd|].
  assert (Hrest : forall kv, In kv rest ->
                             passes_filter flt (message_name (snd kv)) = true).
  { intros kv Hin. apply Hp. now right. }
  destruct (Nat.ltb 0 (List.length (buffer v))).
  - destruct (Data_init v) as [item|] eqn:D; simpl; [|exact Hd].
    apply IH; [exact Hrest|]. simpl. intros d Hin.
    apply in_app_or in Hin as [Hin | [<- | []]]; [now apply Hd|].
    apply Data_init_identity in D as (-> & _). apply (Hp (k, v)). now left.
  - apply IH; [exact Hrest | exact Hd].
Qed.

Lemma read_file_header_tables (fh : file_handle) :
  let r := _read_file_header (ULog_new fh) in
  _subscriptions (fst r) = [] /\ _data_list (fst r) = [].
Proof.
  unfold _read_file_header.
  rewrite (surjective_pairing (read 16 _)). cbv zeta.
  repeat break_match; simpl; split; reflexivity.
Qed.

(** X9.  With an allow-list, every topic of the decoded result bears a
    name of the list, however the parse ends. *)
Theorem decoded_topics_in_allow_list
  (file : bytes) (allowed : list string) (final : ULog) (o : option exn)
  (Hparse : ULog_init file (Some allowed) = Some (final, o)) :
  forall d, In d (_data_list final) -> In (data_name d) allowed.
Proof.
  assert (G : forall d, In d (_data_list final) ->
                        passes_filter (Some allowed) (data_name d) = true).
  { unfold ULog_init, _load_file in Hparse.
    pose proof (read_file_header_tables (mk_file file 0)) as [T1 T2].
    destruct (_read_file_header (ULog_new (mk_file file 0))) as [s1 [e1|]];
      cbv zeta in T1, T2; simpl in T1, T2.
    { inversion Hparse; subst. rewrite T2. intros d []. }
    destruct (_read_file_definitions _) as [[s2 o2]|] eqn:E2; [|discriminate].
    unfold _read_file_definitions in E2.
    apply definitions_loop_frame in E2 as (_ & _ & _ & D1 & D2 & _).
    simpl in D1, D2. rewrite T1 in D1. rewrite T2 in D2.
    destruct o2 as [e2|].
    { inversion Hparse; subst. rewrite D2. intros d []. }
    assert (N2 : names_pass (Some allowed) s2).
    { split; [rewrite D1 | rewrite D2]; intros; contradiction. }
    unfold _read_file_data in Hparse.
    destruct (data_loop _ (Some allowed) 0 s2) as [[s3 o3]|] eqn:E3; [|discriminate].
    pose proof (@data_loop_names _ _ _ _ _ _ E3 N2) as [N3s N3d].
    assert (M : forall d,
               In d (_data_list (fst (materialize (rev (_subscriptions s3)) s3))) ->
               passes_filter (Some allowed) (data_name d) = true).
    { apply materialize_names; [|exact N3d].
      intros [id sub] Hin. apply (N3s id sub). apply (proj2 (in_rev _ _)). exact Hin. }
    destruct o3 as [[]|]; inversion Hparse; subst; try exact N3d;
      match goal with
      | H1 : materialize _ _ = (final, _) |- _ => rewrite H1 in M; exact M
      end. }
  intros d Hin. specialize (G d Hin). simpl in G.
  apply existsb_exists in G as (x & Hx & E).
  apply String.eqb_eq in E. now subst.
Qed.

(** The two topics [a] and [b] read with the allow-list [b]. *)
Lemma decoded_topics_in_allow_list_witness :
  exists final,
    ULog_init two_topics_stream (Some ["b"]) = Some (final, None)
    /\ _data_list final = [timestamp_topic "b" 0 [300]]
    /\ forall d, In d (_data_list final) -> In (data_name d) ["b"].
Proof.
  eexists. split; [vm_compute; reflexivity|]. split; [reflexivity|].
  refine (@decoded_topics_in_allow_list two_topics_stream ["b"] _ None _).
  vm_compute; reflexivity.
Defined.

(* ================================================================== *)
(** ** More on flattening                                              *)
(* ================================================================== *)

Lemma string_append_assoc (a b c : string) :
  ((a ++ b) ++ c = a ++ (b ++ c))%string.
Proof. induction a as [|x a IH]; simpl; [reflexivity | now rewrite IH]. Qed.

Lemma prefix_append (p s : string) : String.prefix p (p ++ s) = true.
Proof.
  induction p as [|c p IH]; simpl; [now destruct s|].
  destruct (ascii_dec c c); [exact IH | contradiction].
Qed.

Lemma prefix_of_append (p q : string) :
  forall s, String.prefix (p ++ q) s = true -> String.prefix p s = true.
Proof.
  induction p as [|c p IH]; intros s; [now destruct s|].
  destruct s as [|d s]; simpl; [discriminate|].
  destruct (ascii_dec c d); [apply IH | discriminate].
Qed.

Lemma primitive_entries_prefix prefix_str fname ty n :
  Forall (fun f => startswith (field_name f) prefix_str = true)
         (primitive_entries (prefix_str ++ fname) ty n).
Proof.
  unfold primitive_entries, startswith. destruct (1 <? n).
  - apply Forall_forall. intros f Hin. apply in_map_iff in Hin as (i & <- & _).
    simpl. apply prefix_of_append with (q := fname).
    apply prefix_append.
  - constructor; [|constructor]. simpl. apply prefix_append.
Qed.

Lemma primitive_entries_length q ty n :
  List.length (primitive_entries q ty n) = field_count n.
Proof.
  unfold primitive_entries, field_count. destruct (1 <? n); [|reflexivity].
  now rewrite length_map, length_seq.
Qed.

Lemma appends_refl p self : appends p self self.
Proof.
  exists []. rewrite app_nil_r. split; [reflexivity|]. split; [constructor | now left].
Qed.

Lemma appends_trans p self1 self2 self3 :
  appends p self1 self2 -> appends p self2 self3 -> appends p self1 self3.
Proof.
  intros (a1 & E1 & F1 & I1) (a2 & E2 & F2 & I2).
  exists (a1 ++ a2). split; [rewrite E2, E1; now rewrite app_assoc|].
  split; [now apply Forall_app|].
  rewrite E2, E1 in *. rewrite !length_app in *.
  destruct I2 as [I2 | I2]; [rewrite I2|]; [destruct I1 as [I1 | I1]|];
    [now left | right; lia | right; lia].
Qed.

Lemma appends_weaken p q self self' :
  appends (p ++ q) self self' -> appends p self self'.
Proof.
  intros (a & E & F & I). exists a. split; [exact E|]. split; [|exact I].
  eapply Forall_impl; [|exact F]. intros f. unfold startswith.
  apply prefix_of_append.
Qed.

Lemma index_loop_appends nested qualified p :
  (forall i s s', nested (qualified ++ "[" ++ str_of_nat i ++ "].")%string s = Ok s' ->
                  appends p s s') ->
  forall idxs self self',
    index_loop nested qualified idxs self = Ok self' -> appends p self self'.
Proof.
  intros Hn. induction idxs as [|i idxs IH]; intros self self' H; simpl in H.
  - inversion H; subst. apply appends_refl.
  - apply bind_ok in H as (s1 & H1 & H2).
    eapply appends_trans; [eapply Hn; exact H1 | eapply IH; exact H2].
Qed.

Lemma fields_loop_appends nested prefix_str :
  (forall q t s s', nested (prefix_str ++ q)%string t s = Ok s' ->
                    appends prefix_str s s') ->
  forall fs self self',
    fields_loop nested prefix_str fs self = Ok self' ->
    appends prefix_str self self'.
Proof.
  intros Hn. induction fs as [|[[ty n] fname] fs IH]; intros self self' H;
    simpl in H.
  - inversion H; subst. apply appends_refl.
  - destruct (prim_of_string ty) as [p|].
    + eapply appends_trans; [|eapply IH; exact H].
      exists (primitive_entries (prefix_str ++ fname) p n). simpl.
      split; [reflexivity|]. split; [apply primitive_entries_prefix|].
      destruct (String.eqb (prefix_str ++ fname) "timestamp"); [|now left].
      right. rewrite length_app, primitive_entries_length.
      unfold field_count. destruct (1 <? n) eqn:E; [apply Z.ltb_lt in E|]; lia.
    + destruct (1 <? n).
      * apply bind_ok in H as (s1 & H1 & H2).
        eapply appends_trans; [|eapply IH; exact H2].
        eapply index_loop_appends; [|exact H1].
        intros i s s' Hi. cbv beta in Hi.
        rewrite string_append_assoc in Hi.
        eapply Hn. exact Hi.
      * apply bind_ok in H as (s1 & H1 & H2).
        eapply appends_trans; [|eapply IH; exact H2].
        rewrite string_append_assoc in H1. eapply Hn. exact H1.
Qed.

(** X11.  Flattening a type only appends to the field list: the entries
    already there stay, every entry added bears a name that starts with
    the prefix of the call, and the timestamp index is either left as it
    was or points at one of the added entries. *)
Theorem parse_nested_type_appends (message_formats : formats_t) :
  forall depth prefix_str type_name self self',
    _parse_nested_type depth prefix_str type_name message_formats self = Ok self' ->
    exists added,
      fst self' = fst self ++ added
      /\ Forall (fun f => startswith (field_name f) prefix_str = true) added
      /\ (snd self' = snd self
          \/ Z.of_nat (List.length (fst self)) <= snd self'
             < Z.of_nat (List.length (fst self'))).
Proof.
  induction depth as [|depth IH]; intros prefix_str type_name self self' H;
    [discriminate|].
  change (_parse_nested_type (S depth) prefix_str type_name message_formats self)
    with (match dict_get String.eqb type_name message_formats with
          | None => Raise KeyError
          | Some message_format =>
              fields_loop
                (fun p t s => _parse_nested_type depth p t message_formats s)
                prefix_str (fields message_format) self
          end) in H.
  destruct (dict_get String.eqb type_name message_formats) as [mf|]; [|discriminate].
  change (appends prefix_str self self').
  eapply fields_loop_appends; [|exact H].
  intros q t s s' Hq. apply appends_weaken with (q := q). exact (IH _ _ _ _ Hq).
Qed.

Lemma parse_nested_type_appends_witness :
  exists added,
    _parse_nested_type recursion_limit "pre." "imu" primitive_formats
      ([mk_field "x" Tint8], -1) = Ok ([mk_field "x" Tint8] ++ added, -1)
    /\ Forall (fun f => startswith (field_name f) "pre." = true) added
    /\ List.length added = 7%nat.
Proof.
  destruct (@parse_nested_type_appends primitive_formats recursion_limit "pre."
              "imu" ([mk_field "x" Tint8], -1)
              ([mk_field "x" Tint8;
                mk_field "pre.timestamp" Tuint64;
                mk_field "pre.gyro[0]" Tfloat; mk_field "pre.gyro[1]" Tfloat;
                mk_field "pre.gyro[2]" Tfloat;
                mk_field "pre.raw[0]" Tint16; mk_field "pre.raw[1]" Tint16;
                mk_field "pre.ok" Tbool], -1))
    as (added & E & F & _).
  { vm_compute. reflexivity. }
  simpl in E. inversion E; subst added.
  eexists. split; [vm_compute; reflexivity|]. split; [exact F | reflexivity].
Defined.

Lemma record_width_entries (g : nat -> string) (ty : prim) (l : list nat) :
  record_width (map (fun i => mk_field (g i) ty) l)
  = (unpack_size ty * List.length l)%nat.
Proof.
  induction l as [|i l IH]; simpl; [lia|]. rewrite IH. lia.
Qed.

Lemma primitive_entries_width q ty n :
  record_width (primitive_entries q ty n) = (unpack_size ty * field_count n)%nat.
Proof.
  unfold primitive_entries, field_count. destruct (1 <? n).
  - now rewrite record_width_entries, length_seq.
  - simpl. lia.
Qed.

Lemma fields_loop_primitive nested prefix_str :
  forall fs self,
    Forall (fun f => prim_of_string (fst (fst f)) <> None) fs ->
    exists flat idx,
      fields_loop nested prefix_str fs self = Ok (fst self ++ flat, idx)
      /\ record_width flat = declared_width fs
      /\ List.length flat = declared_count fs.
Proof.
  induction fs as [|[[ty n] fname] fs IH]; intros [fd idx] Hp.
  - exists [], idx. simpl. now rewrite app_nil_r.
  - inversion Hp as [|x l Hty Hrest]; subst. simpl in Hty.
    cbn [fields_loop declared_width declared_count].
    destruct (prim_of_string ty) as [p|]; [|contradiction].
    cbv zeta. cbn [fst snd].
    match goal with
    | |- context [fields_loop nested prefix_str fs ?s] =>
        destruct (IH s Hrest) as (flat & idx' & E & W & L)
    end.
    cbn [fst] in E.
    exists (primitive_entries (prefix_str ++ fname) p n ++ flat), idx'.
    split; [rewrite E; now rewrite app_assoc|].
    split.
    + rewrite record_width_app, primitive_entries_width, W. reflexivity.
    + rewrite length_app, primitive_entries_length, L. reflexivity.
Qed.

(** X12.  Flattening a type whose declared fields are all primitive
    succeeds and adds one entry per declared element: the added entries
    are as wide as the declared fields, each primitive width counted once
    per array element. *)
Theorem flatten_primitive_fields
  (message_formats : formats_t) (depth : nat) (prefix_str type_name : string)
  (mf : MessageFormat) (self : flat_state)
  (Hget : dict_get String.eqb type_name message_formats = Some mf)
  (Hprim : Forall (fun f => prim_of_string (fst (fst f)) <> None) (fields mf)) :
  exists flat idx,
    _parse_nested_type (S depth) prefix_str type_name message_formats self
    = Ok (fst self ++ flat, idx)
    /\ record_width flat = declared_width (fields mf)
    /\ List.length flat = declared_count (fields mf).
Proof.
  rewrite parse_nested_type_unfold with (1 := Hget).
  now apply fields_loop_primitive.
Qed.

(** [{uint64_t timestamp; float[3] gyro; int16_t[2] raw; bool ok}]:
    seven entries, 8 + 12 + 4 + 1 bytes. *)
Lemma flatten_primitive_fields_witness :
  exists flat idx,
    _parse_nested_type recursion_limit "" "imu" primitive_formats ([], -1)
    = Ok (flat, idx)
    /\ record_width flat = 25%nat /\ List.length flat = 7%nat.
Proof.
  destruct (@flatten_primitive_fields primitive_formats 999 "" "imu"
              (mk_format "imu"
                 [("uint64_t", 1, "timestamp"); ("float", 3, "gyro");
                  ("int16_t", 2, "raw"); ("bool", 1, "ok")])
              ([], -1) eq_refl)
    as (flat & idx & E & W & L).
  { repeat constructor; simpl; discriminate. }
  exists flat, idx. split; [exact E|]. split; [rewrite W | rewrite L]; reflexivity.
Defined.

(* ================================================================== *)
(** ** The timestamp offset of a subscription                          *)
(* ================================================================== *)

Lemma compute_timestamp_offset_none (fd : list _FieldData) :
  (forall f, In f fd -> field_name f <> "timestamp") ->
  compute_timestamp_offset fd = record_width fd.
Proof.
  induction fd as [|f fd IH]; intros H; simpl; [reflexivity|].
  destruct (String.eqb_spec (field_name f) "timestamp") as [E | E].
  - exfalso. apply (H f); [now left | exact E].
  - rewrite IH; [reflexivity|]. intros g Hg. apply H. now right.
Qed.

Lemma compute_timestamp_offset_at (before after : list _FieldData) (f : _FieldData) :
  (forall g, In g before -> field_name g <> "timestamp") ->
  field_name f = "timestamp" ->
  compute_timestamp_offset (before ++ f :: after) = record_width before.
Proof.
  intros Hb Hf. induction before as [|g before IH]; simpl.
  - now rewrite Hf.
  - destruct (String.eqb_spec (field_name g) "timestamp") as [E | E].
    + exfalso. apply (Hb g); [now left | exact E].
    + rewrite IH; [reflexivity|]. intros x Hx. apply Hb. now right.
Qed.

Lemma MessageAddLogged_init_layout data message_formats sub :
  MessageAddLogged_init data message_formats = Ok sub ->
  timestamp_offset sub = compute_timestamp_offset (field_data sub)
  /\ itemsize (dtype sub) = record_width (field_data sub)
  /\ buffer sub = [].
Proof.
  unfold MessageAddLogged_init. intros H.
  apply bind_ok in H as (mid & _ & H).
  apply bind_ok in H as (id & _ & H).
  apply bind_ok in H as (name & _ & H).
  apply bind_ok in H as ([fd idx] & _ & H).
  apply bind_ok in H as (dt & Hdt & H).
  inversion H; subst; simpl. split; [reflexivity|]. split; [|reflexivity].
  apply np_dtype_make_itemsize in Hdt. now rewrite Hdt, itemsize_dtype_list.
Qed.

(** X13.  A subscription to a type with no field named "timestamp" has
    its timestamp offset at the end of the record, so the 8-byte read
    raises [struct.error] on every record that is not at least 8 bytes
    longer than the layout: a record of the right size ends the data
    phase. *)
Theorem subscription_without_timestamp
  (data : bytes) (message_formats : formats_t) (sub : _MessageAddLogged)
  (Hsub : MessageAddLogged_init data message_formats = Ok sub)
  (Hnone : forall f, In f (field_data sub) -> field_name f <> "timestamp") :
  timestamp_offset sub = itemsize (dtype sub)
  /\ forall payload,
       (List.length payload < itemsize (dtype sub) + 10)%nat ->
       _unpack_uint64
         (slice (timestamp_offset sub + 2) (timestamp_offset sub + 10) payload)
       = Raise StructError.
Proof.
  destruct (MessageAddLogged_init_layout _ _ Hsub) as (Ho & Hi & _).
  assert (E : timestamp_offset sub = itemsize (dtype sub)).
  { rewrite Ho, Hi. now apply compute_timestamp_offset_none. }
  split; [exact E|]. intros payload Hlen. apply timestamp_unpack_short. lia.
Qed.

Lemma subscription_without_timestamp_witness :
  exists sub,
    MessageAddLogged_init (subscribe_payload 0 1 "plain") offset_formats = Ok sub
    /\ timestamp_offset sub = 4%nat
    /\ _unpack_uint64
         (slice (timestamp_offset sub + 2) (timestamp_offset sub + 10)
            (le_bytes 2 1 ++ [x01; x02; x03; x04]))
       = Raise StructError.
Proof.
  eexists. split; [vm_compute; reflexivity|].
  match goal with
  | |- context [timestamp_offset ?s] =>
      destruct (@subscription_without_timestamp
                  (subscribe_payload 0 1 "plain") offset_formats s) as [E F]
  end.
  - vm_compute; reflexivity.
  - intros f [<- | [<- | []]]; discriminate.
  - split; [exact E|]. apply F. vm_compute. lia.
Defined.

(** X14.  A subscription whose first field named "timestamp" is 8 bytes
    wide has its timestamp offset at the width of the fields before it,
    and the 8-byte read succeeds on every record that is at least as long
    as the layout, giving the little-endian value found at that offset. *)
Theorem subscription_timestamp_read
  (data : bytes) (message_formats : formats_t) (sub : _MessageAddLogged)
  (before after : list _FieldData) (ty : prim)
  (Hsub : MessageAddLogged_init data message_formats = Ok sub)
  (Hfields : field_data sub = before ++ mk_field "timestamp" ty :: after)
  (Hbefore : forall g, In g before -> field_name g <> "timestamp")
  (Hwide : unpack_size ty = 8%nat) :
  timestamp_offset sub = record_width before
  /\ (timestamp_offset sub + 8 <= itemsize (dtype sub))%nat
  /\ forall payload,
       (itemsize (dtype sub) + 2 <= List.length payload)%nat ->
       _unpack_uint64
         (slice (timestamp_offset sub + 2) (timestamp_offset sub + 10) payload)
       = Ok (le_uint (slice (timestamp_offset sub + 2)
                        (timestamp_offset sub + 10) payload)).
Proof.
  destruct (MessageAddLogged_init_layout _ _ Hsub) as (Ho & Hi & _).
  assert (E : timestamp_offset sub = record_width before).
  { rewrite Ho, Hfields. now apply compute_timestamp_offset_at. }
  assert (W : (timestamp_offset sub + 8 <= itemsize (dtype sub))%nat).
  { rewrite Hi, Hfields, record_width_app, E. simpl. rewrite Hwide. lia. }
  split; [exact E|]. split; [exact W|].
  intros payload Hlen. unfold _unpack_uint64, unpack_exact.
  rewrite slice_length by lia.
  replace (timestamp_offset sub + 10 - (timestamp_offset sub + 2))%nat
    with 8%nat by lia.
  reflexivity.
Qed.

Lemma subscription_timestamp_read_witness :
  exists sub,
    MessageAddLogged_init (subscribe_payload 0 2 "late") offset_formats = Ok sub
    /\ timestamp_offset sub = 4%nat
    /\ _unpack_uint64
         (slice (timestamp_offset sub + 2) (timestamp_offset sub + 10)
            (le_bytes 2 2 ++ le_bytes 4 77 ++ le_bytes 8 123456 ++ [x01]))
       = Ok 123456.
Proof.
  eexists. split; [vm_compute; reflexivity|].
  match goal with
  | |- context [timestamp_offset ?s] =>
      destruct (@subscription_timestamp_read
                  (subscribe_payload 0 2 "late") offset_formats s
                  [mk_field "seq" Tuint32] [mk_field "flag" Tuint8] Tuint64)
        as (E & _ & F)
  end.
  - vm_compute; reflexivity.
  - reflexivity.
  - intros g [<- | []]; discriminate.
  - reflexivity.
  - split; [exact E|]. rewrite F; [reflexivity|]. vm_compute. lia.
Defined.

(* ================================================================== *)
(** ** The columns of a decoded topic                                  *)
(* ================================================================== *)

Lemma np_columns_spec (records : list bytes) :
  forall dt off name col,
    In (name, col) (np_columns dt off records) ->
    List.length col = List.length records /\ In name (map fst dt).
Proof.
  induction dt as [|[n t] dt IH]; intros off name col H; simpl in H; [contradiction|].
  destruct H as [H | H].
  - inversion H; subst. rewrite length_map. split; [reflexivity | now left].
  - destruct (IH _ _ _ H) as [L I]. split; [exact L | now right].
Qed.

Lemma np_columns_names (records : list bytes) :
  forall dt off, map fst (np_columns dt off records) = map fst dt.
Proof.
  induction dt as [|[n t] dt IH]; intros off; simpl; [reflexivity|].
  now rewrite IH.
Qed.

Lemma fold_dict_set_In {V} (l : list (string * V)) :
  forall acc kv,
    In kv (fold_left (fun d c => dict_set String.eqb (fst c) (snd c) d) l acc) ->
    In kv l \/ In kv acc.
Proof.
  induction l as [|[k v] l IH]; intros acc kv H; simpl in H; [now right|].
  apply IH in H as [H | H]; [left; now right|].
  apply In_dict_set in H as [-> | H]; [left; now left | now right].
Qed.

Lemma dict_set_fresh {V} (k : string) (v : V) (d : dict string V) :
  ~ In k (map fst d) -> dict_set String.eqb k v d = d ++ [(k, v)].
Proof.
  induction d as [|[k0 v0] d IH]; intros H; simpl; [reflexivity|].
  destruct (String.eqb_spec k k0) as [-> | N].
  - exfalso. apply H. now left.
  - rewrite IH; [reflexivity|]. intros Hin. apply H. now right.
Qed.

Lemma fold_dict_set_nodup {V} (l : list (string * V)) :
  forall acc,
    NoDup (map fst (acc ++ l)) ->
    fold_left (fun d c => dict_set String.eqb (fst c) (snd c) d) l acc = acc ++ l.
Proof.
  induction l as [|[k v] l IH]; intros acc H; simpl; [now rewrite app_nil_r|].
  assert (F : ~ In k (map fst acc)).
  { rewrite map_app in H. simpl in H. apply NoDup_remove_2 in H.
    intros Hin. apply H. apply in_or_app. now left. }
  rewrite (@dict_set_fresh _ k v acc F), IH; [now rewrite <- app_assoc|].
  now rewrite <- app_assoc.
Qed.

Lemma has_dup_NoDup (names : list string) : has_dup names = false -> NoDup names.
Proof.
  induction names as [|n r IH]; simpl; intros H; [constructor|].
  apply orb_false_iff in H as [H1 H2]. constructor; [|now apply IH].
  intros Hin. assert (E : existsb (String.eqb n) r = true).
  { apply existsb_exists. exists n. split; [exact Hin | apply String.eqb_refl]. }
  congruence.
Qed.

(** X15.  When a subscription is converted into a decoded topic, the
    buffer holds a whole number [n] of records of the dtype's size, every
    column of the topic has exactly [n] entries and is named after a
    field of the dtype; when the dtype has no repeated name (as every
    dtype made by [np.dtype] here) the columns are those of the dtype, in
    its order. *)
Theorem Data_init_columns (m : _MessageAddLogged) (d : Data)
  (Hd : Data_init m = Ok d) :
  let n := Nat.div (List.length (buffer m)) (itemsize (dtype m)) in
  List.length (buffer m) = (n * itemsize (dtype m))%nat
  /\ (forall name col, In (name, col) (data d) ->
        List.length col = n /\ In name (map fst (dtype m)))
  /\ (has_dup (map fst (dtype m)) = false ->
      map fst (data d) = map fst (dtype m)).
Proof.
  unfold Data_init in Hd. apply bind_ok in Hd as (records & Hr & Hd).
  inversion Hd; subst; clear Hd. cbn [data]. cbv zeta.
  pose proof (@np_frombuffer_stride _ _ _ Hr) as [Hlen _].
  assert (Hn : List.length records
               = Nat.div (List.length (buffer m)) (itemsize (dtype m))).
  { unfold np_frombuffer in Hr.
    destruct (Nat.eqb (itemsize (dtype m)) 0); [discriminate|].
    destruct (negb _); [discriminate|]. inversion Hr. now rewrite chunks_length. }
  split; [now rewrite <- Hn|]. split.
  - intros name col Hin. apply fold_dict_set_In in Hin as [Hin | []].
    apply np_columns_spec in Hin as [L I]. split; [now rewrite L | exact I].
  - intros Hnd. rewrite fold_dict_set_nodup.
    + apply np_columns_names.
    + simpl. rewrite np_columns_names. now apply has_dup_NoDup.
Qed.

(** Three records of [{uint16_t a; int8_t b}]. *)
Lemma Data_init_columns_witness :
  exists d,
    Data_init three_records = Ok d
    /\ data d = [("a", [NpInt 1; NpInt 2; NpInt 3]);
                 ("b", [NpInt (-1); NpInt 127; NpInt (-128)])]
    /\ forall name col, In (name, col) (data d) -> List.length col = 3%nat.
Proof.
  eexists. split; [vm_compute; reflexivity|]. split; [reflexivity|].
  intros name col Hin.
  match goal with
  | H : In _ (data ?d) |- _ =>
      destruct (@Data_init_columns three_records d) as (_ & C & _);
        [vm_compute; reflexivity|]
  end.
  destruct (C name col Hin) as [L _]. exact L.
Defined.

(* ================================================================== *)
(** ** Value changes in general                                        *)
(* ================================================================== *)

Lemma mask_select_filter {A} (f : A -> bool) (t : list A) :
  mask_select (map f t) t = Ok (filter f t).
Proof.
  induction t as [|a t IH]; simpl; [reflexivity|].
  rewrite IH. simpl. reflexivity.
Qed.

Lemma mask_select_combine (f : npval -> bool) :
  forall (t x : list npval),
    List.length t = List.length x ->
    mask_select (map f t) x
    = Ok (map snd (filter (fun s => f (fst s)) (combine t x)))
    /\ filter f t = map fst (filter (fun s => f (fst s)) (combine t x)).
Proof.
  induction t as [|a t IH]; intros [|b x] H; simpl in *; try discriminate;
    [split; reflexivity|].
  destruct (IH x ltac:(lia)) as [E1 E2]. rewrite E1. simpl.
  destruct (f a); simpl; rewrite E2; split; reflexivity.
Qed.

Lemma skipn_cons_nth {A} (l : list A) :
  forall i a r, skipn i l = a :: r -> nth_error l i = Some a /\ skipn (S i) l = r.
Proof.
  induction l as [|b l IH]; intros [|i] a r H; simpl in *; try discriminate.
  - inversion H; subst. split; reflexivity.
  - apply IH in H. exact H.
Qed.

(** The pairs picked through [np.where] are the samples that differ from
    their predecessor. *)
Lemma take_change_indices (T X : list npval) :
  forall x t i,
    skipn i T = t -> skipn i X = x -> List.length t = List.length x ->
    combine (take T (change_indices x i)) (take X (change_indices x i))
    = match x, t with
      | x0 :: xr, _ :: tr => keep_changes x0 (combine tr xr)
      | _, _ => []
      end.
Proof.
  induction x as [|a x IH]; intros t i Ht Hx Hlen.
  - reflexivity.
  - destruct t as [|ta t]; [discriminate|].
    destruct x as [|b r].
    + destruct t; [reflexivity | discriminate].
    + destruct t as [|tb tr]; [discriminate|].
      destruct (skipn_cons_nth _ _ Ht) as [_ Ht'].
      destruct (skipn_cons_nth _ _ Hx) as [_ Hx'].
      destruct (skipn_cons_nth _ _ Ht') as [Nt _].
      destruct (skipn_cons_nth _ _ Hx') as [Nx _].
      specialize (IH (tb :: tr) (S i) Ht' Hx' ltac:(simpl in *; lia)).
      change (change_indices (a :: b :: r) i)
        with (if np_ne a b then S i :: change_indices (b :: r) (S i)
              else change_indices (b :: r) (S i)).
      cbn [combine keep_changes].
      destruct (np_ne a b).
      * unfold take in *. cbn [flat_map]. rewrite Nt, Nx.
        cbn [app combine]. now rewrite IH.
      * exact IH.
Qed.

(** X16.  When the topic has a "timestamp" column and the column asked
    for, of the same length, [list_value_changes] returns what its
    docstring says: of the samples with a non-zero timestamp, the first
    one and every one whose value differs from the value before it.  A
    missing column is a [KeyError]. *)
Theorem list_value_changes_spec (self : Data) (fname : string) :
  (forall t x,
     dict_get String.eqb "timestamp" (data self) = Some t ->
     dict_get String.eqb fname (data self) = Some x ->
     List.length t = List.length x ->
     list_value_changes self fname = Ok (value_changes_spec t x))
  /\ (dict_get String.eqb "timestamp" (data self) = None
      \/ dict_get String.eqb fname (data self) = None ->
      list_value_changes self fname = Raise KeyError).
Proof.
  split.
  - intros t x Ht Hx Hlen. unfold list_value_changes, value_changes_spec.
    rewrite Ht, Hx, mask_select_filter.
    destruct (mask_select_combine np_ne_zero t x Hlen) as [E1 E2].
    rewrite E1. cbn [bind]. rewrite E2.
    set (samples := filter (fun s => np_ne_zero (fst s)) (combine t x)).
    destruct samples as [|[t0 x0] rest] eqn:S; [reflexivity|].
    cbn [map fst snd]. f_equal. f_equal.
    pose proof (@take_change_indices (t0 :: map fst rest) (x0 :: map snd rest)
                  (x0 :: map snd rest) (t0 :: map fst rest) 0 eq_refl eq_refl) as K.
    rewrite K by (simpl; now rewrite !length_map).
    f_equal. clear. induction rest as [|[a b] rest IH]; simpl; [reflexivity|].
    now rewrite IH.
  - unfold list_value_changes. intros [H | H].
    + now rewrite H.
    + rewrite H. now destruct (dict_get String.eqb "timestamp" (data self)).
Qed.

(** A column with a sample stamped 0 and a repeated value. *)
Lemma list_value_changes_spec_witness :
  let self := mk_data 0 "t" [mk_field "timestamp" Tuint64; mk_field "x" Tint32] 0
                [("timestamp", map NpInt [0; 10; 20; 30]);
                 ("x", map NpInt [9; 4; 4; 6])] in
  list_value_changes self "x" = Ok [(NpInt 10, NpInt 4); (NpInt 30, NpInt 6)]
  /\ list_value_changes self "y" = Raise KeyError.
Proof.
  cbv zeta.
  set (self := mk_data 0 "t" [mk_field "timestamp" Tuint64; mk_field "x" Tint32] 0
                 [("timestamp", map NpInt [0; 10; 20; 30]);
                  ("x", map NpInt [9; 4; 4; 6])]).
  split.
  - rewrite (proj1 (list_value_changes_spec self "x")
               (map NpInt [0; 10; 20; 30]) (map NpInt [9; 4; 4; 6])
               eq_refl eq_refl eq_refl).
    reflexivity.
  - apply (proj2 (list_value_changes_spec self "y")). right. reflexivity.
Defined.

(* ================================================================== *)
(** ** The value changes of six retained records (C5)                  *)
(* ================================================================== *)

Lemma list_value_changes_samples (self : Data) (fname : string)
  (t x : list npval) :
  dict_get String.eqb "timestamp" (data self) = Some t ->
  dict_get String.eqb fname (data self) = Some x ->
  List.length t = List.length x ->
  list_value_changes self fname
  = Ok match retained t x with
       | [] => []
       | (t0, x0) :: rest => (t0, x0) :: keep_changes x0 rest
       end.
Proof.
  intros Ht Hx Hlen. unfold list_value_changes, retained.
  rewrite Ht, Hx, mask_select_filter.
  destruct (mask_select_combine np_ne_zero t x Hlen) as [E1 E2].
  rewrite E1. cbn [bind]. rewrite E2.
  set (samples := filter (fun s => np_ne_zero (fst s)) (combine t x)).
  destruct samples as [|[t0 x0] rest] eqn:S; [reflexivity|].
  cbn [map fst snd]. f_equal. f_equal.
  pose proof (@take_change_indices (t0 :: map fst rest) (x0 :: map snd rest)
                (x0 :: map snd rest) (t0 :: map fst rest) 0 eq_refl eq_refl) as K.
  rewrite K by (simpl; now rewrite !length_map).
  f_equal. clear. induction rest as [|[a b] rest IH]; simpl; [reflexivity|].
  now rewrite IH.
Qed.

(** C5.  For a decoded topic of which the records with a non-zero
    timestamp hold, in record order, the values [5,5,5,7,7,3] of the
    field, [list_value_changes] returns exactly the (timestamp, value)
    pairs of the records 0, 3 and 5 of these: the first record with a
    non-zero timestamp and every one whose value differs from that of the
    retained record before it.  The records with timestamp 0 are
    excluded, wherever they stand among the others and whatever they
    hold.  The timestamps need not even increase.  [elem] gives the
    element of the column's type for a number: two elements differ
    exactly when the numbers do. *)
Theorem value_changes_example
  (self : Data) (fname : string) (t x : list npval)
  (elem : Z -> npval) (t0 t1 t2 t3 t4 t5 : npval)
  (Ht : dict_get String.eqb "timestamp" (data self) = Some t)
  (Hx : dict_get String.eqb fname (data self) = Some x)
  (Hlen : List.length t = List.length x)
  (Helem : forall i j, np_ne (elem i) (elem j) = negb (i =? j))
  (Hretained : retained t x
               = combine [t0; t1; t2; t3; t4; t5]
                         (map elem [5; 5; 5; 7; 7; 3])) :
  list_value_changes self fname
  = Ok [(t0, elem 5); (t3, elem 7); (t5, elem 3)].
Proof.
  rewrite (@list_value_changes_samples self fname t x Ht Hx Hlen), Hretained.
  cbn [combine map keep_changes]. rewrite !Helem. reflexivity.
Qed.

(** The six records stamped 10 to 60, alone and with three records
    stamped 0 among them (one of them, with the value 1, between two
    records that hold 5): the answer is the same. *)
Lemma value_changes_example_witness :
  list_value_changes plain_topic "x"
  = Ok [(NpInt 10, NpInt 5); (NpInt 40, NpInt 7); (NpInt 60, NpInt 3)]
  /\ list_value_changes gapped_topic "x"
     = Ok [(NpInt 10, NpInt 5); (NpInt 40, NpInt 7); (NpInt 60, NpInt 3)].
Proof.
  split.
  - apply (@value_changes_example plain_topic "x"
             (map NpInt [10; 20; 30; 40; 50; 60])
             (map NpInt [5; 5; 5; 7; 7; 3]) NpInt
             (NpInt 10) (NpInt 20) (NpInt 30) (NpInt 40) (NpInt 50) (NpInt 60));
      reflexivity.
  - apply (@value_changes_example gapped_topic "x"
             (map NpInt [0; 10; 20; 0; 30; 40; 50; 0; 60])
             (map NpInt [9; 5; 5; 1; 5; 7; 7; 7; 3]) NpInt
             (NpInt 10) (NpInt 20) (NpInt 30) (NpInt 40) (NpInt 50) (NpInt 60));
      reflexivity.
Defined.

(* ================================================================== *)
(** ** Info and Parameter messages                                     *)
(* ================================================================== *)

Lemma byte_val_of_Z (z : Z) : byte_val (byte_of_Z z) = z mod 256.
Proof.
  unfold byte_of_Z, byte_val.
  pose proof (Z.mod_pos_bound z 256 ltac:(lia)) as B.
  destruct (Byte.of_N (Z.to_N (z mod 256))) as [b|] eqn:E.
  - apply Byte.to_of_N in E. rewrite E. lia.
  - apply Byte.of_N_None_iff in E. lia.
Qed.

Lemma le_uint_le_bytes (n : nat) :
  forall z, le_uint (le_bytes n z) = z mod 256 ^ Z.of_nat n.
Proof.
  induction n as [|n IH]; intros z.
  - simpl. now rewrite Z.mod_1_r.
  - cbn [le_bytes le_uint]. rewrite IH, byte_val_of_Z.
    rewrite Nat2Z.inj_succ, Z.pow_succ_r by lia.
    rewrite Z.rem_mul_r by lia. lia.
Qed.

Lemma le_bytes_length (n : nat) : forall z, List.length (le_bytes n z) = n.
Proof. induction n as [|n IH]; intros z; simpl; [reflexivity | now rewrite IH]. Qed.

Lemma list_byte_of_string_length (s : string) :
  List.length (list_byte_of_string s) = String.length s.
Proof.
  unfold list_byte_of_string. rewrite length_map.
  induction s as [|c s IH]; simpl; [reflexivity | now rewrite IH].
Qed.

Lemma parse_string_of_string (s : string) :
  ascii7 s = true -> _parse_string (list_byte_of_string s) = Ok s.
Proof.
  unfold ascii7, _parse_string. intros ->.
  now rewrite string_of_list_byte_of_string.
Qed.

Lemma split_without (sep : ascii) (s : string) :
  without sep s = true -> split sep s = [s].
Proof.
  unfold without. induction s as [|c s IH]; simpl; [reflexivity|].
  rewrite (Ascii.eqb_sym sep c).
  destruct (Ascii.eqb c sep); simpl; [discriminate|].
  intros H. now rewrite IH.
Qed.

Lemma split_append (sep : ascii) (a b : string) :
  without sep a = true ->
  split sep (a ++ String sep b) = a :: split sep b.
Proof.
  unfold without. induction a as [|c a IH]; simpl.
  - intros _. now rewrite Ascii.eqb_refl.
  - rewrite (Ascii.eqb_sym sep c).
    destruct (Ascii.eqb c sep); simpl; [discriminate|].
    intros H. now rewrite IH.
Qed.

(** X17.  A payload framed as length byte, "type key" text and value is
    taken apart again: for a type and a key without spaces, of 7-bit
    characters and at most 255 characters together, [_MessageInfo] finds
    the type and the key, and the value is decoded from exactly the bytes
    after the text by the rule of the type (text for [char[..]], the
    primitive's format, else the raw bytes). *)
Theorem MessageInfo_framing (ty key : string) (value : bytes)
  (Hty : without " " ty = true) (Hkey : without " " key = true)
  (Hascii : ascii7 (ty ++ " " ++ key) = true)
  (Hlen : (String.length (ty ++ " " ++ key) < 256)%nat) :
  MessageInfo_init (info_payload (ty ++ " " ++ key) value)
  = if startswith ty "char[" then
      v <- _parse_string value ;; Ok (mk_info ty key (PyStr v))
    else
      match prim_of_string ty with
      | Some p => v <- struct_unpack p value ;; Ok (mk_info ty key v)
      | None => Ok (mk_info ty key (PyBytes value))
      end.
Proof.
  set (tk := (ty ++ " " ++ key)%string) in *.
  set (n := String.length tk) in *.
  unfold MessageInfo_init, info_payload. fold n.
  assert (Hb : List.length (list_byte_of_string tk) = n)
    by apply list_byte_of_string_length.
  assert (U : unpack_ubyte
                (slice 0 1 ([byte_of_Z (Z.of_nat n)]
                              ++ list_byte_of_string tk ++ value))
              = Ok (Z.of_nat n)).
  { change (slice 0 1 ([byte_of_Z (Z.of_nat n)] ++ list_byte_of_string tk ++ value))
      with [byte_of_Z (Z.of_nat n)].
    unfold unpack_ubyte, unpack_exact. cbn [List.length Nat.eqb bind le_uint].
    rewrite byte_val_of_Z, Z.mod_small by lia. f_equal. lia. }
  rewrite U. cbn [bind]. rewrite Nat2Z.id.
  assert (S1 : slice 1 (1 + n) ([byte_of_Z (Z.of_nat n)]
                                  ++ list_byte_of_string tk ++ value)
               = list_byte_of_string tk).
  { unfold slice. replace (1 + n - 1)%nat with n by lia.
    cbn [app skipn]. rewrite firstn_app, Hb, Nat.sub_diag.
    rewrite firstn_all2 by lia. cbn [firstn]. now rewrite app_nil_r. }
  assert (S2 : slice_from (1 + n) ([byte_of_Z (Z.of_nat n)]
                                     ++ list_byte_of_string tk ++ value)
               = value).
  { unfold slice_from. cbn [app Nat.add skipn].
    rewrite skipn_app, Hb, Nat.sub_diag. rewrite skipn_all2 by lia. reflexivity. }
  rewrite S1, S2, (@parse_string_of_string _ Hascii). cbn [bind].
  subst tk. change (" " ++ key)%string with (String " " key).
  rewrite (@split_append " " ty key Hty), (@split_without " " key Hkey).
  reflexivity.
Qed.

(** The parameter [int32_t MC_ROLL_P] with the value -3. *)
Lemma MessageInfo_framing_witness :
  MessageInfo_init (info_payload "int32_t MC_ROLL_P" (le_bytes 4 (-3)))
  = Ok (mk_info "int32_t" "MC_ROLL_P" (PyInt (-3))).
Proof.
  change "int32_t MC_ROLL_P" with ("int32_t" ++ " " ++ "MC_ROLL_P")%string.
  rewrite (@MessageInfo_framing "int32_t" "MC_ROLL_P" (le_bytes 4 (-3))
             eq_refl eq_refl eq_refl).
  - reflexivity.
  - vm_compute. lia.
Defined.

(** Evaluate the powers of constants in the goal. *)
Ltac pow_consts :=
  repeat match goal with
         | |- context [?b ^ ?e] =>
             let v := eval vm_compute in (b ^ e) in
             progress change (b ^ e) with v
         end.

Lemma le_uint_le_bytes_small (n : nat) (z : Z) :
  0 <= z < 256 ^ Z.of_nat n -> le_uint (le_bytes n z) = z.
Proof. intros H. rewrite le_uint_le_bytes. now apply Z.mod_small. Qed.

Lemma le_int_le_bytes (n : nat) (z : Z) :
  (0 < n)%nat ->
  - 2 ^ (8 * Z.of_nat n - 1) <= z < 2 ^ (8 * Z.of_nat n - 1) ->
  le_int (le_bytes n z) = z.
Proof.
  intros Hn Hz. unfold le_int. rewrite le_uint_le_bytes, le_bytes_length.
  cbv zeta.
  assert (P : 256 ^ Z.of_nat n = 2 * 2 ^ (8 * Z.of_nat n - 1)).
  { change 256 with (2 ^ 8). rewrite <- Z.pow_mul_r by lia.
    rewrite <- Z.pow_succ_r by lia. f_equal. lia. }
  assert (Q : 2 ^ (8 * Z.of_nat n) = 2 * 2 ^ (8 * Z.of_nat n - 1)).
  { rewrite <- Z.pow_succ_r by lia. f_equal. lia. }
  rewrite P, Q. set (M := 2 ^ (8 * Z.of_nat n - 1)) in *.
  assert (HM : 0 < M) by (apply Z.pow_pos_nonneg; lia).
  destruct (Z.neg_nonneg_cases z) as [Hneg | Hpos].
  - assert (E : z mod (2 * M) = z + 2 * M).
    { rewrite <- (Z.mod_add z 1 (2 * M)) by lia.
      rewrite Z.mod_small by lia. lia. }
    rewrite E. destruct (Z.ltb_spec (z + 2 * M) M); lia.
  - rewrite Z.mod_small by lia. destruct (Z.ltb_spec z M); lia.
Qed.

(** X18.  An integer written little-endian in the width of its type, and
    within the range of the type, is read back as itself, both as the
    value of an Info or Parameter message and as an element of a decoded
    column (two's complement for the signed types). *)
Theorem integer_value_roundtrip (p : prim) (lo hi z : Z)
  (Hint : int_range p = Some (lo, hi))
  (Hz : lo <= z < hi) :
  struct_unpack p (le_bytes (unpack_size p) z) = Ok (PyInt z)
  /\ np_decode (unpack_np p) (le_bytes (unpack_size p) z) = NpInt z.
Proof.
  unfold struct_unpack, unpack_exact. rewrite le_bytes_length, Nat.eqb_refl.
  cbn [bind].
  destruct p; inversion Hint; subst lo hi; clear Hint;
    cbn [unpack_size unpack_np _UNPACK_TYPES fst snd np_decode];
    first
      [ rewrite le_int_le_bytes; [split; reflexivity | lia | pow_consts; lia]
      | rewrite le_uint_le_bytes_small; [split; reflexivity | pow_consts; lia] ].
Qed.

Lemma integer_value_roundtrip_witness :
  struct_unpack Tint16 (le_bytes 2 (-2)) = Ok (PyInt (-2))
  /\ np_decode np_uint32 (le_bytes 4 4000000000) = NpInt 4000000000.
Proof.
  split.
  - apply (proj1 (@integer_value_roundtrip Tint16 (-32768) 32768 (-2) eq_refl
                    ltac:(lia))).
  - apply (proj2 (@integer_value_roundtrip Tuint32 0 4294967296 4000000000 eq_refl
                    ltac:(lia))).
Defined.

(* ================================================================== *)
(** ** The fields of a Format message                                  *)
(* ================================================================== *)

Lemma int_digits_of_uint (d : Decimal.uint) :
  forall acc, 0 <= acc ->
    int_digits (list_ascii_of_string (DecimalString.NilEmpty.string_of_uint d))
      acc true
    = Some (Z.of_nat (Nat.of_uint_acc d (Z.to_nat acc))).
Proof.
  induction d; intros acc Hacc; cbn [DecimalString.NilEmpty.string_of_uint
    list_ascii_of_string int_digits Nat.of_uint_acc];
    [f_equal; lia|..];
    match goal with
    | |- context [digit_val ?c] =>
        let v := eval vm_compute in (digit_val c) in change (digit_val c) with v
    end; cbv iota beta;
    rewrite IHd by lia; rewrite Nat.tail_mul_spec; do 3 f_equal; lia.
Qed.

Lemma digits_of_uint (d : Decimal.uint) :
  Forall (fun c => is_digit c = true)
         (list_ascii_of_string (DecimalString.NilEmpty.string_of_uint d)).
Proof. induction d; simpl; constructor; try reflexivity; assumption. Qed.

Lemma str_of_nat_digits (n : nat) :
  Forall (fun c => is_digit c = true) (list_ascii_of_string (str_of_nat n))
  /\ list_ascii_of_string (str_of_nat n) <> [].
Proof.
  unfold str_of_nat, DecimalString.NilZero.string_of_uint.
  destruct (Nat.to_uint n) eqn:E;
    try (split; [apply digits_of_uint | simpl; discriminate]).
  split; [repeat constructor | discriminate].
Qed.

Lemma lstrip_digits (l : list ascii) :
  Forall (fun c => is_digit c = true) l -> lstrip l = l.
Proof.
  destruct l as [|c l]; intros H; [reflexivity|]. simpl.
  inversion H as [|x y Hc _]; subst.
  assert (S : is_space c = false).
  { unfold is_digit, digit_val in Hc. unfold is_space.
    destruct (Nat.leb 48 (nat_of_ascii c) && Nat.leb (nat_of_ascii c) 57) eqn:D;
      [|discriminate].
    apply andb_true_iff in D as [D1 D2].
    apply Nat.leb_le in D1. apply Nat.leb_le in D2.
    destruct (Nat.leb_spec 9 (nat_of_ascii c));
      destruct (Nat.leb_spec (nat_of_ascii c) 13);
      destruct (Nat.eqb_spec (nat_of_ascii c) 32); simpl; try reflexivity; lia. }
  now rewrite S.
Qed.

Lemma list_ascii_of_string_length (s : string) :
  List.length (list_ascii_of_string s) = String.length s.
Proof. induction s as [|x s IH]; simpl; [reflexivity | now rewrite IH]. Qed.

Lemma digit_count_digits (l : list ascii) :
  Forall (fun c => is_digit c = true) l -> digit_count l = List.length l.
Proof.
  unfold digit_count. induction 1 as [|c l Hc _ IH]; [reflexivity|].
  cbn [filter]. unfold is_digit in Hc.
  destruct (digit_val c); [|discriminate]. cbn [List.length]. now rewrite IH.
Qed.

(** [int(str(n))] is [n] as long as [str(n)] has no more digits than
    [int] converts. *)
Lemma py_int_str_of_nat (n : nat) :
  (String.length (str_of_nat n) <= int_max_str_digits)%nat ->
  py_int (str_of_nat n) = Ok (Z.of_nat n).
Proof.
  intros Hlimit.
  destruct (str_of_nat_digits n) as [D N].
  unfold py_int, strip. rewrite (lstrip_digits D).
  rewrite lstrip_digits by (apply Forall_rev; exact D).
  rewrite rev_involutive.
  assert (V : int_digits (list_ascii_of_string (str_of_nat n)) 0 false
              = Some (Z.of_nat n)).
  { unfold str_of_nat, DecimalString.NilZero.string_of_uint.
    pose proof (DecimalNat.Unsigned.of_to n) as OT. unfold Nat.of_uint in OT.
    destruct (Nat.to_uint n) as [|d|d|d|d|d|d|d|d|d|d] eqn:E;
      [simpl in OT; subst n; reflexivity|..];
      cbn [DecimalString.NilEmpty.string_of_uint list_ascii_of_string int_digits];
      match goal with
      | |- context [digit_val ?c] =>
          let v := eval vm_compute in (digit_val c) in change (digit_val c) with v
      end; cbv iota beta;
      rewrite int_digits_of_uint by lia;
      cbn [Nat.of_uint_acc] in OT;
      rewrite <- OT; reflexivity. }
  assert (C : digit_count (list_ascii_of_string (str_of_nat n))
              = String.length (str_of_nat n)).
  { rewrite (digit_count_digits D). apply list_ascii_of_string_length. }
  destruct (list_ascii_of_string (str_of_nat n)) as [|c r] eqn:L; [contradiction|].
  inversion D as [|x y Hc _]; subst.
  assert (Sg : Ascii.eqb c "-" = false /\ Ascii.eqb c "+" = false).
  { unfold is_digit, digit_val in Hc.
    destruct (Nat.leb 48 (nat_of_ascii c) && Nat.leb (nat_of_ascii c) 57) eqn:Dg;
      [|discriminate].
    apply andb_true_iff in Dg as [D1 D2]. apply Nat.leb_le in D1.
    split; apply Ascii.eqb_neq; intros ->; vm_compute in D1; lia. }
  destruct Sg as [-> ->]. rewrite V, C.
  destruct (Nat.ltb_spec int_max_str_digits (String.length (str_of_nat n)));
    [lia|]. f_equal. lia.
Qed.

Lemma find_char_without (c : ascii) (s : string) :
  without c s = true -> find_char c s = -1.
Proof.
  unfold without. induction s as [|d s IH]; simpl; [reflexivity|].
  rewrite (Ascii.eqb_sym c d). destruct (Ascii.eqb d c); simpl; [discriminate|].
  intros H. rewrite IH by exact H. reflexivity.
Qed.

Lemma find_char_append (c : ascii) (a b : string) :
  without c a = true ->
  find_char c (a ++ String c b) = Z.of_nat (String.length a).
Proof.
  unfold without. induction a as [|d a IH]; intros H.
  - simpl. now rewrite Ascii.eqb_refl.
  - cbn [append find_char String.length]. simpl in H.
    rewrite (Ascii.eqb_sym c d) in H.
    destruct (Ascii.eqb d c); simpl in H; [discriminate|].
    rewrite IH by exact H.
    destruct (Z.ltb_spec (Z.of_nat (String.length a)) 0); lia.
Qed.

Lemma list_ascii_of_string_append (a b : string) :
  list_ascii_of_string (a ++ b)
  = list_ascii_of_string a ++ list_ascii_of_string b.
Proof. induction a as [|x a IH]; simpl; [reflexivity | now rewrite IH]. Qed.


Lemma without_append (c : ascii) (a b : string) :
  without c (a ++ b) = without c a && without c b.
Proof.
  unfold without. rewrite list_ascii_of_string_append, existsb_app.
  now rewrite negb_orb.
Qed.

Lemma string_length_append (a b : string) :
  String.length (a ++ b) = (String.length a + String.length b)%nat.
Proof. induction a as [|x a IH]; simpl; [reflexivity | now rewrite IH]. Qed.

Lemma str_slice_middle (a m b : string) :
  str_slice (Z.of_nat (String.length a))
            (Z.of_nat (String.length a + String.length m)) (a ++ m ++ b) = m.
Proof.
  unfold str_slice, slice.
  destruct (Z.ltb_spec (Z.of_nat (String.length a + String.length m)) 0); [lia|].
  rewrite !Nat2Z.id, !list_ascii_of_string_append.
  replace (String.length a + String.length m - String.length a)%nat
    with (String.length m) by lia.
  rewrite <- (list_ascii_of_string_length a), skipn_app, skipn_all, Nat.sub_diag.
  cbn [skipn app].
  rewrite <- (list_ascii_of_string_length m), firstn_app, firstn_all, Nat.sub_diag.
  cbn [firstn]. rewrite app_nil_r. apply string_of_list_ascii_of_string.
Qed.

Lemma digits_without (c : ascii) (s : string) :
  is_digit c = false ->
  Forall (fun x => is_digit x = true) (list_ascii_of_string s) ->
  without c s = true.
Proof.
  intros Hc. unfold without. induction 1 as [|x l Hx _ IH]; [reflexivity|].
  simpl. destruct (Ascii.eqb_spec c x) as [->|_]; [congruence|]. exact IH.
Qed.

Lemma extract_type_spelt (t f : string) (n : nat)
  (Hsp : without " " t = true) (Hopen : without "[" t = true)
  (Hclose : without "]" t = true) (Hname : without " " f = true)
  (Hdigits : (String.length (str_of_nat n) <= int_max_str_digits)%nat) :
  _extract_type (scalar_field_text t f) = Ok (t, 1, f)
  /\ _extract_type (array_field_text t n f) = Ok (t, Z.of_nat n, f).
Proof.
  split.
  - unfold _extract_type, scalar_field_text.
    change (t ++ " " ++ f)%string with (t ++ String " " f)%string.
    rewrite (@split_append _ _ _ Hsp), (@split_without _ _ Hname).
    cbn [list_index nth_error bind].
    now rewrite (@find_char_without _ _ Hopen).
  - destruct (str_of_nat_digits n) as [D _].
    set (ds := str_of_nat n) in *.
    assert (Hd_sp : without " " ds = true) by (now apply digits_without).
    assert (Hd_cl : without "]" ds = true) by (now apply digits_without).
    unfold _extract_type, array_field_text. fold ds.
    replace (t ++ "[" ++ ds ++ "] " ++ f)%string
      with ((t ++ "[" ++ ds ++ "]") ++ String " " f)%string
      by (now rewrite !string_append_assoc).
    assert (Hty : without " " (t ++ "[" ++ ds ++ "]") = true).
    { rewrite !without_append, Hsp, Hd_sp. reflexivity. }
    rewrite (@split_append _ _ _ Hty), (@split_without _ _ Hname).
    cbn [list_index nth_error bind].
    change (t ++ "[" ++ ds ++ "]")%string
      with (t ++ String "[" (ds ++ "]"))%string at 1 3.
    rewrite (@find_char_append _ _ _ Hopen).
    destruct (Z.eqb_spec (Z.of_nat (String.length t)) (-1)) as [E|_]; [lia|].
    replace (t ++ "[" ++ ds ++ "]")%string
      with ((t ++ "[" ++ ds) ++ String "]" "")%string at 1
      by (now rewrite !string_append_assoc).
    assert (Hcl : without "]" (t ++ "[" ++ ds) = true).
    { rewrite !without_append, Hclose, Hd_cl. reflexivity. }
    rewrite (@find_char_append _ _ _ Hcl).
    replace (Z.of_nat (String.length t) + 1)
      with (Z.of_nat (String.length (t ++ "["))) at 1
      by (rewrite string_length_append; simpl; lia).
    replace (String.length (t ++ "[" ++ ds))
      with (String.length (t ++ "[") + String.length ds)%nat
      by (rewrite !string_length_append; simpl; lia).
    replace (t ++ "[" ++ ds ++ "]")%string
      with ((t ++ "[") ++ ds ++ "]")%string at 1
      by (now rewrite !string_append_assoc).
    rewrite str_slice_middle. unfold ds at 1.
    rewrite py_int_str_of_nat by exact Hdigits.
    cbn [bind].
    pose proof (@str_slice_middle "" t (String "[" (ds ++ "]"))) as S0.
    cbn [String.length append Nat.add] in S0.
    change (Z.of_nat 0) with 0 in S0.
    change (t ++ "[" ++ ds ++ "]")%string
      with (t ++ String "[" (ds ++ "]"))%string.
    now rewrite (@find_char_append _ _ _ Hopen), S0.
Qed.

(** X19.  A field spelt by a writer is read back: [type name] gives the
    type, array size 1 and the name; [type[n] name] gives the type, the
    size [n] and the name -- for a type without space or bracket, a name
    without space and a size [n] whose decimal text has at most 4300
    digits, the most that [int] converts. *)
Theorem extract_type_roundtrip (t f : string) (n : nat)
  (Hsp : without " " t = true) (Hopen : without "[" t = true)
  (Hclose : without "]" t = true) (Hname : without " " f = true)
  (Hdigits : (String.length (str_of_nat n) <= int_max_str_digits)%nat) :
  _extract_type (scalar_field_text t f) = Ok (t, 1, f)
  /\ _extract_type (array_field_text t n f) = Ok (t, Z.of_nat n, f).
Proof. exact (@extract_type_spelt t f n Hsp Hopen Hclose Hname Hdigits). Qed.

Lemma extract_type_roundtrip_witness :
  _extract_type (scalar_field_text "float" "x") = Ok ("float", 1, "x")
  /\ _extract_type (array_field_text "uint8_t" 12 "_padding0")
     = Ok ("uint8_t", 12, "_padding0").
Proof.
  split.
  - refine (proj1 (@extract_type_roundtrip "float" "x" 0
                     eq_refl eq_refl eq_refl eq_refl _)).
    apply Nat.leb_le. reflexivity.
  - refine (proj2 (@extract_type_roundtrip "uint8_t" "_padding0" 12
                     eq_refl eq_refl eq_refl eq_refl _)).
    apply Nat.leb_le. reflexivity.
Defined.

(* ================================================================== *)
(** ** The text of a Format message                                    *)
(* ================================================================== *)

Lemma spelt_field_text (d : field_decl) :
  spelt d = true ->
  without ";" (field_text d) = true
  /\ without ":" (field_text d) = true
  /\ (0 <? String.length (field_text d))%nat = true
  /\ _extract_type (field_text d) = Ok (field_entry d).
Proof.
  destruct d as [[t n] f]. unfold spelt. cbn [forallb].
  rewrite !andb_true_iff.
  intros [[(Hsp & Hopen & Hclose & Hsemi & Hcolon & _) (Hfsp & Hfsemi & Hfcolon & _)]
          Hn].
  assert (Hdigits : (String.length
                       (str_of_nat (match n with Some n => n | None => O end))
                     <= int_max_str_digits)%nat).
  { destruct n as [n|]; apply Nat.leb_le; [exact Hn | reflexivity]. }
  destruct (@extract_type_spelt t f (match n with Some n => n | None => O end)
              Hsp Hopen Hclose Hfsp Hdigits) as [Hs Ha].
  destruct n as [n|]; cbn [field_text field_entry].
  - destruct (str_of_nat_digits n) as [D _].
    unfold array_field_text in *.
    rewrite !without_append, Hsemi, Hcolon, Hfsemi, Hfcolon.
    rewrite !(@digits_without _ (str_of_nat n)) by (reflexivity || exact D).
    repeat split; try reflexivity; [|exact Ha].
    rewrite !string_length_append. apply Nat.ltb_lt. simpl. lia.
  - unfold scalar_field_text in *.
    rewrite !without_append, Hsemi, Hcolon, Hfsemi, Hfcolon.
    repeat split; try reflexivity; [|exact Hs].
    rewrite !string_length_append. apply Nat.ltb_lt. simpl. lia.
Qed.

Lemma fields_text_split (ds : list field_decl) :
  forallb spelt ds = true ->
  split ";" (fields_text ds) = map field_text ds ++ [""%string]
  /\ without ":" (fields_text ds) = true.
Proof.
  induction ds as [|d ds IH]; [intros _; split; reflexivity|].
  cbn [forallb fields_text fold_right map app]. rewrite andb_true_iff.
  intros [Hd Hds]. destruct (IH Hds) as [IH1 IH2].
  destruct (@spelt_field_text d Hd) as (Hsemi & Hcolon & _ & _).
  fold (fields_text ds). split.
  - change (field_text d ++ ";" ++ fields_text ds)%string
      with (field_text d ++ String ";" (fields_text ds))%string.
    now rewrite (@split_append _ _ _ Hsemi), IH1.
  - now rewrite !without_append, Hcolon, IH2.
Qed.

Lemma extract_fields_texts (ds : list field_decl) :
  forallb spelt ds = true ->
  extract_fields (map field_text ds ++ [""%string]) = Ok (map field_entry ds).
Proof.
  induction ds as [|d ds IH]; [intros _; reflexivity|].
  cbn [forallb map app extract_fields]. rewrite andb_true_iff.
  intros [Hd Hds]. destruct (@spelt_field_text d Hd) as (_ & _ & Hlen & Hx).
  change (Nat.ltb 0 (String.length (field_text d)))
    with (0 <? String.length (field_text d))%nat.
  now rewrite Hlen, Hx, (IH Hds).
Qed.

Lemma MessageFormat_init_text (name : string) (ds : list field_decl)
  (Hname : without ":" name = true)
  (Hds : forallb spelt ds = true)
  (Hascii : ascii7 (format_text name ds) = true) :
  MessageFormat_init (list_byte_of_string (format_text name ds))
  = Ok (mk_format name (map field_entry ds)).
Proof.
  unfold MessageFormat_init. rewrite (@parse_string_of_string _ Hascii).
  cbn [bind]. unfold format_text.
  destruct (@fields_text_split ds Hds) as [Hsplit Hcolon].
  change (name ++ ":" ++ fields_text ds)%string
    with (name ++ String ":" (fields_text ds))%string.
  rewrite (@split_append _ _ _ Hname), (@split_without _ _ Hcolon).
  cbn [list_index nth_error bind].
  now rewrite Hsplit, (@extract_fields_texts ds Hds).
Qed.

(** X20.  The text [name:field;field;...;] of a Format message is read
    back as the name and the list of (type, array size, name) entries, in
    order, when the text is 7-bit, the name has no colon, the types and
    field names hold none of the separators and every array size is
    written in at most 4300 digits, the most that [int] converts. *)
Theorem MessageFormat_roundtrip (name : string) (ds : list field_decl)
  (Hname : without ":" name = true)
  (Hds : forallb spelt ds = true)
  (Hascii : ascii7 (format_text name ds) = true) :
  MessageFormat_init (list_byte_of_string (format_text name ds))
  = Ok (mk_format name (map field_entry ds)).
Proof. exact (@MessageFormat_init_text name ds Hname Hds Hascii). Qed.

Lemma MessageFormat_roundtrip_witness :
  MessageFormat_init
    (list_byte_of_string
       (format_text "vehicle_status"
          [("uint64_t", None, "timestamp"); ("float", Some 3%nat, "pos");
           ("uint8_t", Some 4%nat, "_padding0")]))
  = Ok (mk_format "vehicle_status"
          [("uint64_t", 1, "timestamp"); ("float", 3, "pos");
           ("uint8_t", 4, "_padding0")]).
Proof.
  exact (@MessageFormat_roundtrip "vehicle_status"
           [("uint64_t", None, "timestamp"); ("float", Some 3%nat, "pos");
            ("uint8_t", Some 4%nat, "_padding0")] eq_refl eq_refl eq_refl).
Defined.

(* ================================================================== *)
(** ** Framed messages                                                 *)
(* ================================================================== *)

(** A message as a writer frames it is taken apart again: the envelope
    gives the length and the type, the payload follows, the rest is left. *)
Lemma message_envelope (ty : Z) (payload rest : bytes) :
  0 <= ty < 256 -> Z.of_nat (List.length payload) < 65536 ->
  header_initialize (firstn 3 (message ty payload ++ rest))
  = Ok (mk_header (Z.of_nat (List.length payload)) ty)
  /\ firstn (List.length payload) (skipn 3 (message ty payload ++ rest)) = payload
  /\ skipn (List.length payload) (skipn 3 (message ty payload ++ rest)) = rest.
Proof.
  intros Hty Hlen. unfold message. cbn [le_bytes app firstn skipn].
  repeat split.
  - unfold header_initialize, _unpack_ushort_byte, unpack_exact.
    cbn [List.length Nat.eqb bind firstn skipn le_uint].
    rewrite !byte_val_of_Z. do 2 f_equal.
    + set (n := Z.of_nat (List.length payload)).
      assert (0 <= n < 65536) by lia.
      Z.div_mod_to_equations. lia.
    + rewrite Z.mod_small; lia.
  - rewrite firstn_app, firstn_all, Nat.sub_diag. cbn [firstn]. apply app_nil_r.
  - now rewrite skipn_app, skipn_all, Nat.sub_diag.
Qed.

Lemma sdict_get_set_same {V} (k : string) (v : V) (d : dict string V) :
  dict_get String.eqb k (dict_set String.eqb k v d) = Some v.
Proof.
  induction d as [|[k' v'] d IH]; simpl.
  - now rewrite String.eqb_refl.
  - destruct (String.eqb k k') eqn:E; simpl; rewrite ?String.eqb_refl, ?E; auto.
Qed.

Lemma sdict_get_set_other {V} (k k' : string) (v : V) (d : dict string V) :
  k' <> k ->
  dict_get String.eqb k' (dict_set String.eqb k v d) = dict_get String.eqb k' d.
Proof.
  intros Hne. induction d as [|[k0 v0] d IH]; simpl.
  - destruct (String.eqb_spec k' k); [contradiction | reflexivity].
  - destruct (String.eqb_spec k k0) as [-> | N]; simpl.
    + destruct (String.eqb_spec k' k0); [contradiction | reflexivity].
    + destruct (String.eqb k' k0); [reflexivity | exact IH].
Qed.

(** X21.  A Format message in the definitions section registers its
    type, when its text is shorter than 65536 bytes, 7-bit, with a name
    without colon, types and field names without separators and array
    sizes of at most 4300 digits: after the pass the registry answers the
    message's name with the entries of its fields, in order, the other
    names answer as before, and the file stands right after the
    message. *)
Theorem format_message_registered
  (self : ULog) (name : string) (ds : list field_decl) (rest : bytes)
  (Hstream : remaining (_file_handle self)
             = format_message (format_text name ds) ++ rest)
  (Hname : without ":" name = true)
  (Hds : forallb spelt ds = true)
  (Hascii : ascii7 (format_text name ds) = true)
  (Hlen : Z.of_nat (String.length (format_text name ds)) < 65536) :
  exists self',
    definitions_step self = inl self'
    /\ dict_get String.eqb name (_message_formats self')
       = Some (mk_format name (map field_entry ds))
    /\ (forall other, other <> name ->
          dict_get String.eqb other (_message_formats self')
          = dict_get String.eqb other (_message_formats self))
    /\ remaining (_file_handle self') = rest.
Proof.
  set (payload := list_byte_of_string (format_text name ds)) in *.
  assert (Lp : List.length payload = String.length (format_text name ds))
    by apply list_byte_of_string_length.
  destruct (@message_envelope MSG_TYPE_FORMAT payload rest)
    as (Hh & Hp & Hr); [unfold MSG_TYPE_FORMAT; lia | lia |].
  unfold format_message in Hstream. fold payload in Hstream.
  rewrite <- Hstream in Hh, Hp, Hr.
  unfold definitions_step.
  rewrite (surjective_pairing (read 3 (_file_handle self))), read_data.
  pose proof (header_initialize_ok _ Hh) as L3.
  destruct (firstn 3 (remaining (_file_handle self))) as [|b0 d3] eqn:E3;
    [discriminate L3|].
  rewrite Hh.
  change (_file_handle (set_file_handle ?f self)) with f.
  cbn [msg_size msg_type]. rewrite Nat2Z.id.
  rewrite (surjective_pairing (read (List.length payload) _)).
  rewrite read_data, read_remaining, Hp.
  change (MSG_TYPE_FORMAT =? MSG_TYPE_INFO) with false.
  change (MSG_TYPE_FORMAT =? MSG_TYPE_FORMAT) with true.
  cbv iota. unfold payload.
  rewrite (@MessageFormat_init_text name ds Hname Hds Hascii).
  eexists. split; [reflexivity|]. cbn [_message_formats set_message_formats
    _file_handle set_file_handle format_name].
  split; [apply sdict_get_set_same|].
  split; [intros other Hne; now apply sdict_get_set_other|].
  now rewrite !read_remaining.
Qed.

Lemma format_message_registered_witness :
  exists self',
    definitions_step
      (ULog_new (mk_file (format_message "t:uint64_t timestamp;float[3] x;"
                            ++ [x01; x02]) 0))
    = inl self'
    /\ dict_get String.eqb "t" (_message_formats self')
       = Some (mk_format "t" [("uint64_t", 1, "timestamp"); ("float", 3, "x")])
    /\ remaining (_file_handle self') = [x01; x02].
Proof.
  destruct (@format_message_registered
              (ULog_new (mk_file (format_message "t:uint64_t timestamp;float[3] x;"
                                    ++ [x01; x02]) 0))
              "t" [("uint64_t", None, "timestamp"); ("float", Some 3%nat, "x")]
              [x01; x02] eq_refl eq_refl eq_refl eq_refl)
    as (s & H1 & H2 & _ & H4).
  - vm_compute. reflexivity.
  - exists s. repeat split; assumption.
Defined.

(** The pass of the data loop over a framed message. *)
Lemma data_step_message flt ts self ty payload rest :
  remaining (_file_handle self) = message ty payload ++ rest ->
  0 <= ty < 256 -> Z.of_nat (List.length payload) < 65536 ->
  let moved :=
    set_file_handle
      (snd (read (List.length payload) (snd (read 3 (_file_handle self))))) self in
  remaining (_file_handle moved) = rest
  /\ data_step flt ts self
     = match data_dispatch flt (mk_header (Z.of_nat (List.length payload)) ty)
               payload ts moved with
       | (s, t, None) => Continue s t
       | (s, _, Some e) => Raised s e
       end.
Proof.
  intros Hstream Hty Hlen. cbv zeta.
  destruct (@message_envelope ty payload rest Hty Hlen) as (Hh & Hp & Hr).
  rewrite <- Hstream in Hh, Hp, Hr. split.
  - change (_file_handle (set_file_handle ?f self)) with f.
    now rewrite !read_remaining.
  - rewrite (@data_step_complete flt ts self _ Hh); cbn [msg_size];
      rewrite Nat2Z.id, Hp; [reflexivity | lia].
Qed.

(** X22.  A Dropout message in the data phase: with a payload of two
    bytes the dropout is recorded with the duration written in them and
    the last timestamp the parser has seen so far, and the loop goes on
    after the message; with a payload of any other length the pass raises
    [struct.error] and no dropout is recorded. *)
Theorem dropout_message_recorded
  (flt : name_filter) (self : ULog) (ts : Z) (payload rest : bytes)
  (Hstream : remaining (_file_handle self)
             = message MSG_TYPE_DROPOUT payload ++ rest)
  (Hlen : Z.of_nat (List.length payload) < 65536) :
  (forall duration, 0 <= duration < 65536 ->
     payload = dropout_payload duration ->
     exists self',
       data_step flt ts self = Continue self' ts
       /\ _dropouts self'
          = _dropouts self ++ [mk_dropout duration (_last_timestamp self)]
       /\ _last_timestamp self' = _last_timestamp self
       /\ remaining (_file_handle self') = rest)
  /\ (List.length payload <> 2%nat ->
      exists self',
        data_step flt ts self = Raised self' StructError
        /\ _dropouts self' = _dropouts self).
Proof.
  destruct (@data_step_message flt ts self MSG_TYPE_DROPOUT payload rest Hstream)
    as [Hrest Hstep]; [unfold MSG_TYPE_DROPOUT; lia | exact Hlen |].
  rewrite Hstep. unfold data_dispatch. cbn [msg_type].
  change (MSG_TYPE_DROPOUT =? MSG_TYPE_PARAMETER) with false.
  change (MSG_TYPE_DROPOUT =? MSG_TYPE_ADD_LOGGED_MSG) with false.
  change (MSG_TYPE_DROPOUT =? MSG_TYPE_LOGGING) with false.
  change (MSG_TYPE_DROPOUT =? MSG_TYPE_DATA) with false.
  change (MSG_TYPE_DROPOUT =? MSG_TYPE_DROPOUT) with true.
  cbv iota. unfold MessageDropout_init, _unpack_ushort, unpack_exact.
  split.
  - intros duration Hd ->. unfold dropout_payload.
    rewrite le_bytes_length. cbn [Nat.eqb bind].
    rewrite le_uint_le_bytes_small by (pow_consts; lia).
    eexists. split; [reflexivity|].
    repeat split. exact Hrest.
  - intros Hne.
    destruct (Nat.eqb_spec (List.length payload) 2) as [E|_]; [contradiction|].
    cbn [bind]. eexists. split; reflexivity.
Qed.

(** A dropout of 300 written in two bytes is recorded with the timestamp
    the parser holds; on the stream whose Dropout message carries three
    bytes the data phase ends at it: the Logging message that follows is
    not read. *)
Lemma dropout_message_recorded_witness :
  (exists self',
     data_step None 0
       (set_last_timestamp 42
          (ULog_new (mk_file (message MSG_TYPE_DROPOUT (dropout_payload 300)) 0)))
     = Continue self' 0
     /\ _dropouts self' = [mk_dropout 300 42])
  /\ (exists self',
        data_step None 0 (ULog_new (mk_file long_dropout_stream 0))
        = Raised self' StructError)
  /\ exists final,
       _read_file_data None (ULog_new (mk_file long_dropout_stream 0))
       = Some (final, None)
       /\ _dropouts final = [] /\ _logged_messages final = [].
Proof.
  split; [|split].
  - destruct (proj1 (@dropout_message_recorded None
               (set_last_timestamp 42
                  (ULog_new (mk_file (message MSG_TYPE_DROPOUT (dropout_payload 300)) 0)))
               0 (dropout_payload 300) [] eq_refl eq_refl) 300)
      as (s & H1 & H2 & _); [lia | reflexivity |].
    exists s. split; assumption.
  - destruct (proj2 (@dropout_message_recorded None
               (ULog_new (mk_file long_dropout_stream 0)) 0 [x01; x00; x00]
               (message MSG_TYPE_LOGGING (logging_payload 52 7 "late"))
               eq_refl eq_refl)) as (s & H1 & _); [discriminate|].
    exists s. exact H1.
  - eexists. split; [vm_compute; reflexivity|]. split; reflexivity.
Defined.

(** X23.  A Logging message in the data phase whose payload is a level
    byte, a timestamp of eight bytes and a text: a 7-bit text is recorded
    with the level and the timestamp, in order after the earlier ones; a
    text with a byte above 127 makes the pass raise the decoding error.
    A payload of fewer than nine bytes makes the pass raise
    [struct.error].  In the failing cases nothing is recorded. *)
Theorem logging_message_recorded
  (flt : name_filter) (self : ULog) (ts : Z) (payload rest : bytes)
  (Hstream : remaining (_file_handle self)
             = message MSG_TYPE_LOGGING payload ++ rest)
  (Hlen : Z.of_nat (List.length payload) < 65536) :
  (forall level timestamp text,
     0 <= level < 256 -> 0 <= timestamp < 2 ^ 64 ->
     payload = logging_payload level timestamp text ->
     exists self',
       if ascii7 text then
         data_step flt ts self = Continue self' ts
         /\ _logged_messages self'
            = _logged_messages self ++ [mk_logging level timestamp text]
         /\ remaining (_file_handle self') = rest
       else
         data_step flt ts self = Raised self' UnicodeDecodeError
         /\ _logged_messages self' = _logged_messages self)
  /\ ((List.length payload < 9)%nat ->
      exists self',
        data_step flt ts self = Raised self' StructError
        /\ _logged_messages self' = _logged_messages self).
Proof.
  destruct (@data_step_message flt ts self MSG_TYPE_LOGGING payload rest Hstream)
    as [Hrest Hstep]; [unfold MSG_TYPE_LOGGING; lia | exact Hlen |].
  rewrite Hstep. unfold data_dispatch. cbn [msg_type].
  change (MSG_TYPE_LOGGING =? MSG_TYPE_PARAMETER) with false.
  change (MSG_TYPE_LOGGING =? MSG_TYPE_ADD_LOGGED_MSG) with false.
  change (MSG_TYPE_LOGGING =? MSG_TYPE_LOGGING) with true.
  cbv iota. unfold MessageLogging_init.
  split.
  - intros level timestamp text Hl Ht ->. unfold logging_payload.
    assert (S1 : slice 0 1 ([byte_of_Z level] ++ le_bytes 8 timestamp
                              ++ list_byte_of_string text) = [byte_of_Z level])
      by reflexivity.
    assert (S2 : slice 1 9 ([byte_of_Z level] ++ le_bytes 8 timestamp
                              ++ list_byte_of_string text) = le_bytes 8 timestamp)
      by reflexivity.
    assert (S3 : slice_from 9 ([byte_of_Z level] ++ le_bytes 8 timestamp
                                 ++ list_byte_of_string text)
                 = list_byte_of_string text) by reflexivity.
    rewrite S1, S2, S3.
    unfold unpack_ubyte, _unpack_uint64, unpack_exact.
    rewrite le_bytes_length. cbn [List.length Nat.eqb bind].
    rewrite le_uint_le_bytes_small by (pow_consts; lia).
    cbn [le_uint]. rewrite byte_val_of_Z, Z.mod_small by lia.
    replace (level + 256 * 0) with level by lia.
    unfold _parse_string, ascii7.
    destruct (forallb _ (list_byte_of_string text)).
    + rewrite string_of_list_byte_of_string. eexists.
      split; [reflexivity|]. split; [reflexivity | exact Hrest].
    + eexists. split; reflexivity.
  - intros Hshort.
    destruct payload as [|b0 p]; [eexists; split; reflexivity|].
    change (slice 0 1 (b0 :: p)) with [b0].
    unfold unpack_ubyte at 1, unpack_exact at 1. cbn [List.length Nat.eqb bind].
    unfold _unpack_uint64, unpack_exact, slice.
    rewrite length_firstn, length_skipn.
    cbn [List.length] in Hshort |- *.
    destruct (Nat.eqb_spec (Nat.min (9 - 1) (S (List.length p) - 1)) 8) as [E|_];
      [lia|].
    cbn [bind]. eexists. split; reflexivity.
Qed.

(** A warning text is recorded with its level and timestamp; a text with
    the byte 0xff stops the pass with the decoding error; a payload of
    four bytes stops it with [struct.error]. *)
Lemma logging_message_recorded_witness :
  (exists self',
     data_step None 0
       (ULog_new (mk_file (message MSG_TYPE_LOGGING (logging_payload 52 7 "late")) 0))
     = Continue self' 0
     /\ _logged_messages self' = [mk_logging 52 7 "late"])
  /\ (exists self',
        data_step None 0
          (ULog_new (mk_file (message MSG_TYPE_LOGGING
                                (logging_payload 52 7 (String "255" ""))) 0))
        = Raised self' UnicodeDecodeError)
  /\ exists self',
       data_step None 0
         (ULog_new (mk_file (message MSG_TYPE_LOGGING [x34; x00; x00; x00]) 0))
       = Raised self' StructError.
Proof.
  split; [|split].
  - destruct (proj1 (@logging_message_recorded None
               (ULog_new (mk_file (message MSG_TYPE_LOGGING
                                     (logging_payload 52 7 "late")) 0))
               0 (logging_payload 52 7 "late") [] eq_refl eq_refl) 52 7 "late"%string)
      as (s & H); [lia | pow_consts; lia | reflexivity |].
    exists s. cbn in H. destruct H as (H1 & H2 & _). split; assumption.
  - destruct (proj1 (@logging_message_recorded None
               (ULog_new (mk_file (message MSG_TYPE_LOGGING
                                     (logging_payload 52 7 (String "255" ""))) 0))
               0 (logging_payload 52 7 (String "255" "")) [] eq_refl eq_refl)
               52 7 (String "255" ""))
      as (s & H); [lia | pow_consts; lia | reflexivity |].
    exists s. cbn in H. exact (proj1 H).
  - destruct (proj2 (@logging_message_recorded None
               (ULog_new (mk_file (message MSG_TYPE_LOGGING [x34; x00; x00; x00]) 0))
               0 [x34; x00; x00; x00] [] eq_refl eq_refl))
      as (s & H & _); [simpl; lia|].
    exists s. exact H.
Defined.

(* ================================================================== *)
(** ** Records: accumulation and decoding                              *)
(* ================================================================== *)

Lemma chunks_concat (size : nat) (rs : list bytes) :
  Forall (fun r => List.length r = size) rs ->
  chunks (List.length rs) size (List.concat rs) = rs
  /\ List.length (List.concat rs) = (List.length rs * size)%nat.
Proof.
  induction 1 as [|r rs Hr _ [IH1 IH2]]; [split; reflexivity|].
  cbn [List.concat List.length chunks]. split.
  - rewrite <- Hr at 1 3.
    rewrite firstn_app, firstn_all, Nat.sub_diag.
    rewrite skipn_app, skipn_all, Nat.sub_diag.
    cbn [firstn skipn app]. now rewrite app_nil_r, IH1.
  - rewrite length_app, IH2, Hr. reflexivity.
Qed.

Lemma np_frombuffer_concat (dt : np_dtype) (rs : list bytes) :
  itemsize dt <> 0%nat ->
  Forall (fun r => List.length r = itemsize dt) rs ->
  np_frombuffer (List.concat rs) dt = Ok rs.
Proof.
  intros Hpos Hrs. destruct (@chunks_concat _ _ Hrs) as [C L].
  unfold np_frombuffer. cbv zeta.
  destruct (Nat.eqb_spec (itemsize dt) 0) as [E|_]; [contradiction|].
  rewrite L, Nat.Div0.mod_mul, Nat.div_mul by exact Hpos.
  cbn [Nat.eqb negb]. now rewrite C.
Qed.

Lemma itemsize_app (a b : np_dtype) :
  itemsize (a ++ b) = (itemsize a + itemsize b)%nat.
Proof.
  unfold itemsize. induction a as [|x a IH]; simpl; [reflexivity|].
  rewrite IH. lia.
Qed.

Lemma np_columns_app (records : list bytes) (a b : np_dtype) :
  forall off,
    np_columns (a ++ b) off records
    = np_columns a off records ++ np_columns b (off + itemsize a) records.
Proof.
  induction a as [|[n t] a IH]; intros off; cbn [app np_columns].
  - unfold itemsize. simpl. now rewrite Nat.add_0_r.
  - cbv zeta. rewrite IH. cbn [app]. do 3 f_equal.
    unfold itemsize. simpl. lia.
Qed.

Lemma dict_get_app_fresh {V} (k : string) (a b : dict string V) :
  ~ In k (map fst a) ->
  dict_get String.eqb k (a ++ b) = dict_get String.eqb k b.
Proof.
  induction a as [|[k0 v0] a IH]; intros H; simpl; [reflexivity|].
  destruct (String.eqb_spec k k0) as [-> | N].
  - exfalso. apply H. now left.
  - apply IH. intros Hin. apply H. now right.
Qed.

Lemma Data_init_concat (m : _MessageAddLogged) (rs : list bytes)
  (name : string) (t : np_type) (before after : np_dtype) :
  buffer m = List.concat rs ->
  Forall (fun r => List.length r = itemsize (dtype m)) rs ->
  itemsize (dtype m) <> 0%nat ->
  dtype m = before ++ (name, t) :: after ->
  has_dup (map fst (dtype m)) = false ->
  exists d,
    Data_init m = Ok d
    /\ data_name d = message_name m /\ data_multi_id d = multi_id m
    /\ dict_get String.eqb name (data d) = Some (column t (itemsize before) rs).
Proof.
  intros Hbuf Hrs Hpos Hdt Hnd.
  unfold Data_init. rewrite Hbuf, (@np_frombuffer_concat _ _ Hpos Hrs). cbn [bind].
  eexists. split; [reflexivity|]. cbn [data_name data_multi_id data].
  split; [reflexivity|]. split; [reflexivity|].
  apply has_dup_NoDup in Hnd.
  rewrite fold_dict_set_nodup
    by (cbn [app]; rewrite np_columns_names; exact Hnd).
  cbn [app]. rewrite Hdt, np_columns_app.
  rewrite dict_get_app_fresh.
  - cbn [np_columns dict_get]. cbv zeta. cbn [dict_get].
    rewrite String.eqb_refl. reflexivity.
  - rewrite np_columns_names. rewrite Hdt, map_app in Hnd.
    apply NoDup_remove_2 in Hnd. intros Hin. apply Hnd.
    apply in_or_app. now left.
Qed.

(** X24.  Decoding inverts the accumulation: when the buffer of a
    subscription is the concatenation of records of the dtype's size, the
    topic made of it has, under each field name of the dtype, one value
    per record, in order, decoded from the record's bytes at the offset
    of the field (the sizes of the fields before it). *)
Theorem Data_init_records (m : _MessageAddLogged) (rs : list bytes)
  (name : string) (t : np_type) (before after : np_dtype)
  (Hbuf : buffer m = List.concat rs)
  (Hrs : Forall (fun r => List.length r = itemsize (dtype m)) rs)
  (Hpos : itemsize (dtype m) <> 0%nat)
  (Hdt : dtype m = before ++ (name, t) :: after)
  (Hnd : has_dup (map fst (dtype m)) = false) :
  exists d,
    Data_init m = Ok d
    /\ data_name d = message_name m /\ data_multi_id d = multi_id m
    /\ dict_get String.eqb name (data d) = Some (column t (itemsize before) rs).
Proof. exact (@Data_init_concat m rs name t before after Hbuf Hrs Hpos Hdt Hnd). Qed.

(** The three records of [{uint16_t a; uint64_t timestamp; int8_t b}]:
    the column [b] is read at offset 10. *)
Lemma Data_init_records_witness :
  exists d,
    Data_init (buffer_append mixed_subscription (List.concat mixed_records)) = Ok d
    /\ dict_get String.eqb "b" (data d) = Some [NpInt (-1); NpInt 5; NpInt (-128)].
Proof.
  destruct (@Data_init_records
              (buffer_append mixed_subscription (List.concat mixed_records))
              mixed_records "b" np_int8
              [("a", np_uint16); ("timestamp", np_uint64)] [])
    as (d & H1 & _ & _ & H2).
  - reflexivity.
  - repeat constructor.
  - vm_compute. discriminate.
  - reflexivity.
  - reflexivity.
  - exists d. split; [exact H1 | exact H2].
Defined.

Lemma buffer_append_nil (m : _MessageAddLogged) : buffer_append m [] = m.
Proof. destruct m. unfold buffer_append. simpl. now rewrite app_nil_r. Qed.

Lemma buffer_append_app (m : _MessageAddLogged) (a b : bytes) :
  buffer_append (buffer_append m a) b = buffer_append m (a ++ b).
Proof. unfold buffer_append. simpl. now rewrite app_assoc. Qed.

Lemma dict_set_keys {V} (k : Z) (v : V) (d : dict Z V) :
  dict_get Z.eqb k d <> None ->
  map fst (dict_set Z.eqb k v d) = map fst d.
Proof.
  induction d as [|[k0 v0] d IH]; simpl; [congruence|].
  destruct (Z.eqb_spec k k0) as [-> | N]; simpl; [reflexivity|].
  intros H. now rewrite IH.
Qed.

Lemma later_max (last t : Z) : 0 <= last -> 0 <= t -> later last t = Z.max last t.
Proof.
  intros Hl Ht. unfold later.
  destruct (Z.eqb_spec t 0); destruct (Z.ltb_spec last t); simpl; lia.
Qed.

(** The pass of the data loop over the framed record of a subscription. *)
Lemma data_step_record flt ts self id sub r rest :
  0 <= id < 65536 ->
  dict_get Z.eqb id (_subscriptions self) = Some sub ->
  (timestamp_offset sub + 8 <= List.length r)%nat ->
  Z.of_nat (List.length r) + 2 < 65536 ->
  remaining (_file_handle self) = data_message id r ++ rest ->
  exists self',
    data_step flt ts self = Continue self' (stamp sub r)
    /\ _subscriptions self'
       = dict_set Z.eqb id (buffer_append sub r) (_subscriptions self)
    /\ remaining (_file_handle self') = rest
    /\ _last_timestamp self' = later (_last_timestamp self) (stamp sub r)
    /\ _data_list self' = _data_list self.
Proof.
  intros Hid Hget Hts Hsmall Hstream.
  destruct (@data_step_message flt ts self MSG_TYPE_DATA (le_bytes 2 id ++ r) rest
              Hstream) as [Hrest Hstep].
  { unfold MSG_TYPE_DATA; lia. }
  { rewrite length_app, le_bytes_length. lia. }
  rewrite Hstep, data_dispatch_data by reflexivity.
  unfold MessageData_initialize.
  change (slice 0 2 (le_bytes 2 id ++ r)) with (le_bytes 2 id).
  unfold _unpack_ushort, unpack_exact. rewrite le_bytes_length.
  cbn [Nat.eqb bind]. rewrite le_uint_le_bytes_small by (pow_consts; lia).
  change (_subscriptions (set_file_handle ?f self)) with (_subscriptions self).
  rewrite Hget.
  change (slice_from 2 (le_bytes 2 id ++ r)) with r.
  assert (S8 : slice (timestamp_offset sub + 2) (timestamp_offset sub + 10)
                 (le_bytes 2 id ++ r)
               = slice (timestamp_offset sub) (timestamp_offset sub + 8) r).
  { unfold slice.
    replace (timestamp_offset sub + 10 - (timestamp_offset sub + 2))%nat
      with 8%nat by lia.
    replace (timestamp_offset sub + 8 - timestamp_offset sub)%nat
      with 8%nat by lia.
    replace (timestamp_offset sub + 2)%nat with (S (S (timestamp_offset sub)))
      by lia.
    reflexivity. }
  rewrite S8. unfold _unpack_uint64, unpack_exact.
  rewrite slice_length by lia.
  replace (timestamp_offset sub + 8 - timestamp_offset sub)%nat with 8%nat by lia.
  cbn [Nat.eqb bind]. fold (stamp sub r).
  change (_last_timestamp (set_subscriptions ?v ?s)) with (_last_timestamp s).
  change (_last_timestamp (set_file_handle ?f self)) with (_last_timestamp self).
  unfold later.
  destruct (negb (stamp sub r =? 0) && (_last_timestamp self <? stamp sub r));
    eexists; (split; [reflexivity|]); repeat split; exact Hrest.
Qed.

Lemma data_run_records flt id (rs : list bytes) :
  forall sub self ts rest,
    0 <= id < 65536 ->
    dict_get Z.eqb id (_subscriptions self) = Some sub ->
    Forall (fun r => (timestamp_offset sub + 8 <= List.length r)%nat
                     /\ Z.of_nat (List.length r) + 2 < 65536) rs ->
    remaining (_file_handle self)
    = List.concat (map (data_message id) rs) ++ rest ->
    exists ts' self',
      data_run (List.length rs) flt ts self = Some (ts', self')
      /\ dict_get Z.eqb id (_subscriptions self')
         = Some (buffer_append sub (List.concat rs))
      /\ (forall other, other <> id ->
            dict_get Z.eqb other (_subscriptions self')
            = dict_get Z.eqb other (_subscriptions self))
      /\ map fst (_subscriptions self') = map fst (_subscriptions self)
      /\ remaining (_file_handle self') = rest
      /\ _last_timestamp self'
         = fold_left later (map (stamp sub) rs) (_last_timestamp self)
      /\ _data_list self' = _data_list self.
Proof.
  induction rs as [|r rs IH]; intros sub self ts rest Hid Hget Hrs Hstream.
  - exists ts, self. cbn [List.length data_run List.concat map fold_left].
    rewrite buffer_append_nil. repeat split; assumption.
  - inversion Hrs as [|x y [Hts Hsmall] Hrs']; subst.
    cbn [map List.concat] in Hstream. rewrite <- app_assoc in Hstream.
    destruct (@data_step_record flt ts self id sub r _ Hid Hget Hts Hsmall Hstream)
      as (s1 & Hstep & Hsubs & Hrest & Hlast & Hdl).
    assert (Hget1 : dict_get Z.eqb id (_subscriptions s1)
                    = Some (buffer_append sub r))
      by (rewrite Hsubs; apply dict_get_set_same).
    destruct (IH (buffer_append sub r) s1 (stamp sub r) rest Hid Hget1 Hrs' Hrest)
      as (ts' & s2 & Hrun & G1 & G2 & G3 & G4 & G5 & G6).
    exists ts', s2. cbn [List.length data_run]. rewrite Hstep.
    split; [exact Hrun|]. split.
    { rewrite G1, buffer_append_app. reflexivity. }
    split.
    { intros other Hne. rewrite (G2 other Hne), Hsubs.
      now apply dict_get_set_other. }
    split.
    { rewrite G3, Hsubs. apply dict_set_keys. congruence. }
    split; [exact G4|]. split; [|congruence].
    cbn [map fold_left]. rewrite G5, Hlast. reflexivity.
Qed.

Lemma stamp_nonneg sub r : 0 <= stamp sub r.
Proof. apply le_uint_nonneg. Qed.

Lemma fold_later_max (ts : list Z) :
  forall last, 0 <= last -> Forall (fun t => 0 <= t) ts ->
    fold_left later ts last = fold_left Z.max ts last.
Proof.
  induction ts as [|t ts IH]; intros last Hl Hts; [reflexivity|].
  inversion Hts; subst. cbn [fold_left].
  rewrite later_max by assumption. apply IH; [lia | assumption].
Qed.

(** X25.  Data records of a subscribed id that follow each other are
    accumulated in order: after as many passes as there are records, the
    buffer of the subscription is the old one followed by the records,
    the other subscriptions and the order of the table are as before,
    the file stands after the last record, and the last timestamp is the
    largest of the one before and the timestamps read in the records. *)
Theorem records_accumulate
  (flt : name_filter) (self : ULog) (ts id : Z) (sub : _MessageAddLogged)
  (rs : list bytes) (rest : bytes)
  (Hid : 0 <= id < 65536)
  (Hget : dict_get Z.eqb id (_subscriptions self) = Some sub)
  (Hrs : Forall (fun r => (timestamp_offset sub + 8 <= List.length r)%nat
                          /\ Z.of_nat (List.length r) + 2 < 65536) rs)
  (Hlast : 0 <= _last_timestamp self)
  (Hstream : remaining (_file_handle self)
             = List.concat (map (data_message id) rs) ++ rest) :
  exists ts' self',
    data_run (List.length rs) flt ts self = Some (ts', self')
    /\ dict_get Z.eqb id (_subscriptions self')
       = Some (buffer_append sub (List.concat rs))
    /\ (forall other, other <> id ->
          dict_get Z.eqb other (_subscriptions self')
          = dict_get Z.eqb other (_subscriptions self))
    /\ map fst (_subscriptions self') = map fst (_subscriptions self)
    /\ remaining (_file_handle self') = rest
    /\ _last_timestamp self'
       = fold_left Z.max (map (stamp sub) rs) (_last_timestamp self).
Proof.
  destruct (@data_run_records flt id rs sub self ts rest Hid Hget Hrs Hstream)
    as (ts' & s & Hrun & G1 & G2 & G3 & G4 & G5 & _).
  exists ts', s. repeat (split; [assumption|]).
  rewrite G5. apply fold_later_max; [exact Hlast|].
  apply Forall_forall. intros t Hin. apply in_map_iff in Hin as (r & <- & _).
  apply stamp_nonneg.
Qed.

(** The three records stamped 1000, 3000 and 2000. *)
Lemma records_accumulate_witness :
  exists ts' self',
    data_run 3 None 0 mixed_subscribed = Some (ts', self')
    /\ dict_get Z.eqb 3 (_subscriptions self')
       = Some (buffer_append mixed_subscription (List.concat mixed_records))
    /\ remaining (_file_handle self') = []
    /\ _last_timestamp self' = 3000.
Proof.
  destruct (@records_accumulate None mixed_subscribed 0 3 mixed_subscription
              mixed_records [])
    as (ts' & s & H1 & H2 & _ & _ & H5 & H6).
  - lia.
  - reflexivity.
  - repeat constructor; vm_compute; congruence.
  - vm_compute. congruence.
  - vm_compute. reflexivity.
  - exists ts', s. repeat (split; [assumption|]). rewrite H6. reflexivity.
Defined.

Lemma data_step_at_end flt ts self :
  remaining (_file_handle self) = [] ->
  data_step flt ts self
  = Raised (set_file_handle (snd (read 3 (_file_handle self))) self) StructError.
Proof.
  intros H. rewrite data_step_eq. cbv zeta. rewrite H.
  now rewrite header_initialize_short by (simpl; lia).
Qed.

Lemma single_entry {V} (k : Z) (v : V) (d : dict Z V) :
  map fst d = [k] -> dict_get Z.eqb k d = Some v -> d = [(k, v)].
Proof.
  destruct d as [|[k0 v0] [|? ?]]; simpl; try discriminate.
  intros H. inversion H; subst. rewrite Z.eqb_refl. congruence.
Qed.

Lemma single_topic_data_phase
  (flt : name_filter) (self : ULog) (id : Z) (sub : _MessageAddLogged)
  (rs : list bytes) (name : string) (t : np_type) (before after : np_dtype) :
  0 <= id < 65536 ->
  _subscriptions self = [(id, sub)] ->
  buffer sub = [] -> _data_list self = [] ->
  Forall (fun r => List.length r = itemsize (dtype sub)) rs ->
  rs <> [] ->
  (timestamp_offset sub + 8 <= itemsize (dtype sub))%nat ->
  Z.of_nat (itemsize (dtype sub)) + 2 < 65536 ->
  dtype sub = before ++ (name, t) :: after ->
  has_dup (map fst (dtype sub)) = false ->
  remaining (_file_handle self) = List.concat (map (data_message id) rs) ->
  exists final d,
    _read_file_data flt self = Some (final, None)
    /\ _data_list final = [d]
    /\ get_dataset final (message_name sub) (multi_id sub) = Ok d
    /\ dict_get String.eqb name (data d) = Some (column t (itemsize before) rs).
Proof.
  intros Hid Hsubs Hfresh Hnone Hrs Hne Hts Hsmall Hdt Hnd Hstream.
  assert (Hget : dict_get Z.eqb id (_subscriptions self) = Some sub)
    by (rewrite Hsubs; simpl; now rewrite Z.eqb_refl).
  assert (Hrs' : Forall (fun r => (timestamp_offset sub + 8 <= List.length r)%nat
                                  /\ Z.of_nat (List.length r) + 2 < 65536) rs).
  { eapply Forall_impl; [|exact Hrs]. cbv beta. intros r ->. split; lia. }
  rewrite <- (app_nil_r (List.concat _)) in Hstream.
  destruct (@data_run_records flt id rs sub self 0 [] Hid Hget Hrs' Hstream)
    as (ts' & s & Hrun & G1 & _ & G3 & G4 & _ & G6).
  pose proof (@data_step_at_end flt ts' s G4) as Hend.
  set (s_r := set_file_handle _ s) in Hend.
  assert (Hloop : data_loop 1 flt ts' s = Some (s_r, Some StructError))
    by (simpl; now rewrite Hend).
  rewrite Hsubs in G3. cbn [map fst] in G3.
  pose proof (single_entry _ G3 G1) as Htable.
  set (sub' := buffer_append sub (List.concat rs)) in *.
  assert (Hbuf : buffer sub' = List.concat rs)
    by (unfold sub', buffer_append; cbn [buffer]; now rewrite Hfresh).
  destruct (@Data_init_concat sub' rs name t before after Hbuf Hrs
              ltac:(change (dtype sub') with (dtype sub); lia) Hdt Hnd)
    as (d & Hd & Hname & Hmulti & Hcol).
  assert (Hlen : Nat.ltb 0 (List.length (buffer sub')) = true).
  { rewrite Hbuf. apply Nat.ltb_lt.
    destruct rs as [|r rs']; [congruence|].
    inversion Hrs; subst. cbn [List.concat]. rewrite length_app. lia. }
  exists (set_data_list (_data_list s ++ [d]) (set_subscriptions [] s_r)), d.
  split.
  { unfold _read_file_data.
    rewrite (@data_loop_after_run _ _ _ _ _ _ _ _ Hrun Hloop).
    change (_subscriptions s_r) with (_subscriptions s). rewrite Htable.
    cbn [rev app materialize]. rewrite Hlen, Hd. reflexivity. }
  cbn [_data_list set_data_list]. rewrite G6, Hnone. cbn [app].
  split; [reflexivity|]. split; [|exact Hcol].
  unfold get_dataset. cbn [_data_list set_data_list filter].
  rewrite Hname, Hmulti. change (message_name sub') with (message_name sub).
  change (multi_id sub') with (multi_id sub).
  now rewrite String.eqb_refl, Z.eqb_refl.
Qed.

(** X26.  From an object whose table holds one subscription, with an
    empty buffer, whose decoded list is empty, and whose stream goes on
    with one or more framed data records of that subscription's id, each
    as long as the record of its dtype: when the eight bytes at the
    subscription's timestamp offset lie within the record (as they do
    when the type has a 64-bit [timestamp] field), the id fits 16 bits,
    record and id fit a message, and the dtype has no repeated name, the
    data phase ends without an exception, the result holds one topic,
    [get_dataset] finds it under the name and instance of the
    subscription, and the column of each field holds one value per
    record, in the order of the stream, decoded from the record at the
    offset of the field. *)
Theorem single_topic_read_back
  (flt : name_filter) (self : ULog) (id : Z) (sub : _MessageAddLogged)
  (rs : list bytes) (name : string) (t : np_type) (before after : np_dtype)
  (Hid : 0 <= id < 65536)
  (Hsubs : _subscriptions self = [(id, sub)])
  (Hfresh : buffer sub = [])
  (Hnone : _data_list self = [])
  (Hrs : Forall (fun r => List.length r = itemsize (dtype sub)) rs)
  (Hne : rs <> [])
  (Hts : (timestamp_offset sub + 8 <= itemsize (dtype sub))%nat)
  (Hsmall : Z.of_nat (itemsize (dtype sub)) + 2 < 65536)
  (Hdt : dtype sub = before ++ (name, t) :: after)
  (Hnd : has_dup (map fst (dtype sub)) = false)
  (Hstream : remaining (_file_handle self)
             = List.concat (map (data_message id) rs)) :
  exists final d,
    _read_file_data flt self = Some (final, None)
    /\ _data_list final = [d]
    /\ get_dataset final (message_name sub) (multi_id sub) = Ok d
    /\ dict_get String.eqb name (data d) = Some (column t (itemsize before) rs).
Proof.
  exact (@single_topic_data_phase flt self id sub rs name t before after
           Hid Hsubs Hfresh Hnone Hrs Hne Hts Hsmall Hdt Hnd Hstream).
Qed.

(** The three records of [{uint16_t a; uint64_t timestamp; int8_t b}]
    after their subscription: the timestamps come back in stream order. *)
Lemma single_topic_read_back_witness :
  exists final d,
    _read_file_data None mixed_subscribed = Some (final, None)
    /\ get_dataset final "m" 0 = Ok d
    /\ dict_get String.eqb "timestamp" (data d)
       = Some [NpInt 1000; NpInt 3000; NpInt 2000].
Proof.
  destruct (@single_topic_read_back None mixed_subscribed 3 mixed_subscription
              mixed_records "timestamp" np_uint64
              [("a", np_uint16)] [("b", np_int8)])
    as (final & d & H1 & _ & H3 & H4).
  - lia.
  - reflexivity.
  - reflexivity.
  - reflexivity.
  - repeat constructor.
  - discriminate.
  - vm_compute. lia.
  - vm_compute. reflexivity.
  - reflexivity.
  - reflexivity.
  - vm_compute. reflexivity.
  - exists final, d. split; [exact H1|]. split; [exact H3 | exact H4].
Defined.

(* ================================================================== *)
(** ** Flattening that fails                                           *)
(* ================================================================== *)

Lemma fields_loop_app nested prefix_str (a b : list (string * Z * string)) :
  forall self,
    fields_loop nested prefix_str (a ++ b) self
    = (s <- fields_loop nested prefix_str a self ;;
       fields_loop nested prefix_str b s).
Proof.
  induction a as [|[[ty n] f] a IH]; intros self; cbn [app fields_loop];
    [reflexivity|].
  cbv zeta. destruct (prim_of_string ty); [apply IH|].
  destruct (1 <? n).
  - destruct (index_loop _ _ _ _); cbn [bind]; [apply IH | reflexivity].
  - destruct (nested _ _ _); cbn [bind]; [apply IH | reflexivity].
Qed.

Lemma parse_nested_type_missing depth prefix_str type_name message_formats self :
  dict_get String.eqb type_name message_formats = None ->
  _parse_nested_type (S depth) prefix_str type_name message_formats self
  = Raise KeyError.
Proof.
  intros H.
  change (_parse_nested_type (S depth) prefix_str type_name message_formats self)
    with (match dict_get String.eqb type_name message_formats with
          | None => Raise KeyError
          | Some message_format =>
              fields_loop
                (fun p t s => _parse_nested_type depth p t message_formats s)
                prefix_str (fields message_format) self
          end).
  now rewrite H.
Qed.

(** The call on the first composite field of a list that starts with
    primitive fields decides the loop when it raises. *)
Lemma fields_loop_raises nested prefix_str prims ty n fname rest self e :
  Forall (fun f => prim_of_string (fst (fst f)) <> None) prims ->
  prim_of_string ty = None ->
  (forall p s, nested p ty s = Raise e) ->
  fields_loop nested prefix_str (prims ++ (ty, n, fname) :: rest) self = Raise e.
Proof.
  intros Hprims Hcomp Hnested. rewrite fields_loop_app.
  destruct (@fields_loop_primitive nested prefix_str prims self Hprims)
    as (flat & idx & E & _).
  rewrite E. cbn [bind fields_loop]. rewrite Hcomp. cbv zeta.
  destruct (Z.ltb_spec 1 n) as [L|L].
  - destruct (Z.to_nat n) as [|k] eqn:K; [lia|].
    cbn [seq index_loop]. now rewrite Hnested.
  - now rewrite Hnested.
Qed.

Lemma parse_nested_type_cyclic message_formats name mf prims n fname rest :
  dict_get String.eqb name message_formats = Some mf ->
  fields mf = prims ++ (name, n, fname) :: rest ->
  Forall (fun f => prim_of_string (fst (fst f)) <> None) prims ->
  prim_of_string name = None ->
  forall depth prefix_str self,
    _parse_nested_type depth prefix_str name message_formats self
    = Raise RecursionError.
Proof.
  intros Hget Hfields Hprims Hcomp.
  induction depth as [|depth IH]; intros prefix_str self; [reflexivity|].
  rewrite (@parse_nested_type_unfold _ _ _ _ _ _ Hget), Hfields.
  apply fields_loop_raises; [exact Hprims | exact Hcomp |].
  intros p s. apply IH.
Qed.

(** X27.  Flattening a registered type whose fields are primitive up to
    a field of a composite type: when that type is not in the registry
    the subscription's layout raises [KeyError]; when that type is the
    type being flattened itself the layout raises [RecursionError]. *)
Theorem flatten_missing_or_cyclic
  (message_formats : formats_t) (name : string) (mf : MessageFormat)
  (prims rest : list (string * Z * string)) (ty fname : string) (n : Z)
  (Hget : dict_get String.eqb name message_formats = Some mf)
  (Hfields : fields mf = prims ++ (ty, n, fname) :: rest)
  (Hprims : Forall (fun f => prim_of_string (fst (fst f)) <> None) prims)
  (Hcomp : prim_of_string ty = None) :
  (dict_get String.eqb ty message_formats = None ->
   _parse_format name message_formats = Raise KeyError)
  /\ (ty = name ->
      _parse_format name message_formats = Raise RecursionError).
Proof.
  unfold _parse_format. split.
  - intros Hnone.
    change recursion_limit with (S (S 998)).
    rewrite (@parse_nested_type_unfold _ _ _ _ _ _ Hget), Hfields.
    rewrite fields_loop_raises with (e := KeyError);
      [reflexivity | exact Hprims | exact Hcomp |].
    intros p s. now apply parse_nested_type_missing.
  - intros ->.
    now rewrite (@parse_nested_type_cyclic message_formats name mf prims n fname
                   rest Hget Hfields Hprims Hcomp).
Qed.

(** [outer] has a field of the undeclared type [inner]; [node] has an
    array of two [node]s. *)
Lemma flatten_missing_or_cyclic_witness :
  _parse_format "outer" broken_formats = Raise KeyError
  /\ _parse_format "node" broken_formats = Raise RecursionError.
Proof.
  split.
  - apply (proj1 (@flatten_missing_or_cyclic broken_formats "outer"
                    (mk_format "outer"
                       [("uint64_t", 1, "timestamp"); ("inner", 1, "x")])
                    [("uint64_t", 1, "timestamp")] [] "inner" "x" 1
                    eq_refl eq_refl
                    ltac:(repeat constructor; discriminate) eq_refl)).
    reflexivity.
  - apply (proj2 (@flatten_missing_or_cyclic broken_formats "node"
                    (mk_format "node" [("uint8_t", 1, "v"); ("node", 2, "next")])
                    [("uint8_t", 1, "v")] [] "node" "next" 2
                    eq_refl eq_refl
                    ltac:(repeat constructor; discriminate) eq_refl)).
    reflexivity.
Defined.

(* ================================================================== *)
(** ** A file without messages                                         *)
(* ================================================================== *)

(** X28.  A file that ends after its 16-byte header is accepted: the
    constructor returns without exception, the start and the last
    timestamp are both the header's timestamp, no topic, log line,
    dropout, parameter or format has been recorded, and the only thing
    that may have been printed is the warning for a version byte other
    than zero. *)
Theorem header_only_file (version : byte) (start : Z) (flt : name_filter)
  (Hstart : 0 <= start < 2 ^ 64) :
  exists final,
    ULog_init (file_header version start) flt = Some (final, None)
    /\ _start_timestamp final = start
    /\ _last_timestamp final = start
    /\ _data_list final = []
    /\ _logged_messages final = []
    /\ _dropouts final = []
    /\ _message_formats final = []
    /\ _initial_parameters final = []
    /\ _changed_parameters final = []
    /\ stdout final
       = if Byte.eqb version x00 then [] else [WarnUnknownVersion].
Proof.
  assert (L : le_uint (le_bytes 8 start) = start)
    by (now apply le_uint_le_bytes_small).
  unfold file_header.
  change (le_bytes 8 start)
    with [byte_of_Z start; byte_of_Z (start / 256);
          byte_of_Z (start / 256 / 256); byte_of_Z (start / 256 / 256 / 256);
          byte_of_Z (start / 256 / 256 / 256 / 256);
          byte_of_Z (start / 256 / 256 / 256 / 256 / 256);
          byte_of_Z (start / 256 / 256 / 256 / 256 / 256 / 256);
          byte_of_Z (start / 256 / 256 / 256 / 256 / 256 / 256 / 256)] in *.
  revert L.
  generalize (byte_of_Z start) (byte_of_Z (start / 256))
    (byte_of_Z (start / 256 / 256)) (byte_of_Z (start / 256 / 256 / 256))
    (byte_of_Z (start / 256 / 256 / 256 / 256))
    (byte_of_Z (start / 256 / 256 / 256 / 256 / 256))
    (byte_of_Z (start / 256 / 256 / 256 / 256 / 256 / 256))
    (byte_of_Z (start / 256 / 256 / 256 / 256 / 256 / 256 / 256)).
  intros t0 t1 t2 t3 t4 t5 t6 t7 L.
  destruct flt as [names|];
    destruct version;
    (eexists; split; [cbv -[le_uint]; reflexivity|];
     cbn [_start_timestamp _last_timestamp _data_list _logged_messages
          _dropouts _message_formats _initial_parameters _changed_parameters
          stdout];
     repeat split; exact L).
Qed.

Lemma header_only_file_witness :
  exists final,
    ULog_init (file_header x01 123456789) None = Some (final, None)
    /\ _start_timestamp final = 123456789
    /\ _last_timestamp final = 123456789
    /\ _data_list final = []
    /\ stdout final = [WarnUnknownVersion].
Proof.
  destruct (@header_only_file x01 123456789 None) as (final & H1 & H2 & H3 & H4 & R);
    [pow_consts; lia|].
  exists final. repeat (split; [assumption|]).
  destruct R as (_ & _ & _ & _ & _ & R). exact R.
Defined.
